(** * SerpAPI MCP adapters: cache keys, cache, pruning and error paths

    A shallow embedding of the adapter servers of this repository
    (Google Search, Finance, Maps, Scholar and the YouTube transcript
    server) and the properties of their response pipeline.

    Conventions of the embedding.
    - A Python [str] is a [string]; one [ascii] stands for one character,
      which is exact for the ASCII text the adapters build themselves.
    - A decoded JSON document, and more generally any Python value an
      adapter returns, is a [json] tree; a [dict] keeps its insertion
      order as an association list, whose keys are distinct when it stands
      for a Python dictionary. A number is an integer or a float carried
      by its [repr].
    - A call that may raise returns a [py_result]; exceptions carry their
      class and their [str()].
    - The event-loop clock is read in whole seconds ([Z]).
    - What lies outside the repository (the HTTP exchange, pydantic's
      validation of a response model) is a parameter of the operation
      that uses it. *)

From Stdlib Require Import ZArith Lia Ascii List Bool.
From Stdlib Require String.
From stdpp Require Import base strings list gmap pretty.

Local Open Scope Z_scope.

(** ** Python values *)

Unset Elimination Schemes.
Inductive json : Type :=
| JNull
| JBool (b : bool)
| JInt (n : Z)
| JFloat (repr : string)
| JString (s : string)
| JArray (items : list json)
| JObject (fields : list (string * json)).
Set Elimination Schemes.

(** Exception classes met in the adapters, with the subclass relations the
    [except] clauses depend on. *)
Inductive mcp_code : Type := INVALID_PARAMS | INTERNAL_ERROR | METHOD_NOT_FOUND.

Inductive exc_class : Type :=
| ValueError
| JSONDecodeError        (* json.JSONDecodeError, a ValueError *)
| ValidationError        (* pydantic's, a ValueError *)
| KeyError
| TypeError
| AttributeError
| TimeoutError           (* asyncio.TimeoutError *)
| ClientError            (* aiohttp.ClientError *)
| ServerTimeoutError     (* aiohttp's, a ClientError and a TimeoutError *)
| McpError (code : mcp_code)
| TranscriptsDisabled
| VideoUnavailable
| NoTranscriptFound
| OtherException.

Record exc : Type := Exc { exc_type : exc_class; exc_str : string }.

Inductive py_result (A : Type) : Type :=
| Return (a : A)
| Raise (e : exc).
Arguments Return {A} a.
Arguments Raise {A} e.

(** Sequencing: the first exception raised ends the computation. *)
#[global] Instance py_result_bind : MBind py_result :=
  fun A B (k : A -> py_result B) (r : py_result A) =>
    match r with
    | Return a => k a
    | Raise e => Raise e
    end.

#[global] Instance py_result_ret : MRet py_result := fun A a => Return a.

Definition isinstance_ValueError (e : exc) : bool :=
  match exc_type e with
  | ValueError | JSONDecodeError | ValidationError => true
  | _ => false
  end.

Definition isinstance_TimeoutError (e : exc) : bool :=
  match exc_type e with
  | TimeoutError | ServerTimeoutError => true
  | _ => false
  end.

Definition isinstance_ClientError (e : exc) : bool :=
  match exc_type e with
  | ClientError | ServerTimeoutError => true
  | _ => false
  end.

Definition isinstance_JSONDecodeError (e : exc) : bool :=
  match exc_type e with
  | JSONDecodeError => true
  | _ => false
  end.

Definition isinstance_McpError (e : exc) : bool :=
  match exc_type e with
  | McpError _ => true
  | _ => false
  end.

(** ** The tests of [clean_json_dict]

    [v is not None], [v != []], [v != {}], [v != ""]: Python's [!=]
    between a decoded JSON value and an empty container or string is
    false only for that very container or string. *)

Definition is_None (v : json) : bool :=
  match v with JNull => true | _ => false end.

Definition eq_empty_list (v : json) : bool :=
  match v with JArray [] => true | _ => false end.

Definition eq_empty_dict (v : json) : bool :=
  match v with JObject [] => true | _ => false end.

Definition eq_empty_str (v : json) : bool :=
  match v with JString EmptyString => true | _ => false end.

(** One of [null], [""], [[]], [{}]. *)
Definition is_empty_value (v : json) : bool :=
  is_None v || eq_empty_str v || eq_empty_list v || eq_empty_dict v.

(** ** [clean_json_dict], Google Search variant
    (serpapi_google_search.py, also Images and Trends) *)
Module GoogleSearchClean.

(** [v is not None and v != [] and v != {} and v != ""] *)
Definition kept (v : json) : bool :=
  negb (is_None v) && negb (eq_empty_list v) && negb (eq_empty_dict v)
  && negb (eq_empty_str v).

Fixpoint clean_json_dict (data : json) : json :=
  match data with
  | JObject fields =>
      JObject
        ((fix items (kvs : list (string * json)) : list (string * json) :=
            match kvs with
            | [] => []
            | (k, v) :: rest =>
                if kept v then (k, clean_json_dict v) :: items rest
                else items rest
            end) fields)
  | JArray elems =>
      let cleaned_list :=
        (fix each (vs : list json) : list json :=
           match vs with
           | [] => []
           | v :: rest =>
               if kept v then clean_json_dict v :: each rest else each rest
           end) elems in
      match cleaned_list with
      | [] => JNull
      | _ :: _ => JArray cleaned_list
      end
  | _ => data
  end.

End GoogleSearchClean.

(** ** [clean_json_dict], Google Maps variant
    (serpapi_google_maps.py, also Finance and News) *)
Module GoogleMapsClean.

(** [v is not None and v != "" and v != [] and v != {}] *)
Definition kept (v : json) : bool :=
  negb (is_None v) && negb (eq_empty_str v) && negb (eq_empty_list v)
  && negb (eq_empty_dict v).

Fixpoint clean_json_dict (d : json) : json :=
  match d with
  | JNull => JNull
  | JObject fields =>
      JObject
        ((fix items (kvs : list (string * json)) : list (string * json) :=
            match kvs with
            | [] => []
            | (k, v) :: rest =>
                if kept v then (k, clean_json_dict v) :: items rest
                else items rest
            end) fields)
  | JArray elems =>
      JArray
        ((fix each (vs : list json) : list json :=
            match vs with
            | [] => []
            | i :: rest =>
                if negb (is_None i) then clean_json_dict i :: each rest
                else each rest
            end) elems)
  | _ => d
  end.

End GoogleMapsClean.

(** ** The pruning the specification describes

    Written from the specification's sentence, to be compared with the
    code: children are cleaned first and the emptiness test looks at the
    cleaned child; lists lose their null elements only. *)
Fixpoint reference_prune (j : json) : json :=
  match j with
  | JObject fields =>
      JObject
        ((fix items (kvs : list (string * json)) : list (string * json) :=
            match kvs with
            | [] => []
            | (k, v) :: rest =>
                let v' := reference_prune v in
                if is_empty_value v' then items rest else (k, v') :: items rest
            end) fields)
  | JArray elems =>
      JArray
        ((fix each (vs : list json) : list json :=
            match vs with
            | [] => []
            | v :: rest =>
                if is_None v then each rest else reference_prune v :: each rest
            end) elems)
  | _ => j
  end.

(** No key is mapped to [null], [""], [[]] or [{}], at any depth. *)
Fixpoint no_empty_values (j : json) : bool :=
  match j with
  | JObject fields =>
      (fix all (kvs : list (string * json)) : bool :=
         match kvs with
         | [] => true
         | (_, v) :: rest => negb (is_empty_value v) && no_empty_values v && all rest
         end) fields
  | JArray elems =>
      (fix all (vs : list json) : bool :=
         match vs with
         | [] => true
         | v :: rest => no_empty_values v && all rest
         end) elems
  | _ => true
  end.

(** No key is mapped to [null] or [""] and no list holds [null], at any
    depth. *)
Fixpoint no_null_or_blank (j : json) : bool :=
  match j with
  | JObject fields =>
      (fix all (kvs : list (string * json)) : bool :=
         match kvs with
         | [] => true
         | (_, v) :: rest =>
             negb (is_None v) && negb (eq_empty_str v) && no_null_or_blank v && all rest
         end) fields
  | JArray elems =>
      (fix all (vs : list json) : bool :=
         match vs with
         | [] => true
         | v :: rest => negb (is_None v) && no_null_or_blank v && all rest
         end) elems
  | _ => true
  end.

(** Inputs on which testing a value before or after cleaning it makes no
    difference: no value of a map is a non-empty container that the
    pruning empties. *)
Fixpoint settled (j : json) : bool :=
  match j with
  | JObject fields =>
      (fix all (kvs : list (string * json)) : bool :=
         match kvs with
         | [] => true
         | (_, v) :: rest =>
             settled v
             && (is_empty_value v || negb (is_empty_value (reference_prune v)))
             && all rest
         end) fields
  | JArray elems =>
      (fix all (vs : list json) : bool :=
         match vs with
         | [] => true
         | v :: rest => settled v && all rest
         end) elems
  | _ => true
  end.

(** ** Strings and dictionaries *)

Definition chr (n : nat) : ascii := ascii_of_nat n.
Definition ord (c : ascii) : nat := nat_of_ascii c.

Definition DQUOTE : ascii := chr 34.
Definition SQUOTE : ascii := chr 39.
Definition BACKSLASH : ascii := chr 92.
Definition LF : string := String (chr 10) EmptyString.

Definition str1 (c : ascii) : string := String c EmptyString.

(** [sep.join(parts)] *)
Definition py_join (sep : string) (parts : list string) : string :=
  String.concat sep parts.

(** [c in s] for a character *)
Fixpoint char_in (c : ascii) (s : string) : bool :=
  match s with
  | EmptyString => false
  | String d rest => Ascii.eqb c d || char_in c rest
  end.

(** [s.startswith(p)] *)
Definition startswith (p s : string) : bool := String.prefix p s.

(** [sub in s] for strings *)
Fixpoint str_contains (sub s : string) : bool :=
  String.prefix sub s
  || match s with
     | EmptyString => false
     | String _ rest => str_contains sub rest
     end.

(** [s[n:]] *)
Fixpoint drop_chars (n : nat) (s : string) : string :=
  match n, s with
  | O, _ => s
  | S m, EmptyString => EmptyString
  | S m, String _ rest => drop_chars m rest
  end.

(** [s.partition(c)]: the text before the first [c], whether [c] occurs,
    the text after it. *)
Fixpoint partition_char (c : ascii) (s : string) : string * bool * string :=
  match s with
  | EmptyString => (EmptyString, false, EmptyString)
  | String d rest =>
      if Ascii.eqb c d then (EmptyString, true, rest)
      else let '(a, found, b) := partition_char c rest in (String d a, found, b)
  end.

(** [s.split(c)] *)
Fixpoint split_char (c : ascii) (s : string) : list string :=
  match s with
  | EmptyString => [EmptyString]
  | String d rest =>
      if Ascii.eqb c d then EmptyString :: split_char c rest
      else match split_char c rest with
           | [] => [str1 d]
           | w :: ws => String d w :: ws
           end
  end.

Definition lower_char (c : ascii) : ascii :=
  let n := ord c in
  if (Nat.leb 65 n && Nat.leb n 90)%bool then chr (n + 32) else c.

Definition upper_char (c : ascii) : ascii :=
  let n := ord c in
  if (Nat.leb 97 n && Nat.leb n 122)%bool then chr (n - 32) else c.

Fixpoint lower (s : string) : string :=
  match s with
  | EmptyString => EmptyString
  | String c rest => String (lower_char c) (lower rest)
  end.

(** [s.capitalize()], on ASCII text: a letter outside A-Z and a-z, which
    Python would change as well, is left as it is. *)
Definition capitalize (s : string) : string :=
  match s with
  | EmptyString => EmptyString
  | String c rest => String (upper_char c) (lower rest)
  end.

Definition hex_digit (n : nat) : ascii :=
  if Nat.ltb n 10 then chr (48 + n) else chr (87 + n).

Definition hex2 (n : nat) : string :=
  String (hex_digit (Nat.div n 16)) (str1 (hex_digit (Nat.modulo n 16))).

(** [d.get(k)], [k in d], [d[k] = v] on an insertion-ordered dictionary *)
Fixpoint dict_get (k : string) (d : list (string * json)) : option json :=
  match d with
  | [] => None
  | (k', v) :: rest => if String.eqb k k' then Some v else dict_get k rest
  end.

Definition dict_has (k : string) (d : list (string * json)) : bool :=
  match dict_get k d with Some _ => true | None => false end.

Fixpoint dict_set (k : string) (v : json) (d : list (string * json))
  : list (string * json) :=
  match d with
  | [] => [(k, v)]
  | (k', v') :: rest =>
      if String.eqb k k' then (k', v) :: rest else (k', v') :: dict_set k v rest
  end.

(** ** [str()] and [repr()] *)

Definition repr_char (quote : ascii) (c : ascii) : string :=
  let n := ord c in
  if Nat.eqb n 92 then String BACKSLASH (str1 BACKSLASH)
  else if Ascii.eqb c quote then String BACKSLASH (str1 c)
  else if Nat.eqb n 10 then String BACKSLASH "n"
  else if Nat.eqb n 13 then String BACKSLASH "r"
  else if Nat.eqb n 9 then String BACKSLASH "t"
  else if (Nat.ltb n 32 || Nat.eqb n 127
           || (Nat.leb 128 n && Nat.leb n 160) || Nat.eqb n 173)%bool
       then String BACKSLASH ("x" +:+ hex2 n)
  else str1 c.

Fixpoint repr_chars (quote : ascii) (s : string) : string :=
  match s with
  | EmptyString => EmptyString
  | String c rest => repr_char quote c +:+ repr_chars quote rest
  end.

(** [repr(s)]: single quotes, unless the text holds a single quote and no
    double quote. *)
Definition repr_str (s : string) : string :=
  let quote := if (char_in SQUOTE s && negb (char_in DQUOTE s))%bool
               then DQUOTE else SQUOTE in
  str1 quote +:+ repr_chars quote s +:+ str1 quote.

Fixpoint py_repr (v : json) : string :=
  match v with
  | JNull => "None"
  | JBool true => "True"
  | JBool false => "False"
  | JInt n => pretty n
  | JFloat r => r
  | JString s => repr_str s
  | JArray elems =>
      "[" +:+ py_join ", "
        ((fix each (vs : list json) : list string :=
            match vs with
            | [] => []
            | x :: rest => py_repr x :: each rest
            end) elems) +:+ "]"
  | JObject fields =>
      "{" +:+ py_join ", "
        ((fix items (kvs : list (string * json)) : list string :=
            match kvs with
            | [] => []
            | (k, x) :: rest => (repr_str k +:+ ": " +:+ py_repr x) :: items rest
            end) fields) +:+ "}"
  end.

(** [str(v)], what an f-string prints for [{v}] *)
Definition py_str (v : json) : string :=
  match v with
  | JString s => s
  | _ => py_repr v
  end.

(** The name of a value's type, as Python's error messages print it. *)
Definition type_name (v : json) : string :=
  match v with
  | JNull => "NoneType"
  | JBool _ => "bool"
  | JInt _ => "int"
  | JFloat _ => "float"
  | JString _ => "str"
  | JArray _ => "list"
  | JObject _ => "dict"
  end.

(** ** [json.dumps] *)

Definition json_escape_char (c : ascii) : string :=
  let n := ord c in
  if Nat.eqb n 34 then String BACKSLASH (str1 DQUOTE)
  else if Nat.eqb n 92 then String BACKSLASH (str1 BACKSLASH)
  else if Nat.eqb n 10 then String BACKSLASH "n"
  else if Nat.eqb n 13 then String BACKSLASH "r"
  else if Nat.eqb n 9 then String BACKSLASH "t"
  else if Nat.eqb n 8 then String BACKSLASH "b"
  else if Nat.eqb n 12 then String BACKSLASH "f"
  else if (Nat.ltb n 32 || Nat.ltb 126 n)%bool
       then String BACKSLASH ("u00" +:+ hex2 n)
  else str1 c.

Fixpoint json_escape (s : string) : string :=
  match s with
  | EmptyString => EmptyString
  | String c rest => json_escape_char c +:+ json_escape rest
  end.

Definition json_str (s : string) : string :=
  str1 DQUOTE +:+ json_escape s +:+ str1 DQUOTE.

(** [sorted(d.items())]: the items in the order of their keys *)
Fixpoint insert_by_key {V : Type} (kv : string * V) (d : list (string * V))
  : list (string * V) :=
  match d with
  | [] => [kv]
  | kv' :: rest =>
      if String.leb (fst kv) (fst kv') then kv :: kv' :: rest
      else kv' :: insert_by_key kv rest
  end.

Definition sort_items {V : Type} (d : list (string * V)) : list (string * V) :=
  fold_right insert_by_key [] d.

(** A float is written by its [repr], except the three that are not
    finite, for which [json.dumps] has names of its own. *)
Definition json_float (r : string) : string :=
  if String.eqb r "nan" then "NaN"
  else if String.eqb r "inf" then "Infinity"
  else if String.eqb r "-inf" then "-Infinity"
  else r.

Definition json_scalar (v : json) : string :=
  match v with
  | JNull => "null"
  | JBool true => "true"
  | JBool false => "false"
  | JInt n => pretty n
  | JFloat r => json_float r
  | JString s => json_str s
  | _ => EmptyString
  end.

(** [json.dumps(v)] and [json.dumps(v, sort_keys=True)] *)
Fixpoint json_dumps (sort_keys : bool) (v : json) : string :=
  match v with
  | JArray elems =>
      "[" +:+ py_join ", "
        ((fix each (vs : list json) : list string :=
            match vs with
            | [] => []
            | x :: rest => json_dumps sort_keys x :: each rest
            end) elems) +:+ "]"
  | JObject fields =>
      "{" +:+ py_join ", "
        (map (fun kx : string * string => json_str (fst kx) +:+ ": " +:+ snd kx)
           ((if sort_keys then sort_items else fun l => l)
              ((fix items (kvs : list (string * json)) : list (string * string) :=
                  match kvs with
                  | [] => []
                  | (k, x) :: rest => (k, json_dumps sort_keys x) :: items rest
                  end) fields))) +:+ "}"
  | _ => json_scalar v
  end.

Fixpoint spaces (n : nat) : string :=
  match n with
  | O => EmptyString
  | S m => String (chr 32) (spaces m)
  end.

(** [json.dumps(v, indent=2)], the text of a JSON tool result *)
Fixpoint json_dumps_indent (level : nat) (v : json) : string :=
  let inner := LF +:+ spaces (2 * S level) in
  let outer := LF +:+ spaces (2 * level) in
  match v with
  | JArray [] => "[]"
  | JArray elems =>
      "[" +:+ inner +:+ py_join ("," +:+ inner)
        ((fix each (vs : list json) : list string :=
            match vs with
            | [] => []
            | x :: rest => json_dumps_indent (S level) x :: each rest
            end) elems) +:+ outer +:+ "]"
  | JObject [] => "{}"
  | JObject fields =>
      "{" +:+ inner +:+ py_join ("," +:+ inner)
        ((fix items (kvs : list (string * json)) : list string :=
            match kvs with
            | [] => []
            | (k, x) :: rest =>
                (json_str k +:+ ": " +:+ json_dumps_indent (S level) x) :: items rest
            end) fields) +:+ outer +:+ "}"
  | _ => json_scalar v
  end.

(** ** Operations on values of unknown shape

    The renderers read [Dict[str, Any]] fields, whose values may be any
    JSON value; each operation raises what CPython 3.11 raises. *)

Definition raise {A : Type} (c : exc_class) (msg : string) : py_result A :=
  Raise (Exc c msg).

(** [for x in v] *)
Fixpoint chars_of (s : string) : list json :=
  match s with
  | EmptyString => []
  | String c rest => JString (str1 c) :: chars_of rest
  end.

Definition py_iter (v : json) : py_result (list json) :=
  match v with
  | JArray elems => Return elems
  | JObject fields => Return (map (fun kv : string * json => JString (fst kv)) fields)
  | JString s => Return (chars_of s)
  | _ => raise TypeError ("'" +:+ type_name v +:+ "' object is not iterable")
  end.

(** [v.get(k, default)] *)
Definition py_get (v : json) (k : string) (default : json) : py_result json :=
  match v with
  | JObject fields =>
      Return (match dict_get k fields with Some x => x | None => default end)
  | _ => raise AttributeError
           ("'" +:+ type_name v +:+ "' object has no attribute 'get'")
  end.

(** [v.items()] *)
Definition py_items (v : json) : py_result (list (string * json)) :=
  match v with
  | JObject fields => Return fields
  | _ => raise AttributeError
           ("'" +:+ type_name v +:+ "' object has no attribute 'items'")
  end.

Definition is_str (k : string) (v : json) : bool :=
  match v with JString s => String.eqb s k | _ => false end.

(** [k in v] for a string [k] *)
Definition py_contains (k : string) (v : json) : py_result bool :=
  match v with
  | JObject fields => Return (dict_has k fields)
  | JArray elems => Return (existsb (is_str k) elems)
  | JString s => Return (str_contains k s)
  | _ => raise TypeError ("argument of type '" +:+ type_name v +:+ "' is not iterable")
  end.

(** [v[k]] for a string [k] *)
Definition py_getitem (v : json) (k : string) : py_result json :=
  match v with
  | JObject fields =>
      match dict_get k fields with
      | Some x => Return x
      | None => raise KeyError (repr_str k)
      end
  | JArray _ => raise TypeError "list indices must be integers or slices, not str"
  | JString _ => raise TypeError "string indices must be integers, not 'str'"
  | _ => raise TypeError ("'" +:+ type_name v +:+ "' object is not subscriptable")
  end.

(** [d[k]] where [k in d] was just tested on a dictionary [d] *)
Definition dict_item (k : string) (d : list (string * json)) : json :=
  match dict_get k d with Some x => x | None => JNull end.

(** The keyword arguments of a call that unpacks [v] with two stars. The
    error names the class with its module, which is [__main__] for a
    server started as a script. *)
Definition kwargs (cls : string) (v : json) : py_result (list (string * json)) :=
  match v with
  | JObject fields => Return fields
  | _ => raise TypeError
           ("__main__." +:+ cls +:+ "() argument after ** must be a mapping, not "
            +:+ type_name v)
  end.

(** Truth value of an [Optional[str]], [Optional[bool]], [Optional[Dict]]
    or [Optional[List]] field *)
Definition truthy_str (o : option string) : bool :=
  match o with
  | Some (String _ _) => true
  | _ => false
  end.

Definition truthy_bool (o : option bool) : bool :=
  match o with Some true => true | _ => false end.

Definition truthy_list {A : Type} (o : option (list A)) : bool :=
  match o with
  | Some (_ :: _) => true
  | _ => false
  end.

(** Truth value of a value of unknown shape *)
Definition py_truthy (v : json) : bool :=
  match v with
  | JNull | JBool false | JInt 0 | JString EmptyString | JArray [] | JObject [] => false
  | JFloat r => negb (String.eqb r "0.0" || String.eqb r "-0.0")
  | _ => true
  end.

Definition opt_str (o : option string) : json :=
  match o with Some s => JString s | None => JNull end.

Definition opt_int (o : option Z) : json :=
  match o with Some n => JInt n | None => JNull end.

Definition opt_bool (o : option bool) : json :=
  match o with Some b => JBool b | None => JNull end.

(** [for x in xs: ...] where the body yields lines or raises *)
Fixpoint for_each {A : Type} (body : A -> py_result (list string)) (xs : list A)
  : py_result (list string) :=
  match xs with
  | [] => Return []
  | x :: rest =>
      ls ← body x;
      ms ← for_each body rest;
      Return (ls ++ ms)
  end.

(** [for i, x in enumerate(xs): ...], [i] counted from [start] *)
Fixpoint for_each_indexed {A : Type} (body : Z -> A -> py_result (list string))
  (start : Z) (xs : list A) : py_result (list string) :=
  match xs with
  | [] => Return []
  | x :: rest =>
      ls ← body start x;
      ms ← for_each_indexed body (start + 1) rest;
      Return (ls ++ ms)
  end.

(** The output mode an adapter selects: [raw_json] wins over
    [readable_json], and clean is the default. *)
Inductive output_mode : Type := RawMode | ReadableMode | CleanMode.

Definition selected_mode (raw_json readable_json : option bool) : output_mode :=
  if truthy_bool raw_json then RawMode
  else if truthy_bool readable_json then ReadableMode
  else CleanMode.

(** ** The HTTP exchange

    One [session.get] with what the adapter then awaits from the
    response: either a response with its status, its text and its decoded
    JSON body, or the exception raised while waiting. *)
Record request : Type := Request { url : string; params : list (string * json) }.

Inductive http_outcome : Type :=
| Responded (status : Z) (text : string) (body : json)
| Failed (e : exc).

(** What one call of an adapter operation does: its result, the cache it
    leaves and the requests it sent upstream. *)
Record run (C A : Type) : Type :=
  Run { outcome : py_result A; cache_after : C; sent : list request }.
Arguments Run {C A} outcome cache_after sent.
Arguments outcome {C A} r.
Arguments cache_after {C A} r.
Arguments sent {C A} r.

Record TextContent : Type := { type_ : string; text : string }.

(** ** Reading a document field by field

    Used by the reference validators below, which stand in for pydantic
    where an example needs a concrete one. They accept a document only
    when every field has the JSON shape of its annotation, without any
    coercion, so they accept no document pydantic rejects and build the
    model pydantic builds. *)
Definition as_dict (v : json) : option (list (string * json)) :=
  match v with JObject fields => Some fields | _ => None end.

Definition as_str (v : json) : option string :=
  match v with JString s => Some s | _ => None end.

Definition as_int (v : json) : option Z :=
  match v with JInt n => Some n | _ => None end.

Definition as_float (v : json) : option string :=
  match v with JFloat r => Some r | _ => None end.

Definition as_bool (v : json) : option bool :=
  match v with JBool b => Some b | _ => None end.

Definition as_list {A : Type} (read : json -> option A) (v : json) : option (list A) :=
  match v with JArray elems => mapM read elems | _ => None end.

(** A required field *)
Definition required {A : Type} (read : json -> option A) (name : string)
  (kw : list (string * json)) : option A :=
  v ← dict_get name kw; read v.

(** An [Optional] field whose default is [None] *)
Definition optional {A : Type} (read : json -> option A) (name : string)
  (kw : list (string * json)) : option (option A) :=
  match dict_get name kw with
  | None | Some JNull => Some None
  | Some v => x ← read v; Some (Some x)
  end.

(** An [Optional] field with a default value *)
Definition optional_or {A : Type} (d : A) (read : json -> option A) (name : string)
  (kw : list (string * json)) : option (option A) :=
  match dict_get name kw with
  | None => Some (Some d)
  | Some JNull => Some None
  | Some v => x ← read v; Some (Some x)
  end.

(** A constraint on a field's value *)
Definition check (b : bool) : option unit := if b then Some tt else None.

Definition validated {A : Type} (cls : string) (o : option A) : py_result A :=
  match o with
  | Some m => Return m
  | None => raise ValidationError ("validation error for " +:+ cls)
  end.

(** ** Google Search adapter (serpapi_google_search.py) *)
Module GoogleSearch.

Record GoogleSearchArgs : Type := {
  q : string;
  num : option Z;
  start : option Z;
  location : option string;
  gl : option string;
  hl : option string;
  device : option string;
  safe : option string;
  filter : option string;
  time_period : option string;
  exactTerms : option string;
  include_domains : list string;
  exclude_domains : list string;
  raw_json : option bool;
  readable_json : option bool
}.

(** The fields of the response models that the server reads. *)
Record GoogleSearchResult : Type := {
  position : Z;
  title : string;
  link : string;
  displayed_link : string;
  snippet : option string;
  date : option string;
  sitelinks : option (list (string * json))
}.

Record SearchResponseData : Type := {
  search_metadata : list (string * json);
  search_parameters : list (string * json);
  search_information : option (list (string * json));
  organic_results : list GoogleSearchResult;
  related_searches : option (list (list (string * json)));
  pagination : option (list (string * json));
  knowledge_graph : option (list (string * json));
  answer_box : option (list (string * json));
  related_questions : option (list (list (string * json)));
  top_stories : option (list (list (string * json)));
  error : option string
}.

Record GoogleLocationsArgs : Type := {
  locations_q : option string;   (* field [q] of GoogleLocationsArgs *)
  limit : option Z
}.

Inductive GoogleAccountArgs : Type := MkGoogleAccountArgs.

(** Attribute access by name on an arguments object: the class's declared
    fields, and [AttributeError] for any other name. *)
Definition GoogleLocationsArgs_getattr (args : GoogleLocationsArgs) (name : string)
  : py_result json :=
  if String.eqb name "q" then Return (opt_str (locations_q args))
  else if String.eqb name "limit" then Return (opt_int (limit args))
  else raise AttributeError
         ("'GoogleLocationsArgs' object has no attribute " +:+ repr_str name).

Definition GoogleAccountArgs_getattr (args : GoogleAccountArgs) (name : string)
  : py_result json :=
  raise AttributeError
    ("'GoogleAccountArgs' object has no attribute " +:+ repr_str name).

(** [GoogleSearchArgs.validate_start_and_num], the validator of [start].
    Of [info.data] it reads the entry of [num] only, here [data_num]:
    absent when [num] itself failed validation, else the validated
    [Optional[int]]. *)
Definition validate_start_and_num (v : option Z) (data_num : option (option Z))
  : py_result (option Z) :=
  match v with
  | Some start =>
      match default (Some 10) data_num with
      | Some num =>
          if 100 <? start + num then
            raise ValueError
              ("The sum of 'start' and 'num' cannot exceed 100. "
               +:+ "The API will not return more than 100 results total.")
          else Return v
      | None =>
          raise TypeError "unsupported operand type(s) for +: 'int' and 'NoneType'"
      end
  | None => Return v
  end.

Record CachedSearch : Type := {
  query : string;
  response : json;
  timestamp : Z
}.

Record SerpApiServer : Type := {
  api_key : string;
  cache : gmap string CachedSearch
}.

Definition base_url : string := "https://serpapi.com".
Definition LOCATIONS : string := "/locations.json".
Definition ACCOUNT : string := "/account.json".

(** [self.cache_ttl = 3600], set by the constructor. *)
Definition cache_ttl : Z := 3600.

(** [self.cache[key] = CachedSearch(key, response)], stamped with the
    clock's reading [stamp]. *)
Definition store (c : gmap string CachedSearch) (key : string) (resp : json)
  (stamp : Z) : gmap string CachedSearch :=
  <[key := {| query := key; response := resp; timestamp := stamp |}]> c.

Definition clean_json_dict : json -> json := GoogleSearchClean.clean_json_dict.

(** *** [format_search_results] *)

Definition search_information_lines (response : SearchResponseData) : list string :=
  match search_information response with
  | Some ((_ :: _) as info) =>
      ["# Search Information"]
      ++ (if dict_has "total_results" info
          then ["Total Results: " +:+ py_str (dict_item "total_results" info)] else [])
      ++ (if dict_has "time_taken_displayed" info
          then ["Time Taken: " +:+ py_str (dict_item "time_taken_displayed" info)] else [])
      ++ [EmptyString]
  | _ => []
  end.

Definition sitelink_line (link : json) : py_result string :=
  t ← py_get link "title" (JString "Link");
  l ← py_get link "link" (JString "#");
  Return ("- [" +:+ py_str t +:+ "](" +:+ py_str l +:+ ")").

Definition expanded_sitelink_lines (link : json) : py_result (list string) :=
  line ← sitelink_line link;
  has ← py_contains "description" link;
  if has : bool then
    d ← py_getitem link "description";
    Return [line; "  " +:+ py_str d]
  else Return [line].

Definition sitelinks_lines (res : GoogleSearchResult) : py_result (list string) :=
  match sitelinks res with
  | Some ((_ :: _) as sl) =>
      inline ← (if dict_has "inline" sl then
                  links ← py_iter (dict_item "inline" sl);
                  for_each (fun link => line ← sitelink_line link; Return [line]) links
                else Return []);
      expanded ← (if dict_has "expanded" sl then
                    links ← py_iter (dict_item "expanded" sl);
                    for_each expanded_sitelink_lines links
                  else Return []);
      Return ([LF +:+ "Sitelinks:"] ++ inline ++ expanded)
  | _ => Return []
  end.

Definition organic_result_lines (i : Z) (res : GoogleSearchResult)
  : py_result (list string) :=
  sl ← sitelinks_lines res;
  Return (["## " +:+ pretty (i + 1) +:+ ". " +:+ title res;
           "Link: " +:+ link res;
           "Displayed Link: " +:+ displayed_link res]
          ++ (if truthy_str (snippet res)
              then [LF +:+ default EmptyString (snippet res)] else [])
          ++ (if truthy_str (date res)
              then [LF +:+ "Date: " +:+ default EmptyString (date res)] else [])
          ++ sl
          ++ [EmptyString]).

Definition organic_results_lines (response : SearchResponseData)
  : py_result (list string) :=
  match organic_results response with
  | [] => Return []
  | results =>
      body ← for_each_indexed organic_result_lines 0 results;
      Return (("# Organic Results (" +:+ pretty (Z.of_nat (length results)) +:+ ")")
              :: body)
  end.

Definition knowledge_graph_lines (response : SearchResponseData)
  : py_result (list string) :=
  match knowledge_graph response with
  | Some ((_ :: _) as kg) =>
      attrs ← (if dict_has "attributes" kg then
                 kvs ← py_items (dict_item "attributes" kg);
                 Return ((LF +:+ "## Attributes")
                         :: map (fun kv : string * json =>
                                   "- **" +:+ fst kv +:+ "**: " +:+ py_str (snd kv)) kvs)
               else Return []);
      Return (["# Knowledge Graph"]
              ++ (if dict_has "title" kg
                  then ["## " +:+ py_str (dict_item "title" kg)] else [])
              ++ (if dict_has "type" kg
                  then ["Type: " +:+ py_str (dict_item "type" kg)] else [])
              ++ (if dict_has "description" kg
                  then [LF +:+ py_str (dict_item "description" kg)] else [])
              ++ attrs
              ++ [EmptyString])
  | _ => Return []
  end.

(** [Source: [source](link)], where [link] defaults to [#] *)
Definition source_lines (d : list (string * json)) : list string :=
  if dict_has "source" d then
    [LF +:+ "Source: [" +:+ py_str (dict_item "source" d) +:+ "]("
     +:+ py_str (default (JString "#") (dict_get "link" d)) +:+ ")"]
  else [].

Definition answer_box_lines (response : SearchResponseData) : list string :=
  match answer_box response with
  | Some ((_ :: _) as box) =>
      ["# Answer Box"]
      ++ (if dict_has "title" box
          then ["## " +:+ py_str (dict_item "title" box)] else [])
      ++ (if dict_has "answer" box then [py_str (dict_item "answer" box)]
          else if dict_has "snippet" box then [py_str (dict_item "snippet" box)]
          else [])
      ++ source_lines box
      ++ [EmptyString]
  | _ => []
  end.

Fixpoint enumerate_from {A : Type} (i : Z) (xs : list A) : list (Z * A) :=
  match xs with
  | [] => []
  | x :: rest => (i, x) :: enumerate_from (i + 1) rest
  end.

Definition related_question_lines (iq : Z * list (string * json)) : list string :=
  let '(i, question) := iq in
  ["## " +:+ py_str (default (JString ("Question " +:+ pretty (i + 1)))
                       (dict_get "question" question))]
  ++ (if dict_has "snippet" question
      then [py_str (dict_item "snippet" question)] else [])
  ++ source_lines question
  ++ [EmptyString].

Definition related_questions_lines (response : SearchResponseData) : list string :=
  match related_questions response with
  | Some ((_ :: _) as questions) =>
      "# People Also Ask"
      :: concat (map related_question_lines (enumerate_from 0 questions))
  | _ => []
  end.

Definition top_story_lines (istory : Z * list (string * json)) : list string :=
  let '(i, story) := istory in
  ["## " +:+ pretty (i + 1) +:+ ". "
   +:+ py_str (default (JString ("Story " +:+ pretty (i + 1)))
                 (dict_get "title" story))]
  ++ (if dict_has "link" story
      then ["Link: " +:+ py_str (dict_item "link" story)] else [])
  ++ (if dict_has "source" story
      then ["Source: " +:+ py_str (dict_item "source" story)] else [])
  ++ (if dict_has "date" story
      then ["Date: " +:+ py_str (dict_item "date" story)] else [])
  ++ (if dict_has "snippet" story
      then [LF +:+ py_str (dict_item "snippet" story)] else [])
  ++ [EmptyString].

Definition top_stories_lines (response : SearchResponseData) : list string :=
  match top_stories response with
  | Some ((_ :: _) as stories) =>
      ("# Top Stories (" +:+ pretty (Z.of_nat (length stories)) +:+ ")")
      :: concat (map top_story_lines (enumerate_from 0 stories))
  | _ => []
  end.

Definition related_search_line (search : list (string * json)) : string :=
  "- [" +:+ py_str (default (JString EmptyString) (dict_get "query" search))
  +:+ "](" +:+ py_str (default (JString "#") (dict_get "link" search)) +:+ ")".

Definition related_searches_lines (response : SearchResponseData) : list string :=
  match related_searches response with
  | Some ((_ :: _) as searches) =>
      ["# Related Searches"] ++ map related_search_line searches ++ [EmptyString]
  | _ => []
  end.

Definition pagination_lines (response : SearchResponseData) : py_result (list string) :=
  match pagination response with
  | Some ((_ :: _) as pg) =>
      other ← (if dict_has "other_pages" pg then
                 pages ← py_iter (dict_item "other_pages" pg);
                 Return ["Other Pages: " +:+ py_join ", " (map py_str pages)]
               else Return []);
      Return (["# Pagination"]
              ++ (if dict_has "current" pg
                  then ["Current Page: " +:+ py_str (dict_item "current" pg)] else [])
              ++ (if dict_has "next" pg
                  then ["Next Page: " +:+ py_str (dict_item "next" pg)] else [])
              ++ other
              ++ [EmptyString])
  | _ => Return []
  end.

Definition format_search_results (response : SearchResponseData) : py_result string :=
  let result := search_information_lines response in
  if truthy_str (error response) then
    Return (py_join LF
              (result ++ ["# Error"; default EmptyString (error response); EmptyString]))
  else
    organic ← organic_results_lines response;
    kg ← knowledge_graph_lines response;
    pg ← pagination_lines response;
    Return (py_join LF
              (result ++ organic ++ kg ++ answer_box_lines response
               ++ related_questions_lines response ++ top_stories_lines response
               ++ related_searches_lines response ++ pg)).

(** *** The operations of the server

    Parameters: pydantic's validation of the response model and of each
    tool's arguments, and [json.loads]. *)
Section Server.

Variable validate_response : list (string * json) -> py_result SearchResponseData.
Variable parse_search_args : list (string * json) -> py_result GoogleSearchArgs.
Variable parse_locations_args : list (string * json) -> py_result GoogleLocationsArgs.
Variable parse_account_args : list (string * json) -> py_result GoogleAccountArgs.
Variable json_loads : string -> py_result json.

(** The query parameters [search] sends upstream. *)
Definition search_params (self : SerpApiServer) (args : GoogleSearchArgs)
  : list (string * json) :=
  let params := [("engine", JString "google");
                 ("api_key", JString (api_key self));
                 ("q", JString (q args));
                 ("num", opt_int (num args))] in
  let params := match start args with
                | Some n => dict_set "start" (JInt n) params | None => params end in
  let params := match location args with
                | Some x => dict_set "location" (JString x) params | None => params end in
  let params := match gl args with
                | Some x => dict_set "gl" (JString x) params | None => params end in
  let params := match hl args with
                | Some x => dict_set "hl" (JString x) params | None => params end in
  let params := match device args with
                | Some x => dict_set "device" (JString x) params | None => params end in
  let params := match safe args with
                | Some x => dict_set "safe" (JString x) params | None => params end in
  let params := match filter args with
                | Some x => dict_set "filter" (JString x) params | None => params end in
  let params := match time_period args with
                | Some x => dict_set "tbs" (JString ("qdr:" +:+ x)) params
                | None => params end in
  let params := match exactTerms args with
                | Some x => dict_set "exactTerms" (JString x) params | None => params end in
  let params :=
    match include_domains args with
    | [] => params
    | domains =>
        let site_query :=
          py_join " OR " (map (fun domain => "site:" +:+ domain) domains) in
        dict_set "q"
          (JString ("(" +:+ py_str (dict_item "q" params) +:+ ") " +:+ site_query))
          params
    end in
  match exclude_domains args with
  | [] => params
  | domains =>
      let exclude_query :=
        py_join " " (map (fun domain => "-site:" +:+ domain) domains) in
      dict_set "q"
        (JString (py_str (dict_item "q" params) +:+ " " +:+ exclude_query))
        params
  end.

(** [json.dumps(params, sort_keys=True)] followed by the format suffix. *)
Definition search_cache_key (self : SerpApiServer) (args : GoogleSearchArgs) : string :=
  let cache_key := json_dumps true (JObject (search_params self args)) in
  if truthy_bool (raw_json args) then cache_key +:+ "_raw"
  else if truthy_bool (readable_json args) then cache_key +:+ "_readable"
  else cache_key +:+ "_clean".

(** The part of [search] that turns a decoded body into the response of
    the requested format and stores it. *)
Definition search_respond (self : SerpApiServer) (stamp : Z) (args : GoogleSearchArgs)
  (cache_key : string) (json_response : json)
  : json * gmap string CachedSearch :=
  if truthy_bool (raw_json args) then
    (json_response, store (cache self) cache_key json_response stamp)
  else if truthy_bool (readable_json args) then
    match (kw ← kwargs "SearchResponseData" json_response;
           response_data ← validate_response kw;
           format_search_results response_data) with
    | Return formatted_response =>
        (JString formatted_response,
         store (cache self) cache_key (JString formatted_response) stamp)
    | Raise _ =>
        (* Fall back to raw JSON if formatting fails *)
        (json_response, store (cache self) cache_key json_response stamp)
    end
  else
    let clean_response := clean_json_dict json_response in
    (clean_response, store (cache self) cache_key clean_response stamp).

(** The body of the [try] in [search]. *)
Definition search_attempt (self : SerpApiServer) (stamp : Z) (args : GoogleSearchArgs)
  (cache_key : string) (reply : http_outcome)
  : py_result (json * gmap string CachedSearch) :=
  match reply with
  | Failed e => Raise e
  | Responded status error_text json_response =>
      if negb (status =? 200) then
        raise (McpError INTERNAL_ERROR)
          ("SerpAPI returned an error: " +:+ pretty status +:+ " - " +:+ error_text)
      else
        has_error ← py_contains "error" json_response;
        if has_error : bool then
          err ← py_getitem json_response "error";
          raise (McpError INTERNAL_ERROR)
            ("SerpAPI returned an error: " +:+ py_str err)
        else Return (search_respond self stamp args cache_key json_response)
  end.

(** The [except] clauses of [search]: every exception leaves as an
    [McpError]. *)
Definition search_handler (e : exc) : exc :=
  if isinstance_ClientError e then
    Exc (McpError INTERNAL_ERROR) ("HTTP error during SerpAPI request: " +:+ exc_str e)
  else if isinstance_JSONDecodeError e then
    Exc (McpError INTERNAL_ERROR) ("Error decoding JSON from SerpAPI: " +:+ exc_str e)
  else
    Exc (McpError INTERNAL_ERROR)
      ("Unexpected error during SerpAPI request: " +:+ exc_str e).

(** [SerpApiServer.search]; [stamp] is the clock's reading when the
    response is stored. *)
Definition search (self : SerpApiServer) (stamp : Z)
  (upstream : request -> http_outcome) (args : GoogleSearchArgs)
  : run (gmap string CachedSearch) json :=
  let params := search_params self args in
  let cache_key := search_cache_key self args in
  match cache self !! cache_key with
  | Some cached => Run (Return (response cached)) (cache self) []
  | None =>
      let req := Request base_url params in
      match search_attempt self stamp args cache_key (upstream req) with
      | Return (r, c) => Run (Return r) c [req]
      | Raise e => Run (Raise (search_handler e)) (cache self) [req]
      end
  end.

(** The error message of a non-200 reply of the locations and account
    endpoints: the [error] member of the body when it decodes to a
    dictionary, the body's text otherwise. *)
Definition endpoint_error_message (error_text : string) : json :=
  match (error_json ← json_loads error_text;
         py_get error_json "error" (JString error_text)) with
  | Return m => m
  | Raise _ => JString error_text
  end.

Definition endpoint_handler (what : string) (e : exc) : exc :=
  if isinstance_TimeoutError e then
    Exc (McpError INTERNAL_ERROR) ("SerpAPI " +:+ what +:+ " request timed out")
  else if isinstance_McpError e then e
  else Exc (McpError INTERNAL_ERROR) ("SerpAPI " +:+ what +:+ " error: " +:+ exc_str e).

Definition locations_params (self : SerpApiServer) (args : GoogleLocationsArgs)
  : list (string * json) :=
  let params := [("api_key", JString (api_key self))] in
  let params := if truthy_str (locations_q args)
                then dict_set "q" (opt_str (locations_q args)) params else params in
  if py_truthy (opt_int (limit args))
  then dict_set "limit" (opt_int (limit args)) params else params.

Definition locations_attempt (reply : http_outcome) : py_result json :=
  match reply with
  | Failed e => Raise e
  | Responded status error_text data =>
      if negb (status =? 200) then
        raise (McpError INTERNAL_ERROR)
          ("SerpAPI locations error: " +:+ py_str (endpoint_error_message error_text))
      else
        match data with
        | JObject fields =>
            if dict_has "error" fields then
              raise (McpError INTERNAL_ERROR)
                ("SerpAPI locations error: " +:+ py_str (dict_item "error" fields))
            else Return data
        | _ => Return data
        end
  end.

(** [SerpApiServer.locations] *)
Definition locations (self : SerpApiServer) (upstream : request -> http_outcome)
  (args : GoogleLocationsArgs) : run (gmap string CachedSearch) json :=
  let req := Request (base_url +:+ LOCATIONS) (locations_params self args) in
  match locations_attempt (upstream req) with
  | Return data => Run (Return data) (cache self) [req]
  | Raise e => Run (Raise (endpoint_handler "locations" e)) (cache self) [req]
  end.

Definition account_attempt (reply : http_outcome) : py_result json :=
  match reply with
  | Failed e => Raise e
  | Responded status error_text data =>
      if negb (status =? 200) then
        raise (McpError INTERNAL_ERROR)
          ("SerpAPI account error: " +:+ py_str (endpoint_error_message error_text))
      else
        has_error ← py_contains "error" data;
        if has_error : bool then
          err ← py_getitem data "error";
          raise (McpError INTERNAL_ERROR) ("SerpAPI account error: " +:+ py_str err)
        else Return data
  end.

(** [SerpApiServer.account] *)
Definition account (self : SerpApiServer) (upstream : request -> http_outcome)
  (args : GoogleAccountArgs) : run (gmap string CachedSearch) json :=
  let req := Request (base_url +:+ ACCOUNT) [("api_key", JString (api_key self))] in
  match account_attempt (upstream req) with
  | Return data => Run (Return data) (cache self) [req]
  | Raise e => Run (Raise (endpoint_handler "account" e)) (cache self) [req]
  end.

Definition location_lines (location : json) : py_result (list string) :=
  name ← py_get location "name" (JString "Unknown");
  canonical ← py_get location "canonical_name" (JString "Unknown");
  has_country ← py_contains "country_code" location;
  country ← (if has_country : bool then
               c ← py_getitem location "country_code";
               Return ["  Country Code: " +:+ py_str c]
             else Return []);
  has_type ← py_contains "target_type" location;
  target ← (if has_type : bool then
              t ← py_getitem location "target_type";
              Return ["  Type: " +:+ py_str t]
            else Return []);
  Return (["- " +:+ py_str name +:+ " (" +:+ py_str canonical +:+ ")"]
          ++ country ++ target ++ [EmptyString]).

Definition format_locations_results (response : json) : py_result string :=
  entries ← py_iter response;
  body ← for_each location_lines entries;
  Return (py_join LF ("Available Google Search Locations:" :: body)).

Definition account_line (label key : string) (response : json)
  : py_result (list string) :=
  has ← py_contains key response;
  if has : bool then
    v ← py_getitem response key;
    Return [label +:+ py_str v]
  else Return [].

Definition format_account_results (response : json) : py_result string :=
  l1 ← account_line "Account ID: " "account_id" response;
  l2 ← account_line "API Key: " "api_key" response;
  l3 ← account_line "Email: " "account_email" response;
  l4 ← account_line "Plan: " "plan_name" response;
  l5 ← account_line "Searches Per Month: " "searches_per_month" response;
  l6 ← account_line "Searches Left: " "plan_searches_left" response;
  Return (py_join LF
            ("SerpAPI Account Information:" :: l1 ++ l2 ++ l3 ++ l4 ++ l5 ++ l6)).

(** The names of the tools [list_tools] advertises. *)
Definition list_tools : list string :=
  ["google_search"; "google_locations"; "serpapi_account"].

Definition text_content (t : string) : list TextContent :=
  [{| type_ := "text"; text := t |}].

(** [call_tool] *)
Definition call_tool (self : SerpApiServer) (stamp : Z)
  (upstream : request -> http_outcome) (name : string)
  (arguments : list (string * json))
  : run (gmap string CachedSearch) (list TextContent) :=
  if String.eqb name "google_search" then
    match parse_search_args arguments with
    | Raise e => Run (Raise e) (cache self) []
    | Return args =>
        let r := search self stamp upstream args in
        Run (response ← outcome r;
             match response with
             | JObject _ => Return (text_content (json_dumps_indent 0 response))
             | JString s => Return (text_content s)
             | _ => Return (text_content (py_str response))
             end)
          (cache_after r) (sent r)
    end
  else if String.eqb name "google_locations" then
    match parse_locations_args arguments with
    | Raise e => Run (Raise e) (cache self) []
    | Return args =>
        let r := locations self upstream args in
        Run (response ← outcome r;
             readable ← GoogleLocationsArgs_getattr args "readable_json";
             if py_truthy readable then
               formatted_response ← format_locations_results response;
               Return (text_content formatted_response)
             else Return (text_content (json_dumps_indent 0 response)))
          (cache_after r) (sent r)
    end
  else if String.eqb name "google_account" then
    match parse_account_args arguments with
    | Raise e => Run (Raise e) (cache self) []
    | Return args =>
        let r := account self upstream args in
        Run (response ← outcome r;
             readable ← GoogleAccountArgs_getattr args "readable_json";
             if py_truthy readable then
               formatted_response ← format_account_results response;
               Return (text_content formatted_response)
             else Return (text_content (json_dumps_indent 0 response)))
          (cache_after r) (sent r)
    end
  else
    Run (raise (McpError METHOD_NOT_FOUND) ("Unknown tool: " +:+ name))
      (cache self) [].

End Server.

(** *** Reference validators of the Google Search models *)
Definition read_result (v : json) : option GoogleSearchResult :=
  kw ← as_dict v;
  position ← required as_int "position" kw;
  title ← required as_str "title" kw;
  link ← required as_str "link" kw;
  displayed_link ← required as_str "displayed_link" kw;
  snippet ← optional as_str "snippet" kw;
  _ ← optional (as_list as_str) "snippet_highlighted_words" kw;
  date ← optional as_str "date" kw;
  _ ← optional as_str "favicon" kw;
  _ ← optional as_str "source_icon" kw;
  _ ← optional as_str "cached_page_link" kw;
  _ ← optional as_str "related_pages_link" kw;
  sitelinks ← optional as_dict "sitelinks" kw;
  Some {| position := position; title := title; link := link;
          displayed_link := displayed_link; snippet := snippet; date := date;
          sitelinks := sitelinks |}.

Definition accepts_all {A : Type} (read : json -> option A) (names : list string)
  (kw : list (string * json)) : option unit :=
  _ ← mapM (fun name => optional read name kw) names; Some tt.

Definition read_response (kw : list (string * json)) : option SearchResponseData :=
  search_metadata ← required as_dict "search_metadata" kw;
  search_parameters ← required as_dict "search_parameters" kw;
  search_information ← optional as_dict "search_information" kw;
  organic_results ← required (as_list read_result) "organic_results" kw;
  related_searches ← optional (as_list as_dict) "related_searches" kw;
  pagination ← optional as_dict "pagination" kw;
  knowledge_graph ← optional as_dict "knowledge_graph" kw;
  answer_box ← optional as_dict "answer_box" kw;
  related_questions ← optional (as_list as_dict) "related_questions" kw;
  top_stories ← optional (as_list as_dict) "top_stories" kw;
  _ ← accepts_all as_dict
        ["serpapi_pagination"; "local_results"; "local_map"; "jobs_results"; "ads"] kw;
  _ ← accepts_all (as_list as_dict)
        ["shopping_results"; "news_results"; "images_results"; "video_results";
         "twitter_results"; "recipes_results"; "inline_videos"; "inline_images";
         "inline_shopping"; "inline_tweets"] kw;
  error ← optional as_str "error" kw;
  Some {| search_metadata := search_metadata;
          search_parameters := search_parameters;
          search_information := search_information;
          organic_results := organic_results;
          related_searches := related_searches;
          pagination := pagination;
          knowledge_graph := knowledge_graph;
          answer_box := answer_box;
          related_questions := related_questions;
          top_stories := top_stories;
          error := error |}.

Definition reference_validate (kw : list (string * json))
  : py_result SearchResponseData :=
  validated "SearchResponseData" (read_response kw).

(** Arguments given with the JSON types of their annotations; the domain
    lists as lists. *)
Definition domains (name : string) (kw : list (string * json)) : option (list string) :=
  match dict_get name kw with
  | None | Some JNull => Some []
  | Some v => as_list as_str v
  end.

Definition read_search_args (kw : list (string * json)) : option GoogleSearchArgs :=
  q ← required as_str "q" kw;
  num ← optional_or 10 as_int "num" kw;
  _ ← check (match num with Some n => andb (0 <? n) (n <? 100) | None => true end);
  start ← optional as_int "start" kw;
  _ ← check (match start, num with
              | Some v, Some n => andb (1 <=? v) (negb (100 <? v + n))
              | Some _, None => false
              | None, _ => true
              end);
  location ← optional as_str "location" kw;
  gl ← optional as_str "gl" kw;
  hl ← optional as_str "hl" kw;
  device ← optional as_str "device" kw;
  safe ← optional as_str "safe" kw;
  filter ← optional as_str "filter" kw;
  time_period ← optional as_str "time_period" kw;
  exactTerms ← optional as_str "exactTerms" kw;
  include_domains ← domains "include_domains" kw;
  exclude_domains ← domains "exclude_domains" kw;
  raw_json ← optional_or false as_bool "raw_json" kw;
  readable_json ← optional_or false as_bool "readable_json" kw;
  Some {| q := q; num := num; start := start; location := location; gl := gl;
          hl := hl; device := device; safe := safe; filter := filter;
          time_period := time_period; exactTerms := exactTerms;
          include_domains := include_domains; exclude_domains := exclude_domains;
          raw_json := raw_json; readable_json := readable_json |}.

Definition reference_parse_search_args (kw : list (string * json))
  : py_result GoogleSearchArgs :=
  validated "GoogleSearchArgs" (read_search_args kw).

Definition read_locations_args (kw : list (string * json))
  : option GoogleLocationsArgs :=
  q ← optional as_str "q" kw;
  limit ← optional as_int "limit" kw;
  _ ← check (match limit with Some n => 0 <? n | None => true end);
  Some {| locations_q := q; limit := limit |}.

Definition reference_parse_locations_args (kw : list (string * json))
  : py_result GoogleLocationsArgs :=
  validated "GoogleLocationsArgs" (read_locations_args kw).

Definition reference_parse_account_args (kw : list (string * json))
  : py_result GoogleAccountArgs :=
  Return MkGoogleAccountArgs.

End GoogleSearch.

(** ** Google Finance adapter (serpapi_google_finance.py) *)
Module GoogleFinance.

Record GoogleFinanceSearchArgs : Type := {
  q : string;
  hl : option string;
  window : option string;
  raw_json : option bool;
  readable_json : option bool
}.

(** A [float] field is carried by its [repr]. *)
Record StockPriceMovement : Type := {
  percentage : option string;
  value : option string;
  movement : option string
}.

Record StockInfo : Type := {
  stock : option string;
  link : option string;
  serpapi_link : option string;
  name : option string;
  price : option string;
  price_movement : option StockPriceMovement;
  currency : option string
}.

Record GoogleFinanceResponseData : Type := {
  search_metadata : list (string * json);
  search_parameters : list (string * json);
  markets : option (list (string * list StockInfo));
  stock_info : option (list (string * json));
  graph : option (list (string * json));
  news_results : option (list (list (string * json)));
  people_also_search_for : option (list (list (string * json)));
  error : option string
}.

Record CachedSearch : Type := {
  query : string;
  response : json;
  timestamp : Z
}.

Record SerpApiGoogleFinanceServer : Type := {
  api_key : string;
  cache : gmap string CachedSearch
}.

Definition base_url : string := "https://serpapi.com/search".

(** [self.cache_ttl = 3600], set by the constructor. *)
Definition cache_ttl : Z := 3600.

Definition store (c : gmap string CachedSearch) (key : string) (resp : json)
  (stamp : Z) : gmap string CachedSearch :=
  <[key := {| query := key; response := resp; timestamp := stamp |}]> c.

Definition clean_json_dict : json -> json := GoogleMapsClean.clean_json_dict.

(** The two direction markers, as the source file spells them. *)
Definition UP_MARK : string := "ðŸ“ˆ".
Definition DOWN_MARK : string := "ðŸ“‰".

(** [str(x)] of an optional field: [None] prints as [None]. *)
Definition str_opt (o : option string) : string := default "None" o.

(** [', '.join(v)] for a value of unknown shape *)
Fixpoint join_items (i : nat) (vs : list json) : py_result (list string) :=
  match vs with
  | [] => Return []
  | JString s :: rest => ss ← join_items (S i) rest; Return (s :: ss)
  | v :: _ =>
      raise TypeError ("sequence item " +:+ pretty i +:+ ": expected str instance, "
                       +:+ type_name v +:+ " found")
  end.

Definition py_join_value (sep : string) (v : json) : py_result string :=
  match v with
  | JArray elems => ss ← join_items 0 elems; Return (py_join sep ss)
  | JObject fields => Return (py_join sep (map fst fields))
  | JString s => ss ← join_items 0 (chars_of s); Return (py_join sep ss)
  | _ => raise TypeError "can only join an iterable"
  end.

Definition stock_info_lines (response : GoogleFinanceResponseData)
  : py_result (list string) :=
  match stock_info response with
  | Some ((_ :: _) as stock) =>
      change ← (if dict_has "price_movement" stock then
                  let movement := dict_item "price_movement" stock in
                  m ← py_get movement "movement" JNull;
                  let direction := if is_str "Up" m then UP_MARK else DOWN_MARK in
                  v ← py_get movement "value" (JString EmptyString);
                  p ← py_get movement "percentage" (JString EmptyString);
                  Return ["**Change:** " +:+ direction +:+ " " +:+ py_str v
                          +:+ " (" +:+ py_str p +:+ "%)"]
                else Return []);
      Return (["# " +:+ py_str (default (JString "Stock Information")
                                  (dict_get "title" stock));
               EmptyString]
              ++ (if dict_has "price" stock
                  then ["**Current Price:** " +:+ py_str (dict_item "price" stock)]
                  else [])
              ++ change
              ++ (if dict_has "exchange" stock
                  then ["**Exchange:** " +:+ py_str (dict_item "exchange" stock)]
                  else [])
              ++ (if dict_has "currency" stock
                  then ["**Currency:** " +:+ py_str (dict_item "currency" stock)]
                  else [])
              ++ [EmptyString])
  | _ => Return []
  end.

Definition graph_lines (response : GoogleFinanceResponseData)
  : py_result (list string) :=
  match graph response with
  | Some ((_ :: _) as g) =>
      buttons ← (if dict_has "time_window_buttons" g then
                   joined ← py_join_value ", " (dict_item "time_window_buttons" g);
                   Return ["**Available Time Windows:** " +:+ joined]
                 else Return []);
      Return (["# Graph Information"; EmptyString]
              ++ (if dict_has "time_window" g
                  then ["**Time Window:** " +:+ py_str (dict_item "time_window" g)]
                  else [])
              ++ buttons
              ++ [EmptyString])
  | _ => Return []
  end.

Definition market_stock_lines (s : StockInfo) : list string :=
  ["## " +:+ str_opt (name s)]
  ++ match price s with
     | Some p => ["**Price:** " +:+ p]
     | None => []
     end
  ++ match price_movement s with
     | Some m =>
         let direction :=
           match movement m with
           | Some d => if String.eqb d "Up" then UP_MARK else DOWN_MARK
           | None => DOWN_MARK
           end in
         ["**Change:** " +:+ direction +:+ " " +:+ str_opt (value m)
          +:+ " (" +:+ str_opt (percentage m) +:+ "%)"]
     | None => []
     end
  ++ (if truthy_str (link s) then ["**Link:** " +:+ str_opt (link s)] else [])
  ++ [EmptyString].

Definition market_lines (m : string * list StockInfo) : list string :=
  ["# " +:+ capitalize (fst m) +:+ " Market"; EmptyString]
  ++ concat (map market_stock_lines (snd m)).

Definition markets_lines (response : GoogleFinanceResponseData) : list string :=
  match markets response with
  | Some ((_ :: _) as ms) => concat (map market_lines ms)
  | _ => []
  end.

Fixpoint enumerate_from {A : Type} (i : Z) (xs : list A) : list (Z * A) :=
  match xs with
  | [] => []
  | x :: rest => (i, x) :: enumerate_from (i + 1) rest
  end.

Definition news_item_lines (inews : Z * list (string * json)) : list string :=
  let '(i, news) := inews in
  [if dict_has "title" news
   then "## " +:+ pretty (i + 1) +:+ ". " +:+ py_str (dict_item "title" news)
   else "## " +:+ pretty (i + 1) +:+ ". [No title available]"]
  ++ (if dict_has "date" news
      then ["**Date:** " +:+ py_str (dict_item "date" news)] else [])
  ++ (if dict_has "source" news
      then ["**Source:** " +:+ py_str (dict_item "source" news)] else [])
  ++ (if dict_has "snippet" news
      then [LF +:+ py_str (dict_item "snippet" news)] else [])
  ++ (if dict_has "link" news
      then [LF +:+ "**Link:** " +:+ py_str (dict_item "link" news)] else [])
  ++ [EmptyString].

Definition news_lines (response : GoogleFinanceResponseData) : list string :=
  match news_results response with
  | Some ((_ :: _) as news) =>
      ["# News (" +:+ pretty (Z.of_nat (length news)) +:+ ")"; EmptyString]
      ++ concat (map news_item_lines (enumerate_from 0 news))
  | _ => []
  end.

Definition also_search_lines (item : list (string * json)) : list string :=
  if dict_has "title" item then
    ["- " +:+ py_str (dict_item "title" item)]
    ++ (if dict_has "link" item
        then ["  **Link:** " +:+ py_str (dict_item "link" item)] else [])
    ++ [EmptyString]
  else [].

Definition people_also_search_for_lines (response : GoogleFinanceResponseData)
  : list string :=
  match people_also_search_for response with
  | Some ((_ :: _) as items) =>
      ["# People Also Search For"; EmptyString]
      ++ concat (map also_search_lines items)
  | _ => []
  end.

Definition format_google_finance_results (response : GoogleFinanceResponseData)
  : py_result string :=
  if truthy_str (error response) then
    Return (py_join LF ["# Error"; default EmptyString (error response); EmptyString])
  else
    stock ← stock_info_lines response;
    g ← graph_lines response;
    Return (py_join LF
              (stock ++ g ++ markets_lines response ++ news_lines response
               ++ people_also_search_for_lines response)).

Section Server.

(** pydantic's validation of the keyword arguments of
    [GoogleFinanceResponseData]. *)
Variable validate_response
  : list (string * json) -> py_result GoogleFinanceResponseData.

Definition cache_key_parts (self : SerpApiGoogleFinanceServer)
  (args : GoogleFinanceSearchArgs) : list string :=
  let cache_key_parts := ["q=" +:+ q args] in
  let cache_key_parts :=
    if truthy_str (hl args)
    then cache_key_parts ++ ["hl=" +:+ str_opt (hl args)] else cache_key_parts in
  let cache_key_parts :=
    if truthy_str (window args)
    then cache_key_parts ++ ["window=" +:+ str_opt (window args)]
    else cache_key_parts in
  if truthy_bool (raw_json args) then cache_key_parts ++ ["format=raw_json"]
  else if truthy_bool (readable_json args)
       then cache_key_parts ++ ["format=readable_json"]
  else cache_key_parts ++ ["format=clean_json"].

Definition finance_cache_key (self : SerpApiGoogleFinanceServer)
  (args : GoogleFinanceSearchArgs) : string :=
  py_join "&" (cache_key_parts self args).

Definition finance_params (self : SerpApiGoogleFinanceServer)
  (args : GoogleFinanceSearchArgs) : list (string * json) :=
  let params := [("engine", JString "google_finance");
                 ("api_key", JString (api_key self));
                 ("q", JString (q args))] in
  let params := if truthy_str (hl args)
                then dict_set "hl" (opt_str (hl args)) params else params in
  if truthy_str (window args)
  then dict_set "window" (opt_str (window args)) params else params.

(** The cache lookup: the stored response when the key is present and its
    entry is younger than [cache_ttl]. *)
Definition cache_lookup (self : SerpApiGoogleFinanceServer) (now : Z)
  (cache_key : string) : option json :=
  match cache self !! cache_key with
  | Some cached =>
      if now - timestamp cached <? cache_ttl then Some (response cached) else None
  | None => None
  end.

Definition error_response (params : list (string * json)) (message : string) : json :=
  JObject [("search_metadata", JObject [("status", JString "Error")]);
           ("search_parameters", JObject params);
           ("error", JString message)].

Definition readable (doc : json) : py_result json :=
  kw ← kwargs "GoogleFinanceResponseData" doc;
  model ← validate_response kw;
  formatted ← format_google_finance_results model;
  Return (JString formatted).

(** The error response in the requested format. *)
Definition format_error (args : GoogleFinanceSearchArgs)
  (params : list (string * json)) (message : string) : py_result json :=
  let error_response := error_response params message in
  if truthy_bool (raw_json args) then Return error_response
  else if truthy_bool (readable_json args) then readable error_response
  else Return (clean_json_dict error_response).

(** The body of the [try]: the formatted response that is then stored and
    returned. *)
Definition finance_attempt (args : GoogleFinanceSearchArgs)
  (params : list (string * json)) (reply : http_outcome) : py_result json :=
  match reply with
  | Failed e => Raise e
  | Responded status error_text raw_data =>
      if negb (status =? 200) then
        format_error args params
          ("SerpAPI returned status code " +:+ pretty status +:+ ": " +:+ error_text)
      else if truthy_bool (raw_json args) then Return raw_data
      else if truthy_bool (readable_json args) then readable raw_data
      else Return (clean_json_dict raw_data)
  end.

(** [SerpApiGoogleFinanceServer.google_finance_search]; [now] is the
    clock's reading at the lookup, [stamp] its reading when the response
    is stored. *)
Definition google_finance_search (self : SerpApiGoogleFinanceServer) (now stamp : Z)
  (upstream : request -> http_outcome) (args : GoogleFinanceSearchArgs)
  : run (gmap string CachedSearch) json :=
  let cache_key := finance_cache_key self args in
  match cache_lookup self now cache_key with
  | Some cached_response => Run (Return cached_response) (cache self) []
  | None =>
      let params := finance_params self args in
      let req := Request base_url params in
      let finish (r : py_result json) :=
        match r with
        | Return formatted_response =>
            Run (Return formatted_response)
              (store (cache self) cache_key formatted_response stamp) [req]
        | Raise e => Run (Raise e) (cache self) [req]
        end in
      match finance_attempt args params (upstream req) with
      | Return formatted_response => finish (Return formatted_response)
      | Raise e =>
          if isinstance_TimeoutError e
          then finish (format_error args params "SerpAPI request timed out")
          else finish (format_error args params ("An error occurred: " +:+ exc_str e))
      end
  end.

(** *** [call_tool] of the Finance server *)

(** pydantic's validation of the tool's arguments *)
Variable parse_finance_args
  : list (string * json) -> py_result GoogleFinanceSearchArgs.

Definition text_content (t : string) : list TextContent :=
  [{| type_ := "text"; text := t |}].

(** [call_tool] has no [try]: what the validation of the arguments or the
    search raises leaves as it is. *)
Definition call_tool (self : SerpApiGoogleFinanceServer) (now stamp : Z)
  (upstream : request -> http_outcome) (name : string)
  (arguments : list (string * json))
  : run (gmap string CachedSearch) (list TextContent) :=
  if String.eqb name "google_finance_search" then
    match parse_finance_args arguments with
    | Raise e => Run (Raise e) (cache self) []
    | Return args =>
        let r := google_finance_search self now stamp upstream args in
        Run (response ← outcome r;
             match response with
             | JObject _ => Return (text_content (json_dumps_indent 0 response))
             | JString s => Return (text_content s)
             | _ => Return (text_content (py_str response))
             end)
          (cache_after r) (sent r)
    end
  else
    Run (raise (McpError METHOD_NOT_FOUND) ("Unknown tool: " +:+ name))
      (cache self) [].

End Server.

(** *** Reference validator of the Google Finance model *)
Definition read_movement (v : json) : option StockPriceMovement :=
  kw ← as_dict v;
  percentage ← optional as_float "percentage" kw;
  value ← optional as_float "value" kw;
  movement ← optional as_str "movement" kw;
  Some {| percentage := percentage; value := value; movement := movement |}.

Definition read_stock (v : json) : option StockInfo :=
  kw ← as_dict v;
  stock ← optional as_str "stock" kw;
  link ← optional as_str "link" kw;
  serpapi_link ← optional as_str "serpapi_link" kw;
  name ← optional as_str "name" kw;
  price ← optional as_float "price" kw;
  price_movement ← optional read_movement "price_movement" kw;
  currency ← optional as_str "currency" kw;
  Some {| stock := stock; link := link; serpapi_link := serpapi_link; name := name;
          price := price; price_movement := price_movement; currency := currency |}.

Definition read_markets (v : json) : option (list (string * list StockInfo)) :=
  kw ← as_dict v;
  mapM (fun kv : string * json =>
          stocks ← as_list read_stock (snd kv); Some (fst kv, stocks)) kw.

Definition read_response (kw : list (string * json))
  : option GoogleFinanceResponseData :=
  search_metadata ← required as_dict "search_metadata" kw;
  search_parameters ← required as_dict "search_parameters" kw;
  markets ← optional read_markets "markets" kw;
  stock_info ← optional as_dict "stock_info" kw;
  graph ← optional as_dict "graph" kw;
  news_results ← optional (as_list as_dict) "news_results" kw;
  people_also_search_for ← optional (as_list as_dict) "people_also_search_for" kw;
  error ← optional as_str "error" kw;
  Some {| search_metadata := search_metadata;
          search_parameters := search_parameters;
          markets := markets; stock_info := stock_info; graph := graph;
          news_results := news_results;
          people_also_search_for := people_also_search_for;
          error := error |}.

Definition reference_validate (kw : list (string * json))
  : py_result GoogleFinanceResponseData :=
  validated "GoogleFinanceResponseData" (read_response kw).

End GoogleFinance.

(** ** Google Maps adapter (serpapi_google_maps.py): cache key and
    query parameters of [google_maps_search] *)
Module GoogleMaps.

Record GoogleMapsSearchArgs : Type := {
  q : option string;
  type : option string;
  data : option string;
  place_id : option string;
  ll : option string;
  google_domain : option string;
  hl : option string;
  gl : option string;
  start : option Z;
  raw_json : option bool;
  readable_json : option bool
}.

Record CachedSearch : Type := {
  query : string;
  response : json;
  timestamp : Z
}.

Record SerpApiGoogleMapsServer : Type := {
  api_key : string;
  cache : gmap string CachedSearch
}.

Definition clean_json_dict : json -> json := GoogleMapsClean.clean_json_dict.

(** The two field validators of [GoogleMapsSearchArgs]. [model_data] is
    [info.data]: the fields declared before the validated one that passed
    validation. *)
Definition validate_search_parameters (v : option string)
  (model_data : list (string * json)) : py_result (option string) :=
  if is_str "search" (default JNull (dict_get "type" model_data))
     && match v with None => true | Some _ => false end
     && negb (py_truthy (default JNull (dict_get "place_id" model_data)))
  then raise ValueError
         "Search query 'q' is required when type is 'search' and place_id is not provided"
  else Return v.

Definition validate_place_parameters (v : option string)
  (model_data : list (string * json)) : py_result (option string) :=
  if is_str "place" (default JNull (dict_get "type" model_data))
     && match v with None => true | Some _ => false end
     && negb (py_truthy (default JNull (dict_get "place_id" model_data)))
  then raise ValueError
         "Parameter 'data' is required when type is 'place' and place_id is not provided"
  else Return v.

(** [if value: parts.append(f"name={value}")] *)
Definition part (name : string) (value : option string) : list string :=
  if truthy_str value then [name +:+ "=" +:+ default EmptyString value] else [].

Definition cache_key_parts (self : SerpApiGoogleMapsServer)
  (args : GoogleMapsSearchArgs) : list string :=
  part "q" (q args) ++ part "type" (type args) ++ part "data" (data args)
  ++ part "place_id" (place_id args) ++ part "ll" (ll args)
  ++ part "google_domain" (google_domain args) ++ part "hl" (hl args)
  ++ part "gl" (gl args)
  ++ match start args with
     | Some n => ["start=" +:+ pretty n]
     | None => []
     end
  ++ (if truthy_bool (raw_json args) then ["format=raw_json"]
      else if truthy_bool (readable_json args) then ["format=readable_json"]
      else ["format=clean_json"]).

Definition maps_cache_key (self : SerpApiGoogleMapsServer)
  (args : GoogleMapsSearchArgs) : string :=
  py_join "&" (cache_key_parts self args).

Definition param (name : string) (value : option string)
  (params : list (string * json)) : list (string * json) :=
  if truthy_str value then dict_set name (opt_str value) params else params.

Definition maps_params (self : SerpApiGoogleMapsServer)
  (args : GoogleMapsSearchArgs) : list (string * json) :=
  let params := [("engine", JString "google_maps");
                 ("api_key", JString (api_key self))] in
  let params := param "q" (q args) params in
  let params := param "type" (type args) params in
  let params := param "data" (data args) params in
  let params := param "place_id" (place_id args) params in
  let params := param "ll" (ll args) params in
  let params := param "google_domain" (google_domain args) params in
  let params := param "hl" (hl args) params in
  let params := param "gl" (gl args) params in
  match start args with
  | Some n => dict_set "start" (JInt n) params
  | None => params
  end.

End GoogleMaps.

(** ** Google Scholar adapter (serpapi_google_scholar.py) *)
Module GoogleScholar.

Record GoogleScholarArgs : Type := {
  q : option string;
  hl : option string;
  lr : option string;
  start : option Z;
  num : option Z;
  cites : option string;
  as_ylo : option Z;
  as_yhi : option Z;
  scisbd : option Z;
  cluster : option string;
  as_sdt : option string;
  safe : option string;
  filter : option string;
  as_vis : option string;
  as_rr : option string;
  raw_json : option bool;
  readable_json : option bool
}.

(** [GoogleScholarArgs.validate_search_parameters], the validator of the
    fields [q], [cites] and [cluster]. [values] is [info.data]: the fields
    declared before the validated one that passed validation. *)
Definition validate_search_parameters (field_name : string) (v : option string)
  (values : list (string * json)) : py_result (option string) :=
  let given (name : string) := py_truthy (default JNull (dict_get name values)) in
  if String.eqb field_name "cluster"
     && match v with Some _ => true | None => false end
     && (given "q" || given "cites")
  then raise ValueError
         "When using 'cluster' parameter, 'q' and 'cites' parameters should not be used."
  else if String.eqb field_name "q"
          && match v with None => true | Some _ => false end
          && negb (given "cites") && negb (given "cluster")
  then raise ValueError
         "At least one of 'q', 'cites', or 'cluster' parameters must be provided."
  else Return v.

(** The Scholar adapter's cache entry holds no timestamp. *)
Record CachedSearch : Type := {
  query : string;
  response : json
}.

Record SerpApiGoogleScholarServer : Type := {
  api_key : string;
  cache : gmap string CachedSearch
}.

Definition base_url : string := "https://serpapi.com/search".

Definition store (c : gmap string CachedSearch) (key : string) (resp : json)
  : gmap string CachedSearch :=
  <[key := {| query := key; response := resp |}]> c.

(** [v is not None and (not isinstance(v, (dict, list)) or v)] *)
Definition kept (v : json) : bool :=
  negb (is_None v)
  && match v with
     | JObject [] | JArray [] => false
     | _ => true
     end.

Fixpoint clean_json_dict (data : json) : json :=
  match data with
  | JObject fields =>
      JObject
        ((fix items (kvs : list (string * json)) : list (string * json) :=
            match kvs with
            | [] => []
            | (k, v) :: rest =>
                if kept v then (k, clean_json_dict v) :: items rest
                else items rest
            end) fields)
  | JArray elems =>
      JArray
        ((fix each (vs : list json) : list json :=
            match vs with
            | [] => []
            | item :: rest =>
                if kept item then clean_json_dict item :: each rest else each rest
            end) elems)
  | _ => data
  end.

Section Server.

(** The response model, pydantic's validation of its keyword arguments and
    the markdown renderer [format_google_scholar_results], none of which a
    property below looks into. *)
Variable GoogleScholarResponseData : Type.
Variable validate_response
  : list (string * json) -> py_result GoogleScholarResponseData.
Variable format_google_scholar_results
  : GoogleScholarResponseData -> py_result string.

Definition set_str (name : string) (value : option string)
  (params : list (string * json)) : list (string * json) :=
  match value with
  | Some x => dict_set name (JString x) params
  | None => params
  end.

Definition set_int (name : string) (value : option Z)
  (params : list (string * json)) : list (string * json) :=
  match value with
  | Some n => dict_set name (JInt n) params
  | None => params
  end.

Definition scholar_params (self : SerpApiGoogleScholarServer)
  (args : GoogleScholarArgs) : list (string * json) :=
  let params := [("engine", JString "google_scholar");
                 ("api_key", JString (api_key self))] in
  let params := set_str "q" (q args) params in
  let params := set_str "hl" (hl args) params in
  let params := set_str "lr" (lr args) params in
  let params := set_int "start" (start args) params in
  let params := set_int "num" (num args) params in
  let params := set_str "cites" (cites args) params in
  let params := set_int "as_ylo" (as_ylo args) params in
  let params := set_int "as_yhi" (as_yhi args) params in
  let params := set_int "scisbd" (scisbd args) params in
  let params := set_str "cluster" (cluster args) params in
  let params := set_str "as_sdt" (as_sdt args) params in
  let params := set_str "safe" (safe args) params in
  let params := set_str "filter" (filter args) params in
  let params := set_str "as_vis" (as_vis args) params in
  set_str "as_rr" (as_rr args) params.

(** [json.dumps(params, sort_keys=True)]: no format suffix. *)
Definition scholar_cache_key (self : SerpApiGoogleScholarServer)
  (args : GoogleScholarArgs) : string :=
  json_dumps true (JObject (scholar_params self args)).

Definition readable (doc : json) : py_result json :=
  kw ← kwargs "GoogleScholarResponseData" doc;
  response_data ← validate_response kw;
  formatted ← format_google_scholar_results response_data;
  Return (JString formatted).

(** What a cache hit returns: the stored response, converted by its type
    to the requested format. *)
Definition from_cache (args : GoogleScholarArgs) (cached_response : json)
  : py_result json :=
  if truthy_bool (raw_json args) then Return cached_response
  else if truthy_bool (readable_json args) then
    match cached_response with
    | JString _ => Return cached_response
    | JObject _ => readable cached_response
    | _ => raise AttributeError
             ("'" +:+ type_name cached_response
              +:+ "' object has no attribute 'search_information'")
    end
  else
    match cached_response with
    | JObject _ => Return (clean_json_dict cached_response)
    | _ => Return cached_response
    end.

(** The body of the [try]. *)
Definition scholar_attempt (self : SerpApiGoogleScholarServer)
  (args : GoogleScholarArgs) (cache_key : string) (reply : http_outcome)
  : py_result (json * gmap string CachedSearch) :=
  match reply with
  | Failed e => Raise e
  | Responded status error_text json_response =>
      if negb (status =? 200) then
        raise (McpError INTERNAL_ERROR)
          ("SerpAPI returned an error: " +:+ pretty status +:+ " - " +:+ error_text)
      else
        has_error ← py_contains "error" json_response;
        if has_error : bool then
          err ← py_getitem json_response "error";
          raise (McpError INTERNAL_ERROR)
            ("SerpAPI returned an error: " +:+ py_str err)
        else if truthy_bool (raw_json args) then
          Return (json_response, store (cache self) cache_key json_response)
        else if truthy_bool (readable_json args) then
          formatted_response ← readable json_response;
          Return (formatted_response,
                  store (cache self) cache_key formatted_response)
        else
          let clean_response := clean_json_dict json_response in
          Return (clean_response, store (cache self) cache_key clean_response)
  end.

Definition scholar_handler (e : exc) : exc :=
  if isinstance_ClientError e then
    Exc (McpError INTERNAL_ERROR) ("HTTP error during SerpAPI request: " +:+ exc_str e)
  else if isinstance_JSONDecodeError e then
    Exc (McpError INTERNAL_ERROR) ("Error decoding JSON from SerpAPI: " +:+ exc_str e)
  else
    Exc (McpError INTERNAL_ERROR)
      ("Unexpected error during SerpAPI request: " +:+ exc_str e).

(** [SerpApiGoogleScholarServer.google_scholar_search] *)
Definition google_scholar_search (self : SerpApiGoogleScholarServer)
  (upstream : request -> http_outcome) (args : GoogleScholarArgs)
  : run (gmap string CachedSearch) json :=
  let params := scholar_params self args in
  let cache_key := scholar_cache_key self args in
  match cache self !! cache_key with
  | Some cached => Run (from_cache args (response cached)) (cache self) []
  | None =>
      let req := Request base_url params in
      match scholar_attempt self args cache_key (upstream req) with
      | Return (r, c) => Run (Return r) c [req]
      | Raise e => Run (Raise (scholar_handler e)) (cache self) [req]
      end
  end.

(** *** [call_tool] of the Scholar server *)

(** pydantic's validation of the tool's arguments *)
Variable parse_scholar_args : list (string * json) -> py_result GoogleScholarArgs.

Definition text_content (t : string) : list TextContent :=
  [{| type_ := "text"; text := t |}].

(** The two [except] clauses of [call_tool]: an [McpError] is raised
    again, any other exception leaves as an [McpError]. *)
Definition call_tool_handler (e : exc) : exc :=
  if isinstance_McpError e then e
  else Exc (McpError INTERNAL_ERROR) ("Error executing tool: " +:+ exc_str e).

(** The text of a response, by the requested format and the response's
    type. *)
Definition response_text (args : GoogleScholarArgs) (response : json)
  : py_result (list TextContent) :=
  if truthy_bool (readable_json args) then
    match response with
    | JString s => Return (text_content s)
    | _ =>
        formatted ← readable response;
        Return (text_content (py_str formatted))
    end
  else
    match response with
    | JObject _ => Return (text_content (json_dumps_indent 0 response))
    | _ => Return (text_content (py_str response))
    end.

Definition call_tool (self : SerpApiGoogleScholarServer)
  (upstream : request -> http_outcome) (name : string)
  (arguments : list (string * json))
  : run (gmap string CachedSearch) (list TextContent) :=
  if String.eqb name "google_scholar_search" then
    match parse_scholar_args arguments with
    | Raise e =>
        Run (Raise (call_tool_handler
                      (Exc (McpError INVALID_PARAMS)
                         ("Invalid arguments: " +:+ exc_str e))))
          (cache self) []
    | Return args =>
        let r := google_scholar_search self upstream args in
        Run (match (response ← outcome r; response_text args response) with
             | Return content => Return content
             | Raise e => Raise (call_tool_handler e)
             end)
          (cache_after r) (sent r)
    end
  else
    Run (Raise (call_tool_handler
                  (Exc (McpError METHOD_NOT_FOUND) ("Unknown tool: " +:+ name))))
      (cache self) [].

End Server.

(** *** Reference instance of the Scholar parameters

    The model reduced to its two required fields, and a renderer that
    writes the document's heading only. *)
Definition reference_validate (kw : list (string * json))
  : py_result (list (string * json) * list (string * json)) :=
  validated "GoogleScholarResponseData"
    (search_metadata ← required as_dict "search_metadata" kw;
     search_parameters ← required as_dict "search_parameters" kw;
     Some (search_metadata, search_parameters)).

Definition reference_heading
  (response : list (string * json) * list (string * json)) : py_result string :=
  Return ("# Google Scholar Search Results" +:+ LF).

End GoogleScholar.

(** ** [urllib.parse], as far as the transcript server uses it

    [urlparse] with its [hostname] property, and [parse_qs]. Three checks
    of the library are parameters: the validation of a bracketed host, the
    NFKC check of a non-ASCII host and percent-decoding; each returns the
    message of the [ValueError] it raises, if any. *)
Module UrlParse.

Record ParseResult : Type := {
  scheme : string;
  netloc : string;
  path : string;
  params : string;
  query : string;
  fragment : string
}.

Definition scheme_chars : string :=
  "abcdefghijklmnopqrstuvwxyzABCDEFGHIJKLMNOPQRSTUVWXYZ0123456789+-.".

Definition uses_params : list string :=
  [EmptyString; "ftp"; "hdl"; "prospero"; "http"; "imap"; "https"; "shttp";
   "rtsp"; "rtspu"; "sip"; "sips"; "mms"; "sftp"; "tel"].

Definition is_ascii_char (c : ascii) : bool := Nat.ltb (ord c) 128.

Fixpoint isascii (s : string) : bool :=
  match s with
  | EmptyString => true
  | String c rest => is_ascii_char c && isascii rest
  end.

Definition is_ascii_alpha (c : ascii) : bool :=
  let n := ord c in
  (Nat.leb 65 n && Nat.leb n 90) || (Nat.leb 97 n && Nat.leb n 122).

(** [url.lstrip(...)] of the C0 control characters and the space *)
Fixpoint lstrip_c0 (s : string) : string :=
  match s with
  | String c rest => if Nat.leb (ord c) 32 then lstrip_c0 rest else s
  | EmptyString => EmptyString
  end.

(** Tab, carriage return and line feed are removed. *)
Fixpoint remove_unsafe (s : string) : string :=
  match s with
  | EmptyString => EmptyString
  | String c rest =>
      let n := ord c in
      if Nat.eqb n 9 || Nat.eqb n 13 || Nat.eqb n 10 then remove_unsafe rest
      else String c (remove_unsafe rest)
  end.

Fixpoint all_chars (p : ascii -> bool) (s : string) : bool :=
  match s with
  | EmptyString => true
  | String c rest => p c && all_chars p rest
  end.

(** The scheme and the rest, when the text before the first colon is a
    scheme. *)
Definition split_scheme (url : string) : string * string :=
  let '(before, found, after) := partition_char ":" url in
  match before with
  | String c _ =>
      if found && is_ascii_char c && is_ascii_alpha c
         && all_chars (fun d => char_in d scheme_chars) before
      then (lower before, after)
      else (EmptyString, url)
  | EmptyString => (EmptyString, url)
  end.

(** [_splitnetloc(url, 2)] on a text that starts with two slashes: the
    text up to the first of [/], [?], [#], and the rest. *)
Fixpoint span_netloc (s : string) : string * string :=
  match s with
  | EmptyString => (EmptyString, EmptyString)
  | String c rest =>
      if Ascii.eqb c "/" || Ascii.eqb c "?" || Ascii.eqb c "#"
      then (EmptyString, s)
      else let '(n, r) := span_netloc rest in (String c n, r)
  end.

(** The index of the last [/] and the text from it on. *)
Fixpoint after_last_slash (s : string) : option (string * string) :=
  match s with
  | EmptyString => None
  | String c rest =>
      match after_last_slash rest with
      | Some (before, from) => Some (String c before, from)
      | None => if Ascii.eqb c "/" then Some (EmptyString, s) else None
      end
  end.

(** [_splitparams] *)
Definition splitparams (url : string) : string * string :=
  match after_last_slash url with
  | Some (before, from) =>
      let '(a, found, b) := partition_char ";" from in
      if found then (before +:+ a, b) else (url, EmptyString)
  | None =>
      (* No slash: [i = url.find(';')], then [url[:i], url[i+1:]]. *)
      let '(a, found, b) := partition_char ";" url in
      if found then (a, b)
      else (* [i = -1]: all but the last character, and the whole text *)
        (String.substring 0 (String.length url - 1) url, url)
  end.

Section Library.

Variable check_bracketed_netloc : string -> option string.
Variable checknetloc_nfkc : string -> option string.
Variable unquote_percent : string -> string.

Definition urlsplit (url : string)
  : py_result (string * string * string * string * string) :=
  let url := remove_unsafe (lstrip_c0 url) in
  let '(scheme, url) := split_scheme url in
  step ←
    (if startswith "//" url then
       let '(netloc, rest) := span_netloc (drop_chars 2 url) in
       let open := char_in "[" netloc in
       let close := char_in "]" netloc in
       if (open && negb close) || (close && negb open) then
         raise ValueError "Invalid IPv6 URL"
       else if open && close then
         match check_bracketed_netloc netloc with
         | Some msg => raise ValueError msg
         | None => Return (netloc, rest)
         end
       else Return (netloc, rest)
     else Return (EmptyString, url));
  let '(netloc, url) := step in
  let '(url, has_fragment, fragment) := partition_char "#" url in
  let '(url, has_query, query) := partition_char "?" url in
  match (if isascii netloc then None else checknetloc_nfkc netloc) with
  | Some msg => raise ValueError msg
  | None => Return (scheme, netloc, url, query, fragment)
  end.

Definition urlparse (url : string) : py_result ParseResult :=
  parts ← urlsplit url;
  let '(scheme, netloc, url, query, fragment) := parts in
  let '(url, params) :=
    if existsb (String.eqb scheme) uses_params && char_in ";" url
    then splitparams url else (url, EmptyString) in
  Return {| scheme := scheme; netloc := netloc; path := url; params := params;
            query := query; fragment := fragment |}.

(** The text after the last [@], or the whole text. *)
Fixpoint after_last_at (s : string) : string :=
  match s with
  | EmptyString => EmptyString
  | String c rest =>
      if char_in "@" rest then after_last_at rest
      else if Ascii.eqb c "@" then rest else s
  end.

(** The [hostname] property. *)
Definition hostname (parsed : ParseResult) : option string :=
  let hostinfo := after_last_at (netloc parsed) in
  let '(_, have_open_br, bracketed) := partition_char "[" hostinfo in
  let host :=
    if have_open_br then
      let '(h, _, _) := partition_char "]" bracketed in h
    else
      let '(h, _, _) := partition_char ":" hostinfo in h in
  match host with
  | EmptyString => None
  | _ =>
      let '(h, percent, zone) := partition_char "%" host in
      Some (lower h +:+ (if percent then "%" else EmptyString) +:+ zone)
  end.

Fixpoint plus_to_space (s : string) : string :=
  match s with
  | EmptyString => EmptyString
  | String c rest =>
      String (if Ascii.eqb c "+" then chr 32 else c) (plus_to_space rest)
  end.

(** [unquote]: a text without a percent sign is returned as it is. *)
Definition unquote (s : string) : string :=
  if char_in "%" s then unquote_percent s else s.

(** [parse_qsl(qs)] with its default arguments *)
Definition parse_qsl (qs : string) : list (string * string) :=
  match qs with
  | EmptyString => []
  | _ =>
      flat_map
        (fun name_value =>
           let '(n, found, v) := partition_char "=" name_value in
           match found, v with
           | true, String _ _ =>
               [(unquote (plus_to_space n), unquote (plus_to_space v))]
           | _, _ => []
           end)
        (split_char "&" qs)
  end.

(** [parse_qs(qs)[name][0]] *)
Fixpoint first_value (name : string) (pairs : list (string * string))
  : py_result string :=
  match pairs with
  | [] => raise KeyError (repr_str name)
  | (n, v) :: rest => if String.eqb n name then Return v else first_value name rest
  end.

End Library.

End UrlParse.

(** ** YouTube transcript server (youtube_transcript.py) *)
Module YouTubeTranscript.

Record YouTubeTranscriptArgs : Type := {
  video_url : string;
  with_timestamps : option bool;
  language : option string;
  preserve_formatting : option bool;
  cookies_path : option string;
  proxy : option string;
  raw_json : option bool;
  readable_json : option bool;
  text_transcript : option bool
}.

(** The transcript cache entry holds no timestamp. *)
Record CachedTranscript : Type := {
  video_id : string;
  cached_language : option string;
  response : json
}.

Record YouTubeTranscriptServer : Type := {
  cache : gmap string CachedTranscript
}.

(** The transcript library: what [list_transcripts] returns or raises, a
    transcript list with its [find_transcript] and its iteration order,
    and a transcript with the result of its [fetch]. *)
Record Transcript : Type := { fetch : py_result json }.

Record TranscriptList : Type := {
  find_transcript : list (option string) -> py_result Transcript;
  transcripts : list Transcript
}.

Record fetch_call : Type := {
  fetched_video : string;
  proxies : option (list (string * json));
  cookies : option string
}.

(** [clean_json_dict] of this file: lists lose the same values as maps. *)
Definition kept (v : json) : bool :=
  negb (is_None v) && negb (eq_empty_list v) && negb (eq_empty_dict v)
  && negb (eq_empty_str v).

Fixpoint clean_json_dict (data : json) : json :=
  match data with
  | JObject fields =>
      JObject
        ((fix items (kvs : list (string * json)) : list (string * json) :=
            match kvs with
            | [] => []
            | (k, v) :: rest =>
                if kept v then (k, clean_json_dict v) :: items rest
                else items rest
            end) fields)
  | JArray elems =>
      JArray
        ((fix each (vs : list json) : list json :=
            match vs with
            | [] => []
            | v :: rest =>
                if kept v then clean_json_dict v :: each rest else each rest
            end) elems)
  | _ => data
  end.

(** [str(x)] of an optional flag or text *)
Definition str_flag (o : option bool) : string := py_str (opt_bool o).
Definition str_text (o : option string) : string := py_str (opt_str o).

(** [sep.join(...)] of texts that must all be [str] *)
Fixpoint join_texts (i : nat) (vs : list json) : py_result (list string) :=
  match vs with
  | [] => Return []
  | JString s :: rest => ss ← join_texts (S i) rest; Return (s :: ss)
  | v :: _ =>
      raise TypeError ("sequence item " +:+ pretty i +:+ ": expected str instance, "
                       +:+ type_name v +:+ " found")
  end.

(** [json.dumps(v, indent=2, ensure_ascii=False)]: in a text only the
    quote, the backslash and the control characters are escaped. *)
Definition json_escape_char_unicode (c : ascii) : string :=
  let n := ord c in
  if Nat.eqb n 34 then String BACKSLASH (str1 DQUOTE)
  else if Nat.eqb n 92 then String BACKSLASH (str1 BACKSLASH)
  else if Nat.eqb n 10 then String BACKSLASH "n"
  else if Nat.eqb n 13 then String BACKSLASH "r"
  else if Nat.eqb n 9 then String BACKSLASH "t"
  else if Nat.eqb n 8 then String BACKSLASH "b"
  else if Nat.eqb n 12 then String BACKSLASH "f"
  else if Nat.ltb n 32 then String BACKSLASH ("u00" +:+ hex2 n)
  else str1 c.

Fixpoint json_escape_unicode (s : string) : string :=
  match s with
  | EmptyString => EmptyString
  | String c rest => json_escape_char_unicode c +:+ json_escape_unicode rest
  end.

Definition json_str_unicode (s : string) : string :=
  str1 DQUOTE +:+ json_escape_unicode s +:+ str1 DQUOTE.

Fixpoint json_dumps_indent_unicode (level : nat) (v : json) : string :=
  let inner := LF +:+ spaces (2 * S level) in
  let outer := LF +:+ spaces (2 * level) in
  match v with
  | JArray [] => "[]"
  | JArray elems =>
      "[" +:+ inner +:+ py_join ("," +:+ inner)
        ((fix each (vs : list json) : list string :=
            match vs with
            | [] => []
            | x :: rest => json_dumps_indent_unicode (S level) x :: each rest
            end) elems) +:+ outer +:+ "]"
  | JObject [] => "{}"
  | JObject fields =>
      "{" +:+ inner +:+ py_join ("," +:+ inner)
        ((fix items (kvs : list (string * json)) : list string :=
            match kvs with
            | [] => []
            | (k, x) :: rest =>
                (json_str_unicode k +:+ ": "
                 +:+ json_dumps_indent_unicode (S level) x) :: items rest
            end) fields) +:+ outer +:+ "}"
  | JString s => json_str_unicode s
  | _ => json_scalar v
  end.

(** [entry['text'] for entry in transcript_data] *)
Fixpoint texts_of (entries : list json) : py_result (list json) :=
  match entries with
  | [] => Return []
  | entry :: rest =>
      t ← py_getitem entry "text";
      ts ← texts_of rest;
      Return (t :: ts)
  end.

Section Server.

Variable check_bracketed_netloc : string -> option string.
Variable checknetloc_nfkc : string -> option string.
Variable unquote_percent : string -> string.

(** [format_timestamp], which computes on floats. *)
Variable format_timestamp : json -> py_result string.

Definition urlparse := UrlParse.urlparse check_bracketed_netloc checknetloc_nfkc.

Definition host_in (parsed : UrlParse.ParseResult) (names : list string) : bool :=
  match UrlParse.hostname parsed with
  | Some h => existsb (String.eqb h) names
  | None => false
  end.

(** [YouTubeTranscriptServer.extract_video_id] *)
Definition extract_video_id (url : string) : py_result string :=
  if (Nat.leb (String.length url) 11 && negb (char_in "/" url)
      && negb (char_in "." url))%bool
  then Return url
  else
    parsed ← urlparse url;
    if host_in parsed ["youtu.be"; "www.youtu.be"] then
      Return (drop_chars 1 (UrlParse.path parsed))
    else
      let not_found := raise ValueError "Could not extract video ID from URL" in
      if host_in parsed ["youtube.com"; "www.youtube.com"] then
        if String.eqb (UrlParse.path parsed) "/watch" then
          UrlParse.first_value "v"
            (UrlParse.parse_qsl unquote_percent (UrlParse.query parsed))
        else if startswith "/v/" (UrlParse.path parsed) then
          Return (drop_chars 3 (UrlParse.path parsed))
        else if startswith "/shorts/" (UrlParse.path parsed) then
          Return (drop_chars 8 (UrlParse.path parsed))
        else if startswith "/embed/" (UrlParse.path parsed) then
          Return (drop_chars 7 (UrlParse.path parsed))
        else not_found
      else not_found.

Definition transcript_cache_key (video_id : string) (args : YouTubeTranscriptArgs)
  : string :=
  video_id +:+ "_" +:+ str_text (language args)
  +:+ "_" +:+ str_flag (with_timestamps args)
  +:+ "_" +:+ str_flag (preserve_formatting args)
  +:+ "_" +:+ str_flag (raw_json args)
  +:+ "_" +:+ str_flag (readable_json args)
  +:+ "_" +:+ str_flag (text_transcript args).

Definition store (c : gmap string CachedTranscript) (key : string)
  (video_id : string) (args : YouTubeTranscriptArgs) (resp : json)
  : gmap string CachedTranscript :=
  <[key := {| video_id := video_id; cached_language := language args;
              response := resp |}]> c.

Definition timestamped_line (entry : json) : py_result json :=
  s ← py_getitem entry "start";
  stamp ← format_timestamp s;
  t ← py_getitem entry "text";
  Return (JString (stamp +:+ " " +:+ py_str t)).

Fixpoint timestamped_lines (entries : list json) : py_result (list json) :=
  match entries with
  | [] => Return []
  | entry :: rest =>
      l ← timestamped_line entry;
      ls ← timestamped_lines rest;
      Return (l :: ls)
  end.

Definition format_transcript_with_timestamps (transcript_data : json)
  : py_result string :=
  entries ← py_iter transcript_data;
  ls ← timestamped_lines entries;
  ss ← join_texts 0 ls;
  Return (py_join LF ss).

Definition format_transcript_without_timestamps (transcript_data : json)
  : py_result string :=
  entries ← py_iter transcript_data;
  ts ← texts_of entries;
  ss ← join_texts 0 ts;
  Return (py_join LF ss).

(** The response in the requested format, from the fetched data. *)
Definition transcript_response (args : YouTubeTranscriptArgs) (transcript_data : json)
  : py_result json :=
  if truthy_bool (raw_json args) then Return transcript_data
  else if truthy_bool (readable_json args) then
    formatted ← (if truthy_bool (with_timestamps args)
                 then format_transcript_with_timestamps transcript_data
                 else format_transcript_without_timestamps transcript_data);
    Return (JString formatted)
  else if truthy_bool (text_transcript args) then
    entries ← py_iter transcript_data;
    ts ← texts_of entries;
    ss ← join_texts 0 ts;
    Return (JString (py_join " " ss))
  else Return (clean_json_dict transcript_data).

(** The transcript to fetch: the one in the requested language, else the
    first available one; [None] when there is none at all. *)
Definition choose_transcript (args : YouTubeTranscriptArgs)
  (available : TranscriptList) : py_result (option Transcript) :=
  match find_transcript available [language args] with
  | Return t => Return (Some t)
  | Raise e =>
      match exc_type e with
      | NoTranscriptFound =>
          match transcripts available with
          | t :: _ => Return (Some t)
          | [] => Return None
          end
      | _ => Raise e
      end
  end.

(** The body of the [try] after the cache lookup failed. *)
Definition transcript_attempt (self : YouTubeTranscriptServer)
  (args : YouTubeTranscriptArgs) (video_id cache_key : string)
  (listed : py_result TranscriptList)
  : py_result (json * gmap string CachedTranscript) :=
  available_transcripts ← listed;
  chosen ← choose_transcript args available_transcripts;
  match chosen with
  | None => Return (JString ("No transcript found for video " +:+ video_id),
                    cache self)
  | Some transcript =>
      transcript_data ← fetch transcript;
      resp ← transcript_response args transcript_data;
      Return (resp, store (cache self) cache_key video_id args resp)
  end.

(** The [except] clauses of [get_transcript]: each returns a text. *)
Definition transcript_handler (args : YouTubeTranscriptArgs) (e : exc) : string :=
  if isinstance_ValueError e then "Error: " +:+ exc_str e
  else match exc_type e with
       | TranscriptsDisabled => "Error: Transcripts are disabled for this video"
       | VideoUnavailable => "Error: Video " +:+ video_url args +:+ " is unavailable"
       | NoTranscriptFound =>
           "Error: No transcript found for video " +:+ video_url args
       | _ => "Error: " +:+ exc_str e
       end.

(** [YouTubeTranscriptServer.get_transcript]; [library] stands for
    [YouTubeTranscriptApi.list_transcripts]. The calls made to it are
    returned beside the result and the cache. *)
Definition get_transcript (self : YouTubeTranscriptServer)
  (library : fetch_call -> py_result TranscriptList) (args : YouTubeTranscriptArgs)
  : py_result json * gmap string CachedTranscript * list fetch_call :=
  match extract_video_id (video_url args) with
  | Raise e => (Return (JString (transcript_handler args e)), cache self, [])
  | Return video_id =>
      let cache_key := transcript_cache_key video_id args in
      match cache self !! cache_key with
      | Some cached => (Return (response cached), cache self, [])
      | None =>
          let proxies :=
            if truthy_str (proxy args)
            then Some [("https", opt_str (proxy args))] else None in
          let call := {| fetched_video := video_id; proxies := proxies;
                         cookies := cookies_path args |} in
          match transcript_attempt self args video_id cache_key (library call) with
          | Return (resp, c) => (Return resp, c, [call])
          | Raise e =>
              (Return (JString (transcript_handler args e)), cache self, [call])
          end
      end
  end.

(** *** [call_tool] of the transcript server *)

(** pydantic's validation of the tool's arguments *)
Variable parse_transcript_args
  : list (string * json) -> py_result YouTubeTranscriptArgs.

Definition text_content (t : string) : list TextContent :=
  [{| type_ := "text"; text := t |}].

(** The body of the [try] of [call_tool], given what [get_transcript]
    returned. *)
Definition response_text (response : json) : list TextContent :=
  match response with
  | JArray _ | JObject _ => text_content (json_dumps_indent_unicode 0 response)
  | JString s => text_content s
  | _ => text_content (py_str response)
  end.

(** [call_tool]: its [except Exception] clause turns every exception into
    a text. *)
Definition call_tool (self : YouTubeTranscriptServer)
  (library : fetch_call -> py_result TranscriptList) (name : string)
  (arguments : list (string * json))
  : py_result (list TextContent) * gmap string CachedTranscript * list fetch_call :=
  let caught (body : py_result (list TextContent)) : py_result (list TextContent) :=
    match body with
    | Return content => Return content
    | Raise e => Return (text_content ("Error: " +:+ exc_str e))
    end in
  if String.eqb name "youtube_transcript" then
    match parse_transcript_args arguments with
    | Raise e => (caught (Raise e), cache self, [])
    | Return args =>
        let '(r, c, calls) := get_transcript self library args in
        (caught (response ← r; Return (response_text response)), c, calls)
    end
  else
    (caught (raise (McpError METHOD_NOT_FOUND) ("Tool '" +:+ name +:+ "' not found")),
     cache self, []).

End Server.

End YouTubeTranscript.

(** Inputs on which the Google Search variant agrees with the described
    pruning as well. A map value that is [null], [""], [[]] or [{}] is
    dropped by both and not looked into; any other map value is not
    emptied by the pruning; and a list that is looked into holds an
    element other than [null] and none of [""], [[]] and [{}]. *)
Fixpoint settled_strict (j : json) : bool :=
  match j with
  | JObject fields =>
      (fix all (kvs : list (string * json)) : bool :=
         match kvs with
         | [] => true
         | (_, v) :: rest =>
             (is_empty_value v
              || (settled_strict v && negb (is_empty_value (reference_prune v))))
             && all rest
         end) fields
  | JArray elems =>
      existsb (fun v => negb (is_None v)) elems
      && (fix all (vs : list json) : bool :=
            match vs with
            | [] => true
            | v :: rest =>
                settled_strict v && (is_None v || negb (is_empty_value v)) && all rest
            end) elems
  | _ => true
  end.

(** The items a variant keeps of a map, as its comprehension computes
    them, and the items the described pruning keeps. *)
Definition kept_items (keep : json -> bool) (clean : json -> json)
  (fields : list (string * json)) : list (string * json) :=
  map (fun kv => (fst kv, clean (snd kv))) (List.filter (fun kv => keep (snd kv)) fields).

Definition pruned_items (fields : list (string * json)) : list (string * json) :=
  List.filter (fun kv => negb (is_empty_value (snd kv)))
    (map (fun kv => (fst kv, reference_prune (snd kv))) fields).

(** Documents with nothing to prune: no member of a map or of a list is
    [null], [""], [[]] or [{}], at any depth. *)
Fixpoint nothing_to_prune (j : json) : bool :=
  match j with
  | JObject fields =>
      (fix all (kvs : list (string * json)) : bool :=
         match kvs with
         | [] => true
         | (_, v) :: rest => negb (is_empty_value v) && nothing_to_prune v && all rest
         end) fields
  | JArray elems =>
      (fix all (vs : list json) : bool :=
         match vs with
         | [] => true
         | v :: rest => negb (is_empty_value v) && nothing_to_prune v && all rest
         end) elems
  | _ => true
  end.

(** ** Requests and servers used in the examples *)

Definition coffee_search (raw readable : bool) : GoogleSearch.GoogleSearchArgs :=
  {| GoogleSearch.q := "coffee"; GoogleSearch.num := Some 10;
     GoogleSearch.start := None; GoogleSearch.location := None;
     GoogleSearch.gl := None; GoogleSearch.hl := None;
     GoogleSearch.device := None; GoogleSearch.safe := None;
     GoogleSearch.filter := None; GoogleSearch.time_period := None;
     GoogleSearch.exactTerms := None; GoogleSearch.include_domains := [];
     GoogleSearch.exclude_domains := [];
     GoogleSearch.raw_json := Some raw; GoogleSearch.readable_json := Some readable |}.

Definition search_server (key : string) : GoogleSearch.SerpApiServer :=
  {| GoogleSearch.api_key := key; GoogleSearch.cache := ∅ |}.

Definition aapl_quote (raw readable : bool) : GoogleFinance.GoogleFinanceSearchArgs :=
  {| GoogleFinance.q := "AAPL"; GoogleFinance.hl := None;
     GoogleFinance.window := None;
     GoogleFinance.raw_json := Some raw; GoogleFinance.readable_json := Some readable |}.

Definition finance_server (key : string) : GoogleFinance.SerpApiGoogleFinanceServer :=
  {| GoogleFinance.api_key := key; GoogleFinance.cache := ∅ |}.

Definition papers_search (raw readable : bool) : GoogleScholar.GoogleScholarArgs :=
  {| GoogleScholar.q := Some "coq"; GoogleScholar.hl := None;
     GoogleScholar.lr := None; GoogleScholar.start := None;
     GoogleScholar.num := None; GoogleScholar.cites := None;
     GoogleScholar.as_ylo := None; GoogleScholar.as_yhi := None;
     GoogleScholar.scisbd := None; GoogleScholar.cluster := None;
     GoogleScholar.as_sdt := None; GoogleScholar.safe := None;
     GoogleScholar.filter := None; GoogleScholar.as_vis := None;
     GoogleScholar.as_rr := None;
     GoogleScholar.raw_json := Some raw; GoogleScholar.readable_json := Some readable |}.

Definition scholar_server (key : string) : GoogleScholar.SerpApiGoogleScholarServer :=
  {| GoogleScholar.api_key := key; GoogleScholar.cache := ∅ |}.

Definition cafe_search (raw readable : bool) : GoogleMaps.GoogleMapsSearchArgs :=
  {| GoogleMaps.q := Some "cafe"; GoogleMaps.type := Some "search";
     GoogleMaps.data := None; GoogleMaps.place_id := None; GoogleMaps.ll := None;
     GoogleMaps.google_domain := None; GoogleMaps.hl := None; GoogleMaps.gl := None;
     GoogleMaps.start := None;
     GoogleMaps.raw_json := Some raw; GoogleMaps.readable_json := Some readable |}.

(** An upstream that answers every request with the same reply. *)
Definition always (reply : http_outcome) : request -> http_outcome := fun _ => reply.

(** A Scholar page without results: the pruning leaves nothing of it. *)
Definition sparse_page : json :=
  JObject [("organic_results", JArray []); ("pagination", JNull)].

(** ** Upstream failures, as the Finance adapter reports them *)

(** The upstream call failed: an exception, or a status other than 200. *)
Definition upstream_failed (reply : http_outcome) : Prop :=
  match reply with
  | Failed _ => True
  | Responded status _ _ => status <> 200
  end.

(** The message of the error response synthesized for a failed call. *)
Definition finance_error_message (reply : http_outcome) : string :=
  match reply with
  | Failed e =>
      if isinstance_TimeoutError e then "SerpAPI request timed out"
      else "An error occurred: " +:+ exc_str e
  | Responded status error_text _ =>
      "SerpAPI returned status code " +:+ pretty status +:+ ": " +:+ error_text
  end.

(** The error response in each output mode: the document itself, the
    markdown document with its single Error section, the pruned
    document. *)
Definition finance_error_payload (args : GoogleFinance.GoogleFinanceSearchArgs)
  (params : list (string * json)) (message : string) : json :=
  match selected_mode (GoogleFinance.raw_json args) (GoogleFinance.readable_json args) with
  | RawMode => GoogleFinance.error_response params message
  | ReadableMode => JString (py_join LF ["# Error"; message; EmptyString])
  | CleanMode =>
      GoogleFinance.clean_json_dict (GoogleFinance.error_response params message)
  end.

(** What is known of pydantic on the adapter's own error responses: they
    validate, and the model carries their message. *)
Definition accepts_error_responses
  (validate : list (string * json) -> py_result GoogleFinance.GoogleFinanceResponseData)
  : Prop :=
  forall params message,
    exists model,
      validate [("search_metadata", JObject [("status", JString "Error")]);
                ("search_parameters", JObject params);
                ("error", JString message)] = Return model
      /\ GoogleFinance.error model = Some message.

(** ** Mode tags *)

(** The tag the Finance and Maps adapters append to the key parts, and
    the suffix the Google Search adapter appends to the serialized
    parameters. *)
Definition mode_tag (m : output_mode) : string :=
  match m with
  | RawMode => "format=raw_json"
  | ReadableMode => "format=readable_json"
  | CleanMode => "format=clean_json"
  end.

Definition mode_suffix (m : output_mode) : string :=
  match m with
  | RawMode => "_raw"
  | ReadableMode => "_readable"
  | CleanMode => "_clean"
  end.

(** Every part followed by the separator: what [sep.join] writes before
    the last part. *)
Fixpoint join_prefix (sep : string) (parts : list string) : string :=
  match parts with
  | [] => EmptyString
  | p :: rest => p +:+ sep +:+ join_prefix sep rest
  end.

(** ** Requests with the same search parameters *)

Definition finance_same_search (a1 a2 : GoogleFinance.GoogleFinanceSearchArgs) : Prop :=
  GoogleFinance.q a1 = GoogleFinance.q a2
  /\ GoogleFinance.hl a1 = GoogleFinance.hl a2
  /\ GoogleFinance.window a1 = GoogleFinance.window a2.

Definition maps_same_search (a1 a2 : GoogleMaps.GoogleMapsSearchArgs) : Prop :=
  GoogleMaps.q a1 = GoogleMaps.q a2
  /\ GoogleMaps.type a1 = GoogleMaps.type a2
  /\ GoogleMaps.data a1 = GoogleMaps.data a2
  /\ GoogleMaps.place_id a1 = GoogleMaps.place_id a2
  /\ GoogleMaps.ll a1 = GoogleMaps.ll a2
  /\ GoogleMaps.google_domain a1 = GoogleMaps.google_domain a2
  /\ GoogleMaps.hl a1 = GoogleMaps.hl a2
  /\ GoogleMaps.gl a1 = GoogleMaps.gl a2
  /\ GoogleMaps.start a1 = GoogleMaps.start a2.

Definition google_same_search (a1 a2 : GoogleSearch.GoogleSearchArgs) : Prop :=
  GoogleSearch.q a1 = GoogleSearch.q a2
  /\ GoogleSearch.num a1 = GoogleSearch.num a2
  /\ GoogleSearch.start a1 = GoogleSearch.start a2
  /\ GoogleSearch.location a1 = GoogleSearch.location a2
  /\ GoogleSearch.gl a1 = GoogleSearch.gl a2
  /\ GoogleSearch.hl a1 = GoogleSearch.hl a2
  /\ GoogleSearch.device a1 = GoogleSearch.device a2
  /\ GoogleSearch.safe a1 = GoogleSearch.safe a2
  /\ GoogleSearch.filter a1 = GoogleSearch.filter a2
  /\ GoogleSearch.time_period a1 = GoogleSearch.time_period a2
  /\ GoogleSearch.exactTerms a1 = GoogleSearch.exactTerms a2
  /\ GoogleSearch.include_domains a1 = GoogleSearch.include_domains a2
  /\ GoogleSearch.exclude_domains a1 = GoogleSearch.exclude_domains a2.

(** ** Response models used in the examples *)

(** A Google Search response with no result category, some search
    information and an error. *)
Definition search_response (info : option (list (string * json)))
  (err : option string) : GoogleSearch.SearchResponseData :=
  {| GoogleSearch.search_metadata := [];
     GoogleSearch.search_parameters := [];
     GoogleSearch.search_information := info;
     GoogleSearch.organic_results := [];
     GoogleSearch.related_searches := None;
     GoogleSearch.pagination := None;
     GoogleSearch.knowledge_graph := None;
     GoogleSearch.answer_box := None;
     GoogleSearch.related_questions := None;
     GoogleSearch.top_stories := None;
     GoogleSearch.error := err |}.

Definition finance_response (stock : option (list (string * json)))
  (err : option string) : GoogleFinance.GoogleFinanceResponseData :=
  {| GoogleFinance.search_metadata := [];
     GoogleFinance.search_parameters := [];
     GoogleFinance.markets := None;
     GoogleFinance.stock_info := stock;
     GoogleFinance.graph := None;
     GoogleFinance.news_results := None;
     GoogleFinance.people_also_search_for := None;
     GoogleFinance.error := err |}.

(** The markdown document that consists of the Error section alone. *)
Definition error_document (message : string) : string :=
  py_join LF ["# Error"; message; EmptyString].

(** ** Statements about the payloads, the library calls and the URLs *)

(** The [api_key] member of the [search_parameters] member of a payload *)
Definition disclosed_api_key (payload : json) : py_result json :=
  search_parameters ← py_getitem payload "search_parameters";
  py_getitem search_parameters "api_key".

(** The call [get_transcript] makes to the transcript library. *)
Definition transcript_call (video_id : string)
  (args : YouTubeTranscript.YouTubeTranscriptArgs) : YouTubeTranscript.fetch_call :=
  {| YouTubeTranscript.fetched_video := video_id;
     YouTubeTranscript.proxies :=
       if truthy_str (YouTubeTranscript.proxy args)
       then Some [("https", opt_str (YouTubeTranscript.proxy args))] else None;
     YouTubeTranscript.cookies := YouTubeTranscript.cookies_path args |}.

(** The request for the text of a video, and a library that knows one
    English transcript of it. *)
Definition hello_request : YouTubeTranscript.YouTubeTranscriptArgs :=
  {| YouTubeTranscript.video_url := "dQw4w9WgXcQ";
     YouTubeTranscript.with_timestamps := Some false;
     YouTubeTranscript.language := Some "en";
     YouTubeTranscript.preserve_formatting := Some false;
     YouTubeTranscript.cookies_path := None;
     YouTubeTranscript.proxy := None;
     YouTubeTranscript.raw_json := Some false;
     YouTubeTranscript.readable_json := Some false;
     YouTubeTranscript.text_transcript := Some true |}.

Definition hello_library (call : YouTubeTranscript.fetch_call)
  : py_result YouTubeTranscript.TranscriptList :=
  Return
    {| YouTubeTranscript.find_transcript := fun _ =>
         Return {| YouTubeTranscript.fetch :=
                     Return (JArray [JObject [("text", JString "hello");
                                              ("start", JFloat "0.0")];
                                     JObject [("text", JString "world");
                                              ("start", JFloat "1.5")]]) |};
       YouTubeTranscript.transcripts := [] |}.

(** The query text [search] sends: the request's query; between
    parentheses and followed by the [site:] operators joined by [OR]
    when domains are to be included; then followed by a [-site:]
    operator for each domain to exclude. *)
Definition query_sent (args : GoogleSearch.GoogleSearchArgs) : string :=
  let included :=
    match GoogleSearch.include_domains args with
    | [] => GoogleSearch.q args
    | domains =>
        "(" +:+ GoogleSearch.q args +:+ ") "
        +:+ py_join " OR " (map (fun domain => "site:" +:+ domain) domains)
    end in
  match GoogleSearch.exclude_domains args with
  | [] => included
  | domains =>
      included +:+ " "
      +:+ py_join " " (map (fun domain => "-site:" +:+ domain) domains)
  end.

(** No character of [s] is one of [specials]. *)
Definition none_of (specials s : string) : bool :=
  UrlParse.all_chars (fun c => negb (char_in c specials)) s.

(** Tab, line feed, carriage return, and the delimiters of the fragment,
    the query and the path parameters *)
Definition url_delimiters : string :=
  String (chr 9) (String (chr 10) (String (chr 13) "#?;")).

(** * Properties *)

(** Case analysis on the two output flags of a request, closing the cases
    that contradict the selected mode [H]. *)
Ltac by_mode raw readable H :=
  unfold selected_mode in H;
  destruct (truthy_bool raw); [ try discriminate H | ];
  destruct (truthy_bool readable); try discriminate H.

(** ** Induction on JSON values *)

Lemma json_ind (P : json -> Prop) :
  P JNull ->
  (forall b, P (JBool b)) ->
  (forall n, P (JInt n)) ->
  (forall r, P (JFloat r)) ->
  (forall s, P (JString s)) ->
  (forall elems, Forall P elems -> P (JArray elems)) ->
  (forall fields, Forall (fun kv => P (snd kv)) fields -> P (JObject fields)) ->
  forall j, P j.
Proof.
  intros Hnull Hbool Hint Hfloat Hstr Harr Hobj.
  fix IH 1. intros [ | b | n | r | s | elems | fields ].
  - exact Hnull.
  - apply Hbool.
  - apply Hint.
  - apply Hfloat.
  - apply Hstr.
  - apply Harr. induction elems as [ | x xs IHxs ]; constructor; [ apply IH | exact IHxs ].
  - apply Hobj. induction fields as [ | [k x] xs IHxs ]; constructor;
      [ apply IH | exact IHxs ].
Qed.

(** ** Pruning (claim C1) *)

Lemma is_empty_value_fixed v : is_empty_value v = true -> reference_prune v = v.
Proof.
  destruct v as [ | | | | [ | ] | [ | ] | [ | [] ] ]; intros H;
    try reflexivity; discriminate H.
Qed.

Lemma maps_kept_spec v : GoogleMapsClean.kept v = negb (is_empty_value v).
Proof. destruct v as [ | | | | [ | ] | [ | ] | [ | ] ]; reflexivity. Qed.

Lemma search_kept_spec v : GoogleSearchClean.kept v = negb (is_empty_value v).
Proof. destruct v as [ | | | | [ | ] | [ | ] | [ | ] ]; reflexivity. Qed.

(** The comprehension over a map, as a filter followed by a map. *)
Lemma maps_clean_object fields :
  GoogleMapsClean.clean_json_dict (JObject fields)
  = JObject (map (fun kv => (fst kv, GoogleMapsClean.clean_json_dict (snd kv)))
               (List.filter (fun kv => negb (is_empty_value (snd kv))) fields)).
Proof.
  simpl. f_equal. induction fields as [ | [k v] rest IH ]; simpl; [ reflexivity | ].
  rewrite maps_kept_spec. destruct (negb (is_empty_value v)); simpl; now rewrite IH.
Qed.

Lemma search_clean_object fields :
  GoogleSearchClean.clean_json_dict (JObject fields)
  = JObject (map (fun kv => (fst kv, GoogleSearchClean.clean_json_dict (snd kv)))
               (List.filter (fun kv => negb (is_empty_value (snd kv))) fields)).
Proof.
  simpl. f_equal. induction fields as [ | [k v] rest IH ]; simpl; [ reflexivity | ].
  rewrite search_kept_spec. destruct (negb (is_empty_value v)); simpl; now rewrite IH.
Qed.

Lemma maps_clean_not_None v :
  is_None v = false -> is_None (GoogleMapsClean.clean_json_dict v) = false.
Proof. destruct v; simpl; congruence. Qed.

Lemma maps_clean_not_blank v :
  is_empty_value v = false ->
  is_None (GoogleMapsClean.clean_json_dict v) = false
  /\ eq_empty_str (GoogleMapsClean.clean_json_dict v) = false.
Proof. destruct v as [ | | | | [ | ] | | ]; simpl; try discriminate; auto. Qed.

Lemma maps_clean_no_null_or_blank j :
  no_null_or_blank (GoogleMapsClean.clean_json_dict j) = true.
Proof.
  induction j as [ | | | | | elems IH | fields IH ] using json_ind; try reflexivity.
  - simpl. induction IH as [ | x xs Hx _ IHxs ]; simpl; [ reflexivity | ].
    destruct (is_None x) eqn:Hn; simpl; [ exact IHxs | ].
    rewrite (maps_clean_not_None x Hn), Hx. exact IHxs.
  - simpl. induction IH as [ | [k v] xs Hv _ IHxs ]; simpl; [ reflexivity | ].
    rewrite maps_kept_spec. destruct (is_empty_value v) eqn:He; simpl; [ exact IHxs | ].
    destruct (maps_clean_not_blank v He) as [-> ->]. simpl in Hv. rewrite Hv. exact IHxs.
Qed.

Lemma reference_prune_no_empty_values j :
  no_empty_values (reference_prune j) = true.
Proof.
  induction j as [ | | | | | elems IH | fields IH ] using json_ind; try reflexivity.
  - simpl. induction IH as [ | x xs Hx _ IHxs ]; simpl; [ reflexivity | ].
    destruct (is_None x); simpl; [ exact IHxs | ]. now rewrite Hx.
  - simpl. induction IH as [ | [k v] xs Hv _ IHxs ]; simpl; [ reflexivity | ].
    destruct (is_empty_value (reference_prune v)) eqn:He; simpl; [ exact IHxs | ].
    simpl in Hv. now rewrite He, Hv.
Qed.

Lemma maps_clean_settled j :
  settled j = true -> GoogleMapsClean.clean_json_dict j = reference_prune j.
Proof.
  induction j as [ | | | | | elems IH | fields IH ] using json_ind; try reflexivity.
  - simpl. intros Hs. f_equal.
    induction IH as [ | x xs Hx _ IHxs ]; simpl in *; [ reflexivity | ].
    apply andb_prop in Hs as [Hsx Hsxs].
    destruct (is_None x); simpl; [ now apply IHxs | ].
    now rewrite (Hx Hsx), (IHxs Hsxs).
  - simpl. intros Hs. f_equal.
    induction IH as [ | [k v] xs Hv _ IHxs ]; simpl in *; [ reflexivity | ].
    apply andb_prop in Hs as [Hs Hsxs]. apply andb_prop in Hs as [Hsv Hlate].
    rewrite maps_kept_spec, (IHxs Hsxs).
    destruct (is_empty_value v) eqn:He; simpl.
    + now rewrite (is_empty_value_fixed v He), He.
    + simpl in Hlate. rewrite (Hv Hsv). apply negb_true_iff in Hlate. now rewrite Hlate.
Qed.

Lemma search_clean_settled_strict j :
  settled_strict j = true -> GoogleSearchClean.clean_json_dict j = reference_prune j.
Proof.
  induction j as [ | | | | | elems IH | fields IH ] using json_ind; try reflexivity.
  - simpl. intros Hs. apply andb_prop in Hs as [Hex Hall].
    match goal with
    | |- match ?a with [] => _ | _ :: _ => _ end = JArray ?b =>
        assert (Heq : a = b); [ | rewrite Heq; assert (Hne : b <> []) ]
    end.
    + clear Hex. induction IH as [ | x xs Hx _ IHxs ]; simpl in *; [ reflexivity | ].
      apply andb_prop in Hall as [Hx' Hxs]. apply andb_prop in Hx' as [Hsx Hshape].
      rewrite search_kept_spec, (IHxs Hxs).
      destruct (is_None x) eqn:Hn.
      * destruct x; try discriminate Hn. reflexivity.
      * simpl in Hshape. rewrite Hshape. now rewrite (Hx Hsx).
    + clear IH Hall Heq. induction elems as [ | x xs IHxs ]; simpl in *;
        [ discriminate | ].
      destruct (is_None x); simpl in *; [ now apply IHxs | discriminate ].
    + match goal with
      | |- match ?b with [] => _ | _ :: _ => _ end = _ => destruct b
      end; [ contradiction | reflexivity ].
  - simpl. intros Hs. f_equal.
    induction IH as [ | [k v] xs Hv _ IHxs ]; simpl in *; [ reflexivity | ].
    apply andb_prop in Hs as [Hs Hsxs].
    rewrite search_kept_spec, (IHxs Hsxs).
    destruct (is_empty_value v) eqn:He; simpl.
    + now rewrite (is_empty_value_fixed v He), He.
    + simpl in Hs. apply andb_prop in Hs as [Hsv Hlate].
      rewrite (Hv Hsv). apply negb_true_iff in Hlate. now rewrite Hlate.
Qed.

(** *** The converse: where the variants agree with the described pruning *)

Lemma is_empty_value_settled v : is_empty_value v = true -> settled v = true.
Proof.
  destruct v as [ | | | | [ | ] | [ | ] | [ | [] ] ]; intros H;
    try reflexivity; discriminate H.
Qed.

Lemma reference_prune_object fields :
  reference_prune (JObject fields) = JObject (pruned_items fields).
Proof.
  simpl. f_equal. unfold pruned_items.
  induction fields as [ | [k v] rest IH ]; simpl; [ reflexivity | ].
  destruct (is_empty_value (reference_prune v)); simpl; now rewrite IH.
Qed.

Lemma pruned_items_length fields :
  (length (pruned_items fields)
   <= length (List.filter (fun kv => negb (is_empty_value (snd kv))) fields))%nat.
Proof.
  unfold pruned_items. induction fields as [ | [k v] rest IH ]; simpl; [ lia | ].
  destruct (is_empty_value v) eqn:He; simpl.
  - now rewrite (is_empty_value_fixed v He), He.
  - destruct (is_empty_value (reference_prune v)); simpl; lia.
Qed.

(** Two maps built from the same fields, one keeping the values that
    are not empty and the other the values whose pruning is not empty,
    are equal only if they keep the same fields with equal values. *)
Lemma object_agreement (clean : json -> json) fields :
  kept_items (fun v => negb (is_empty_value v)) clean fields = pruned_items fields ->
  Forall (fun kv => is_empty_value (snd kv) = false ->
                    clean (snd kv) = reference_prune (snd kv)
                    /\ is_empty_value (reference_prune (snd kv)) = false) fields.
Proof.
  unfold kept_items.
  induction fields as [ | [k v] rest IH ]; intros Heq; constructor.
  - simpl. intros He. unfold pruned_items in Heq. simpl in Heq. rewrite He in Heq.
    simpl in Heq.
    destruct (is_empty_value (reference_prune v)) eqn:Hr; simpl in Heq.
    + exfalso. pose proof (pruned_items_length rest) as Hlen.
      unfold pruned_items in Hlen. rewrite <- Heq in Hlen. simpl in Hlen.
      rewrite length_map in Hlen. lia.
    + injection Heq as Hv _. now split.
  - apply IH. unfold pruned_items in Heq |- *. simpl in Heq.
    destruct (is_empty_value v) eqn:He; simpl in Heq.
    + now rewrite (is_empty_value_fixed v He), He in Heq.
    + destruct (is_empty_value (reference_prune v)) eqn:Hr; simpl in Heq.
      * exfalso. pose proof (pruned_items_length rest) as Hlen.
        unfold pruned_items in Hlen. rewrite <- Heq in Hlen. simpl in Hlen.
        rewrite length_map in Hlen. lia.
      * now injection Heq.
Qed.

Lemma maps_clean_agrees_only_if_settled j :
  GoogleMapsClean.clean_json_dict j = reference_prune j -> settled j = true.
Proof.
  induction j as [ | | | | | elems IH | fields IH ] using json_ind; try reflexivity.
  - simpl. intros Heq. injection Heq as Heq.
    induction IH as [ | x xs Hx _ IHxs ]; simpl in *; [ reflexivity | ].
    destruct (is_None x) eqn:Hn; simpl in Heq.
    + destruct x; try discriminate Hn. simpl. now apply IHxs.
    + injection Heq as Hhead Htail. now rewrite (Hx Hhead), (IHxs Htail).
  - intros Heq. rewrite maps_clean_object, reference_prune_object in Heq.
    injection Heq as Heq. apply object_agreement in Heq. simpl.
    induction IH as [ | [k v] xs Hv _ IHxs ]; simpl in *; [ reflexivity | ].
    apply Forall_cons in Heq as [Hhead Htail]. simpl in Hhead.
    rewrite (IHxs Htail), andb_true_r.
    destruct (is_empty_value v) eqn:He.
    + now rewrite (is_empty_value_settled v He).
    + destruct (Hhead eq_refl) as [Hclean Hlate]. now rewrite (Hv Hclean), Hlate.
Qed.

Lemma search_clean_array elems :
  GoogleSearchClean.clean_json_dict (JArray elems)
  = match map GoogleSearchClean.clean_json_dict
            (List.filter (fun v => negb (is_empty_value v)) elems) with
    | [] => JNull
    | cleaned_list => JArray cleaned_list
    end.
Proof.
  simpl.
  match goal with
  | |- match ?a with [] => _ | _ :: _ => _ end = match ?b with [] => _ | _ :: _ => _ end =>
      assert (Heq : a = b); [ | rewrite Heq; now destruct b ]
  end.
  induction elems as [ | x xs IH ]; simpl; [ reflexivity | ].
  rewrite search_kept_spec. destruct (negb (is_empty_value x)); simpl; now rewrite IH.
Qed.

Lemma reference_prune_array elems :
  reference_prune (JArray elems)
  = JArray (map reference_prune (List.filter (fun v => negb (is_None v)) elems)).
Proof.
  simpl. f_equal. induction elems as [ | x xs IH ]; simpl; [ reflexivity | ].
  destruct (is_None x); simpl; now rewrite IH.
Qed.

Lemma is_None_is_empty v : is_None v = true -> is_empty_value v = true.
Proof. destruct v; intros H; try discriminate H; reflexivity. Qed.

Lemma kept_elements_length (elems : list json) :
  (length (List.filter (fun v => negb (is_empty_value v)) elems)
   <= length (List.filter (fun v => negb (is_None v)) elems))%nat.
Proof.
  induction elems as [ | x xs IH ]; simpl; [ lia | ].
  destruct (is_None x) eqn:Hn; simpl.
  - now rewrite (is_None_is_empty x Hn).
  - destruct (is_empty_value x); simpl; lia.
Qed.

(** Two lists built from the same elements, one keeping the elements
    that are not empty and the other the elements that are not [null],
    are equal only if no element is [""], [[]] or [{}] and the kept
    elements are equal. *)
Lemma array_agreement (clean : json -> json) elems :
  map clean (List.filter (fun v => negb (is_empty_value v)) elems)
  = map reference_prune (List.filter (fun v => negb (is_None v)) elems) ->
  Forall (fun x => is_None x = false ->
                   is_empty_value x = false /\ clean x = reference_prune x) elems.
Proof.
  induction elems as [ | x xs IH ]; intros Heq; constructor.
  - intros Hn. simpl in Heq. rewrite Hn in Heq. simpl in Heq.
    destruct (is_empty_value x) eqn:He; simpl in Heq.
    + exfalso. pose proof (kept_elements_length xs) as Hlen.
      apply (f_equal (@length json)) in Heq. simpl in Heq.
      rewrite !length_map in Heq. lia.
    + injection Heq as Hx _. now split.
  - apply IH. simpl in Heq.
    destruct (is_None x) eqn:Hn; simpl in Heq.
    + now rewrite (is_None_is_empty x Hn) in Heq.
    + destruct (is_empty_value x) eqn:He; simpl in Heq.
      * exfalso. pose proof (kept_elements_length xs) as Hlen.
        apply (f_equal (@length json)) in Heq. simpl in Heq.
        rewrite !length_map in Heq. lia.
      * now injection Heq.
Qed.

Lemma search_clean_agrees_only_if_settled j :
  GoogleSearchClean.clean_json_dict j = reference_prune j -> settled_strict j = true.
Proof.
  induction j as [ | | | | | elems IH | fields IH ] using json_ind; try reflexivity.
  - intros Heq. rewrite search_clean_array, reference_prune_array in Heq.
    destruct (map GoogleSearchClean.clean_json_dict _) as [ | c cs ] eqn:Hkept;
      [ discriminate Heq | ].
    injection Heq as Heq. rewrite <- Hkept in Heq.
    simpl. apply andb_true_intro. split.
    + clear - Hkept. induction elems as [ | x xs IHxs ]; simpl in *; [ discriminate | ].
      destruct (is_None x) eqn:Hn; simpl; [ | reflexivity ].
      rewrite (is_None_is_empty x Hn) in Hkept. simpl in Hkept. now apply IHxs.
    + apply array_agreement in Heq. clear Hkept.
      induction IH as [ | x xs Hx _ IHxs ]; simpl in *; [ reflexivity | ].
      apply Forall_cons in Heq as [Hhead Htail]. rewrite (IHxs Htail), andb_true_r.
      destruct (is_None x) eqn:Hn.
      * destruct x; try discriminate Hn. reflexivity.
      * destruct (Hhead eq_refl) as [He Hclean]. now rewrite (Hx Hclean), He.
  - intros Heq. rewrite search_clean_object, reference_prune_object in Heq.
    injection Heq as Heq. apply object_agreement in Heq. simpl.
    induction IH as [ | [k v] xs Hv _ IHxs ]; simpl in *; [ reflexivity | ].
    apply Forall_cons in Heq as [Hhead Htail]. simpl in Hhead.
    rewrite (IHxs Htail), andb_true_r.
    destruct (is_empty_value v) eqn:He; [ reflexivity | ].
    destruct (Hhead eq_refl) as [Hclean Hlate]. now rewrite (Hv Hclean), Hlate.
Qed.

(** The response of the end-to-end scenario of the specification. *)
Example clean_maps_end_to_end :
  GoogleMapsClean.clean_json_dict
    (JObject [("search_metadata", JObject [("status", JString "OK")]);
              ("stock_info", JObject [("price", JFloat "150.0");
                                      ("exchange", JString EmptyString)]);
              ("markets", JNull)])
  = JObject [("search_metadata", JObject [("status", JString "OK")]);
             ("stock_info", JObject [("price", JFloat "150.0")])].
Proof. reflexivity. Qed.

(** Both variants test a value before they clean it, so a map or a list
    that only the cleaning empties stays at its key: under [a], the map
    whose single key [b] holds [null] is left as the empty map, where the
    described pruning drops [a]; and the Search variant, which turns a
    list left without elements into [None], leaves [a] mapped to
    [null]. *)
Example clean_json_dict_keeps_emptied_containers :
  GoogleMapsClean.clean_json_dict (JObject [("a", JObject [("b", JNull)])])
  = JObject [("a", JObject [])]
  /\ GoogleSearchClean.clean_json_dict (JObject [("a", JObject [("b", JNull)])])
     = JObject [("a", JObject [])]
  /\ reference_prune (JObject [("a", JObject [("b", JNull)])]) = JObject []
  /\ no_empty_values
       (GoogleMapsClean.clean_json_dict (JObject [("a", JObject [("b", JNull)])]))
     = false
  /\ GoogleSearchClean.clean_json_dict (JObject [("a", JArray [JNull])])
     = JObject [("a", JNull)]
  /\ reference_prune (JObject [("a", JArray [JNull])]) = JObject [].
Proof. repeat split; reflexivity. Qed.

(** C1, counterexample. The Google Search variant filters a list by the
    same four tests as a map: it drops the empty string, the empty list
    and the empty map from a list as well as [null], where the described
    pruning drops [null] only; so it does under a map key, where the pair
    of the input that the described pruning retains is changed. *)
Lemma clean_json_dict_differs_from_described_pruning :
  GoogleSearchClean.clean_json_dict (JArray [JString EmptyString; JInt 0; JBool false])
  = JArray [JInt 0; JBool false]
  /\ reference_prune (JArray [JString EmptyString; JInt 0; JBool false])
     = JArray [JString EmptyString; JInt 0; JBool false]
  /\ GoogleSearchClean.clean_json_dict
       (JObject [("tags", JArray [JString "x"; JArray []; JObject []; JNull])])
     = JObject [("tags", JArray [JString "x"])]
  /\ reference_prune
       (JObject [("tags", JArray [JString "x"; JArray []; JObject []; JNull])])
     = JObject [("tags", JArray [JString "x"; JArray []; JObject []])]
  /\ GoogleSearchClean.clean_json_dict (JArray [JString EmptyString; JInt 0; JBool false])
     <> reference_prune (JArray [JString EmptyString; JInt 0; JBool false]).
Proof.
  split; [ reflexivity | split; [ reflexivity | split; [ reflexivity | split ] ] ];
    [ reflexivity | discriminate ].
Qed.

(** C1, amended. On every input in which no map value is emptied by the
    pruning, the Maps variant of [clean_json_dict] equals the described
    pruning, so its output maps no key to [null], the empty string, the
    empty list or the empty map at any depth; the Search variant does so
    on the inputs in which, moreover, every list that is looked into
    holds an element other than [null] and none of the empty string, the
    empty list and the empty map. On every input, the output of the Maps
    variant maps no key to [null] or to the empty string and holds no
    [null] list element, at any depth. The two sets of inputs cannot be
    widened: a variant that equals the described pruning on an input
    finds the input in its set. *)
Theorem clean_json_dict_agrees_on_settled_inputs (j : json) :
  (settled j = true ->
     GoogleMapsClean.clean_json_dict j = reference_prune j
     /\ no_empty_values (GoogleMapsClean.clean_json_dict j) = true)
  /\ (settled_strict j = true ->
        GoogleSearchClean.clean_json_dict j = reference_prune j
        /\ no_empty_values (GoogleSearchClean.clean_json_dict j) = true)
  /\ no_null_or_blank (GoogleMapsClean.clean_json_dict j) = true
  /\ (GoogleMapsClean.clean_json_dict j = reference_prune j -> settled j = true)
  /\ (GoogleSearchClean.clean_json_dict j = reference_prune j ->
      settled_strict j = true).
Proof.
  split; [ | split; [ | split; [ | split ] ] ].
  - intros Hs. rewrite (maps_clean_settled j Hs).
    split; [ reflexivity | apply reference_prune_no_empty_values ].
  - intros Hs. rewrite (search_clean_settled_strict j Hs).
    split; [ reflexivity | apply reference_prune_no_empty_values ].
  - apply maps_clean_no_null_or_blank.
  - apply maps_clean_agrees_only_if_settled.
  - apply search_clean_agrees_only_if_settled.
Qed.

(** C1, witness: the end-to-end scenario of the specification is a settled
    input, for both variants. *)
Lemma clean_json_dict_end_to_end_witness :
  (GoogleMapsClean.clean_json_dict
     (JObject [("search_metadata", JObject [("status", JString "OK")]);
               ("stock_info", JObject [("price", JFloat "150.0");
                                       ("exchange", JString EmptyString)]);
               ("markets", JNull)])
   = reference_prune
       (JObject [("search_metadata", JObject [("status", JString "OK")]);
                 ("stock_info", JObject [("price", JFloat "150.0");
                                         ("exchange", JString EmptyString)]);
                 ("markets", JNull)])
   /\ no_empty_values
        (GoogleMapsClean.clean_json_dict
           (JObject [("search_metadata", JObject [("status", JString "OK")]);
                     ("stock_info", JObject [("price", JFloat "150.0");
                                             ("exchange", JString EmptyString)]);
                     ("markets", JNull)])) = true)
  /\ (GoogleSearchClean.clean_json_dict
        (JObject [("organic_results", JArray [JObject [("title", JString "A");
                                                       ("date", JNull)]]);
                  ("pagination", JObject [])])
      = reference_prune
          (JObject [("organic_results", JArray [JObject [("title", JString "A");
                                                         ("date", JNull)]]);
                    ("pagination", JObject [])])
      /\ no_empty_values
           (GoogleSearchClean.clean_json_dict
              (JObject [("organic_results", JArray [JObject [("title", JString "A");
                                                             ("date", JNull)]]);
                        ("pagination", JObject [])])) = true).
Proof.
  split.
  - apply (proj1 (clean_json_dict_agrees_on_settled_inputs _)). reflexivity.
  - apply (proj1 (proj2 (clean_json_dict_agrees_on_settled_inputs _))). reflexivity.
Defined.

(** ** Cache lifetime (claim C2) *)

(** A Google Search entry is served whenever its key is present: [search]
    never reads the entry's timestamp. *)
Lemma google_search_hit_ignores_age validate self stamp upstream args cached :
  GoogleSearch.cache self !! GoogleSearch.search_cache_key self args = Some cached ->
  GoogleSearch.search validate self stamp upstream args
  = Run (Return (GoogleSearch.response cached)) (GoogleSearch.cache self) [].
Proof. intros H. unfold GoogleSearch.search. now rewrite H. Qed.

(** The Finance adapter serves an entry that is younger than 3600
    seconds, without any upstream call. *)
Lemma finance_fresh_entry_is_served validate self now stamp upstream args cached :
  GoogleFinance.cache self !! GoogleFinance.finance_cache_key self args = Some cached ->
  now - GoogleFinance.timestamp cached < 3600 ->
  GoogleFinance.google_finance_search validate self now stamp upstream args
  = Run (Return (GoogleFinance.response cached)) (GoogleFinance.cache self) [].
Proof.
  intros H Hage. unfold GoogleFinance.google_finance_search, GoogleFinance.cache_lookup.
  rewrite H. unfold GoogleFinance.cache_ttl.
  destruct (Z.ltb_spec (now - GoogleFinance.timestamp cached) 3600); [ reflexivity | lia ].
Qed.

(** The Finance adapter treats an entry of age 3600 seconds or more as a
    miss: it sends the request upstream, as it does without the entry. *)
Lemma finance_stale_entry_is_a_miss validate self now stamp upstream args cached :
  GoogleFinance.cache self !! GoogleFinance.finance_cache_key self args = Some cached ->
  3600 <= now - GoogleFinance.timestamp cached ->
  let fresh := {| GoogleFinance.api_key := GoogleFinance.api_key self;
                  GoogleFinance.cache :=
                    delete (GoogleFinance.finance_cache_key self args)
                      (GoogleFinance.cache self) |} in
  outcome (GoogleFinance.google_finance_search validate self now stamp upstream args)
  = outcome (GoogleFinance.google_finance_search validate fresh now stamp upstream args)
  /\ sent (GoogleFinance.google_finance_search validate self now stamp upstream args)
     = [Request GoogleFinance.base_url (GoogleFinance.finance_params self args)].
Proof.
  intros H Hage fresh.
  unfold GoogleFinance.google_finance_search, GoogleFinance.cache_lookup.
  change (GoogleFinance.finance_cache_key fresh args)
    with (GoogleFinance.finance_cache_key self args).
  change (GoogleFinance.finance_params fresh args)
    with (GoogleFinance.finance_params self args).
  rewrite H. unfold fresh at 1. simpl GoogleFinance.cache. rewrite lookup_delete_eq.
  unfold GoogleFinance.cache_ttl.
  destruct (Z.ltb_spec (now - GoogleFinance.timestamp cached) 3600); [ lia | ].
  destruct (GoogleFinance.finance_attempt _ _ _ _) as [ r | e ]; simpl; [ easy | ].
  destruct (isinstance_TimeoutError e);
    destruct (GoogleFinance.format_error _ _ _ _); simpl; easy.
Qed.

(** C2, the failing input evaluated. A raw-mode Google Search response is
    stored at clock reading 0; the same request, made at any later
    reading (7200, say, twice the lifetime), is answered from the cache
    and nothing is sent upstream. *)
Theorem google_search_serves_expired_entry
  (validate : list (string * json) -> py_result GoogleSearch.SearchResponseData)
  (later : Z) (upstream : request -> http_outcome) :
  let body := JObject [("organic_results", JArray [])] in
  let first := GoogleSearch.search validate (search_server "k") 0
                 (always (Responded 200 EmptyString body)) (coffee_search true false) in
  let server := {| GoogleSearch.api_key := "k";
                   GoogleSearch.cache := cache_after first |} in
  outcome first = Return body
  /\ GoogleSearch.search validate server later upstream (coffee_search true false)
     = Run (Return body) (cache_after first) [].
Proof.
  intros body first server.
  assert (Hfirst : first
                   = Run (Return body)
                       (GoogleSearch.store ∅
                          (GoogleSearch.search_cache_key (search_server "k")
                             (coffee_search true false)) body 0)
                       [Request GoogleSearch.base_url
                          (GoogleSearch.search_params (search_server "k")
                             (coffee_search true false))]).
  { unfold first, GoogleSearch.search. simpl GoogleSearch.cache.
    rewrite lookup_empty. reflexivity. }
  split; [ now rewrite Hfirst | ].
  apply (google_search_hit_ignores_age validate server later upstream
           (coffee_search true false)
           {| GoogleSearch.query := GoogleSearch.search_cache_key (search_server "k")
                                      (coffee_search true false);
              GoogleSearch.response := body; GoogleSearch.timestamp := 0 |}).
  unfold server. rewrite Hfirst. simpl. apply lookup_insert_eq.
Qed.

(** ** Upstream failures (claim C3) *)

Lemma finance_error_message_nonempty reply :
  exists c rest, finance_error_message reply = String c rest.
Proof.
  destruct reply as [ status error_text body | e ]; simpl.
  - eauto.
  - destruct (isinstance_TimeoutError e); simpl; eauto.
Qed.

(** The error response in the requested format, when pydantic accepts
    the adapter's own error responses. *)
Lemma finance_format_error validate args params c rest :
  accepts_error_responses validate ->
  GoogleFinance.format_error validate args params (String c rest)
  = Return (finance_error_payload args params (String c rest)).
Proof.
  intros Hok. unfold GoogleFinance.format_error, finance_error_payload, selected_mode.
  destruct (truthy_bool (GoogleFinance.raw_json args)); [ reflexivity | ].
  destruct (truthy_bool (GoogleFinance.readable_json args)); [ | reflexivity ].
  destruct (Hok params (String c rest)) as (model & Hmodel & Herr).
  unfold GoogleFinance.readable, GoogleFinance.error_response. simpl.
  rewrite Hmodel. simpl. unfold GoogleFinance.format_google_finance_results.
  rewrite Herr. reflexivity.
Qed.

Lemma finance_failure_outcome validate self now stamp upstream args :
  accepts_error_responses validate ->
  GoogleFinance.cache_lookup self now (GoogleFinance.finance_cache_key self args) = None ->
  upstream_failed
    (upstream (Request GoogleFinance.base_url (GoogleFinance.finance_params self args))) ->
  let req := Request GoogleFinance.base_url (GoogleFinance.finance_params self args) in
  let payload :=
    finance_error_payload args (GoogleFinance.finance_params self args)
      (finance_error_message (upstream req)) in
  GoogleFinance.google_finance_search validate self now stamp upstream args
  = Run (Return payload)
      (GoogleFinance.store (GoogleFinance.cache self)
         (GoogleFinance.finance_cache_key self args) payload stamp)
      [req].
Proof.
  intros Hok Hmiss Hfail req payload. subst req payload.
  unfold GoogleFinance.google_finance_search. rewrite Hmiss.
  destruct (finance_error_message_nonempty
              (upstream (Request GoogleFinance.base_url
                           (GoogleFinance.finance_params self args))))
    as (c & rest & Hmsg).
  destruct (upstream (Request GoogleFinance.base_url
                        (GoogleFinance.finance_params self args)))
    as [ status error_text body | e ]; simpl in Hfail, Hmsg |- *.
  - destruct (Z.eqb_spec status 200) as [ -> | _ ]; [ now elim Hfail | ]. simpl.
    rewrite Hmsg, (finance_format_error validate args _ c rest Hok). reflexivity.
  - destruct (isinstance_TimeoutError e); rewrite Hmsg;
      rewrite (finance_format_error validate args _ c rest Hok); reflexivity.
Qed.

(** C3, counterexample. On a reply with status 500 the Google Search and
    the Google Scholar adapters raise an [McpError] and leave the cache
    empty: no error response is synthesized, stored or returned. *)
Lemma search_and_scholar_raise_on_upstream_failure :
  outcome (GoogleSearch.search GoogleSearch.reference_validate (search_server "k") 0
             (always (Responded 500 "boom" JNull)) (coffee_search false false))
  = Raise (Exc (McpError INTERNAL_ERROR)
             "Unexpected error during SerpAPI request: SerpAPI returned an error: 500 - boom")
  /\ cache_after
       (GoogleSearch.search GoogleSearch.reference_validate (search_server "k") 0
          (always (Responded 500 "boom" JNull)) (coffee_search false false)) = ∅
  /\ outcome (GoogleScholar.google_scholar_search _ GoogleScholar.reference_validate
                GoogleScholar.reference_heading (scholar_server "k")
                (always (Responded 500 "boom" JNull)) (papers_search false false))
     = Raise (Exc (McpError INTERNAL_ERROR)
                "Unexpected error during SerpAPI request: SerpAPI returned an error: 500 - boom")
  /\ cache_after
       (GoogleScholar.google_scholar_search _ GoogleScholar.reference_validate
          GoogleScholar.reference_heading (scholar_server "k")
          (always (Responded 500 "boom" JNull)) (papers_search false false)) = ∅.
Proof.
  unfold GoogleSearch.search, GoogleScholar.google_scholar_search.
  simpl GoogleSearch.cache. simpl GoogleScholar.cache. rewrite !lookup_empty.
  repeat split; reflexivity.
Qed.

(** C3, amended. In the Finance adapter, when the upstream call fails (a
    status other than 200, a timeout or any other exception) on a cache
    miss, the error response is synthesized, put in the requested format,
    stored under the request's key and returned; the same request made
    while the entry is younger than 3600 seconds returns the same payload
    and sends nothing upstream. (Pydantic is assumed to accept the
    adapter's own error responses.) *)
Theorem finance_upstream_failure_is_cached
  (validate : list (string * json) -> py_result GoogleFinance.GoogleFinanceResponseData)
  (self : GoogleFinance.SerpApiGoogleFinanceServer) (now stamp : Z)
  (upstream : request -> http_outcome) (args : GoogleFinance.GoogleFinanceSearchArgs) :
  accepts_error_responses validate ->
  GoogleFinance.cache_lookup self now (GoogleFinance.finance_cache_key self args) = None ->
  upstream_failed
    (upstream (Request GoogleFinance.base_url (GoogleFinance.finance_params self args))) ->
  let req := Request GoogleFinance.base_url (GoogleFinance.finance_params self args) in
  let payload :=
    finance_error_payload args (GoogleFinance.finance_params self args)
      (finance_error_message (upstream req)) in
  let first := GoogleFinance.google_finance_search validate self now stamp upstream args in
  first
  = Run (Return payload)
      (GoogleFinance.store (GoogleFinance.cache self)
         (GoogleFinance.finance_cache_key self args) payload stamp)
      [req]
  /\ forall (now' stamp' : Z) (upstream' : request -> http_outcome),
       now' - stamp < 3600 ->
       GoogleFinance.google_finance_search validate
         {| GoogleFinance.api_key := GoogleFinance.api_key self;
            GoogleFinance.cache := cache_after first |}
         now' stamp' upstream' args
       = Run (Return payload) (cache_after first) [].
Proof.
  intros Hok Hmiss Hfail req payload first.
  pose proof (finance_failure_outcome validate self now stamp upstream args
                Hok Hmiss Hfail) as Hfirst.
  fold req payload first in Hfirst. split; [ exact Hfirst | ].
  intros now' stamp' upstream' Hage. rewrite Hfirst. simpl cache_after.
  exact (finance_fresh_entry_is_served validate
           {| GoogleFinance.api_key := GoogleFinance.api_key self;
              GoogleFinance.cache :=
                GoogleFinance.store (GoogleFinance.cache self)
                  (GoogleFinance.finance_cache_key self args) payload stamp |}
           now' stamp' upstream' args
           {| GoogleFinance.query := GoogleFinance.finance_cache_key self args;
              GoogleFinance.response := payload;
              GoogleFinance.timestamp := stamp |}
           (lookup_insert_eq _ _ _) Hage).
Qed.

Lemma reference_validate_accepts_error_responses :
  accepts_error_responses GoogleFinance.reference_validate.
Proof. intros params message. eexists. split; reflexivity. Qed.

(** C3, witness: a timeout, in readable mode, on an empty cache. *)
Lemma finance_timeout_is_cached_witness :
  let self := finance_server "k" in
  let args := aapl_quote false true in
  let upstream := always (Failed (Exc TimeoutError EmptyString)) in
  let payload := JString (py_join LF ["# Error"; "SerpAPI request timed out"; EmptyString]) in
  let first := GoogleFinance.google_finance_search GoogleFinance.reference_validate
                 self 0 1 upstream args in
  first
  = Run (Return payload)
      (GoogleFinance.store ∅ "q=AAPL&format=readable_json" payload 1)
      [Request GoogleFinance.base_url
         [("engine", JString "google_finance"); ("api_key", JString "k");
          ("q", JString "AAPL")]]
  /\ forall (now' stamp' : Z) (upstream' : request -> http_outcome),
       now' - 1 < 3600 ->
       GoogleFinance.google_finance_search GoogleFinance.reference_validate
         {| GoogleFinance.api_key := "k"; GoogleFinance.cache := cache_after first |}
         now' stamp' upstream' args
       = Run (Return payload) (cache_after first) [].
Proof.
  apply (finance_upstream_failure_is_cached GoogleFinance.reference_validate
           (finance_server "k") 0 1 (always (Failed (Exc TimeoutError EmptyString)))
           (aapl_quote false true)).
  - exact reference_validate_accepts_error_responses.
  - reflexivity.
  - exact I.
Defined.

(** ** Cache keys and output modes (claim C4) *)

Lemma append_assoc (a b c : string) : (a +:+ b) +:+ c = a +:+ (b +:+ c).
Proof.
  induction a as [ | x a IH ]; [ reflexivity | ].
  change (String x ((a +:+ b) +:+ c) = String x (a +:+ (b +:+ c))).
  f_equal. exact IH.
Qed.

Lemma append_inv_head (p a b : string) : p +:+ a = p +:+ b -> a = b.
Proof. apply String.app_inj. Qed.

Lemma join_snoc sep parts last :
  py_join sep (parts ++ [last]) = join_prefix sep parts +:+ last.
Proof.
  unfold py_join. induction parts as [ | p rest IH ]; [ reflexivity | ].
  change (String.concat sep ((p :: rest) ++ [last]))
    with (String.concat sep (p :: (rest ++ [last]))).
  destruct (rest ++ [last]) eqn:Hrest.
  - destruct rest; discriminate Hrest.
  - change (String.concat sep (p :: s :: l))
      with (p +:+ sep +:+ String.concat sep (s :: l)).
    rewrite IH. simpl join_prefix. now rewrite !append_assoc.
Qed.

Lemma mode_tag_inj m1 m2 : mode_tag m1 = mode_tag m2 -> m1 = m2.
Proof. destruct m1, m2; simpl; intros H; try reflexivity; discriminate H. Qed.

Lemma mode_suffix_inj m1 m2 : mode_suffix m1 = mode_suffix m2 -> m1 = m2.
Proof. destruct m1, m2; simpl; intros H; try reflexivity; discriminate H. Qed.

(** The search parameters of a Finance request, as key parts. *)
Lemma finance_key_shape self args :
  GoogleFinance.finance_cache_key self args
  = join_prefix "&"
      (["q=" +:+ GoogleFinance.q args]
       ++ (if truthy_str (GoogleFinance.hl args)
           then ["hl=" +:+ GoogleFinance.str_opt (GoogleFinance.hl args)] else [])
       ++ (if truthy_str (GoogleFinance.window args)
           then ["window=" +:+ GoogleFinance.str_opt (GoogleFinance.window args)]
           else []))
    +:+ mode_tag (selected_mode (GoogleFinance.raw_json args)
                    (GoogleFinance.readable_json args)).
Proof.
  unfold GoogleFinance.finance_cache_key. rewrite <- join_snoc. f_equal.
  unfold GoogleFinance.cache_key_parts, selected_mode.
  destruct (truthy_str (GoogleFinance.hl args)),
    (truthy_str (GoogleFinance.window args)),
    (truthy_bool (GoogleFinance.raw_json args)),
    (truthy_bool (GoogleFinance.readable_json args)); reflexivity.
Qed.

Lemma maps_key_shape self args :
  GoogleMaps.maps_cache_key self args
  = join_prefix "&"
      (GoogleMaps.part "q" (GoogleMaps.q args)
       ++ GoogleMaps.part "type" (GoogleMaps.type args)
       ++ GoogleMaps.part "data" (GoogleMaps.data args)
       ++ GoogleMaps.part "place_id" (GoogleMaps.place_id args)
       ++ GoogleMaps.part "ll" (GoogleMaps.ll args)
       ++ GoogleMaps.part "google_domain" (GoogleMaps.google_domain args)
       ++ GoogleMaps.part "hl" (GoogleMaps.hl args)
       ++ GoogleMaps.part "gl" (GoogleMaps.gl args)
       ++ match GoogleMaps.start args with
          | Some n => ["start=" +:+ pretty n]
          | None => []
          end)
    +:+ mode_tag (selected_mode (GoogleMaps.raw_json args)
                    (GoogleMaps.readable_json args)).
Proof.
  unfold GoogleMaps.maps_cache_key. rewrite <- join_snoc. f_equal.
  unfold GoogleMaps.cache_key_parts, selected_mode.
  rewrite <- !app_assoc. do 9 f_equal.
  destruct (truthy_bool (GoogleMaps.raw_json args)),
    (truthy_bool (GoogleMaps.readable_json args)); reflexivity.
Qed.

Lemma search_key_shape self args :
  GoogleSearch.search_cache_key self args
  = json_dumps true (JObject (GoogleSearch.search_params self args))
    +:+ mode_suffix (selected_mode (GoogleSearch.raw_json args)
                       (GoogleSearch.readable_json args)).
Proof.
  unfold GoogleSearch.search_cache_key, selected_mode.
  destruct (truthy_bool (GoogleSearch.raw_json args)),
    (truthy_bool (GoogleSearch.readable_json args)); reflexivity.
Qed.

(** The Scholar key carries no mode tag: a raw-mode and a clean-mode
    request for the same search have the same key, and after a clean-mode
    response has been stored the raw-mode request is answered with that
    pruned payload, without any upstream call. *)
Lemma scholar_cache_key_ignores_mode :
  selected_mode (GoogleScholar.raw_json (papers_search true false))
    (GoogleScholar.readable_json (papers_search true false)) = RawMode
  /\ selected_mode (GoogleScholar.raw_json (papers_search false false))
       (GoogleScholar.readable_json (papers_search false false)) = CleanMode
  /\ GoogleScholar.scholar_cache_key (scholar_server "k") (papers_search true false)
     = GoogleScholar.scholar_cache_key (scholar_server "k") (papers_search false false)
  /\ GoogleScholar.google_scholar_search _ GoogleScholar.reference_validate
       GoogleScholar.reference_heading
       {| GoogleScholar.api_key := "k";
          GoogleScholar.cache :=
            cache_after
              (GoogleScholar.google_scholar_search _ GoogleScholar.reference_validate
                 GoogleScholar.reference_heading (scholar_server "k")
                 (always (Responded 200 EmptyString
                            (JObject [("organic_results", JArray []);
                                      ("pagination", JNull)])))
                 (papers_search false false)) |}
       (always (Failed (Exc ClientError "unreachable")))
       (papers_search true false)
     = Run (Return (JObject []))
         (cache_after
            (GoogleScholar.google_scholar_search _ GoogleScholar.reference_validate
               GoogleScholar.reference_heading (scholar_server "k")
               (always (Responded 200 EmptyString
                          (JObject [("organic_results", JArray []);
                                    ("pagination", JNull)])))
               (papers_search false false)))
         [].
Proof. repeat split; reflexivity. Qed.

(** The sibling adapters do append a mode tag. In the Finance and Maps
    adapters the cache key is the search parameters' parts joined by [&]
    and followed by the mode tag ([format=raw_json],
    [format=readable_json] or [format=clean_json]), and in the Google
    Search adapter it is the serialized parameters followed by [_raw],
    [_readable] or [_clean]; in each of the three, two requests with the
    same search parameters and different selected output modes have
    different keys. *)
Theorem cache_key_separates_modes :
  (forall self a1 a2,
      finance_same_search a1 a2 ->
      selected_mode (GoogleFinance.raw_json a1) (GoogleFinance.readable_json a1)
      <> selected_mode (GoogleFinance.raw_json a2) (GoogleFinance.readable_json a2) ->
      GoogleFinance.finance_cache_key self a1 <> GoogleFinance.finance_cache_key self a2)
  /\ (forall self a1 a2,
        maps_same_search a1 a2 ->
        selected_mode (GoogleMaps.raw_json a1) (GoogleMaps.readable_json a1)
        <> selected_mode (GoogleMaps.raw_json a2) (GoogleMaps.readable_json a2) ->
        GoogleMaps.maps_cache_key self a1 <> GoogleMaps.maps_cache_key self a2)
  /\ (forall self a1 a2,
        google_same_search a1 a2 ->
        selected_mode (GoogleSearch.raw_json a1) (GoogleSearch.readable_json a1)
        <> selected_mode (GoogleSearch.raw_json a2) (GoogleSearch.readable_json a2) ->
        GoogleSearch.search_cache_key self a1 <> GoogleSearch.search_cache_key self a2).
Proof.
  split; [ | split ].
  - intros self a1 a2 (Hq & Hhl & Hw) Hmode Hkey. apply Hmode.
    rewrite !finance_key_shape, Hq, Hhl, Hw in Hkey.
    apply append_inv_head in Hkey. now apply mode_tag_inj.
  - intros self a1 a2 (H1 & H2 & H3 & H4 & H5 & H6 & H7 & H8 & H9) Hmode Hkey.
    apply Hmode. rewrite !maps_key_shape, H1, H2, H3, H4, H5, H6, H7, H8, H9 in Hkey.
    apply append_inv_head in Hkey. now apply mode_tag_inj.
  - intros self a1 a2
      (H1 & H2 & H3 & H4 & H5 & H6 & H7 & H8 & H9 & H10 & H11 & H12 & H13) Hmode Hkey.
    apply Hmode. rewrite !search_key_shape in Hkey.
    assert (Hparams : GoogleSearch.search_params self a1
                      = GoogleSearch.search_params self a2).
    { unfold GoogleSearch.search_params.
      now rewrite H1, H2, H3, H4, H5, H6, H7, H8, H9, H10, H11, H12, H13. }
    rewrite Hparams in Hkey. apply append_inv_head in Hkey. now apply mode_suffix_inj.
Qed.

(** The raw-mode and the clean-mode Finance request for the same quote,
    and two modes of a Maps and of a Google Search request. *)
Lemma finance_cache_key_modes_witness :
  GoogleFinance.finance_cache_key (finance_server "k") (aapl_quote true false)
  = "q=AAPL&format=raw_json"
  /\ GoogleFinance.finance_cache_key (finance_server "k") (aapl_quote false false)
     = "q=AAPL&format=clean_json"
  /\ GoogleFinance.finance_cache_key (finance_server "k") (aapl_quote true false)
     <> GoogleFinance.finance_cache_key (finance_server "k") (aapl_quote false false)
  /\ GoogleMaps.maps_cache_key
       {| GoogleMaps.api_key := "k"; GoogleMaps.cache := ∅ |} (cafe_search false true)
     <> GoogleMaps.maps_cache_key
          {| GoogleMaps.api_key := "k"; GoogleMaps.cache := ∅ |} (cafe_search false false)
  /\ GoogleSearch.search_cache_key (search_server "k") (coffee_search true false)
     <> GoogleSearch.search_cache_key (search_server "k") (coffee_search false true).
Proof.
  split; [ reflexivity | split; [ reflexivity | split; [ | split ] ] ].
  - apply (proj1 cache_key_separates_modes (finance_server "k")
             (aapl_quote true false) (aapl_quote false false)).
    + repeat split.
    + discriminate.
  - apply (proj1 (proj2 cache_key_separates_modes)
             {| GoogleMaps.api_key := "k"; GoogleMaps.cache := ∅ |}
             (cafe_search false true) (cafe_search false false)).
    + repeat split.
    + discriminate.
  - apply (proj2 (proj2 cache_key_separates_modes) (search_server "k")
             (coffee_search true false) (coffee_search false true)).
    + repeat split.
    + discriminate.
Defined.

(** On a miss, what [google_finance_search] returns is stored under the
    request's key with the clock's reading. *)
Lemma finance_miss_stores validate self now stamp upstream args r :
  GoogleFinance.cache_lookup self now (GoogleFinance.finance_cache_key self args) = None ->
  outcome (GoogleFinance.google_finance_search validate self now stamp upstream args)
  = Return r ->
  GoogleFinance.google_finance_search validate self now stamp upstream args
  = Run (Return r)
      (GoogleFinance.store (GoogleFinance.cache self)
         (GoogleFinance.finance_cache_key self args) r stamp)
      [Request GoogleFinance.base_url (GoogleFinance.finance_params self args)].
Proof.
  intros Hmiss. unfold GoogleFinance.google_finance_search. rewrite Hmiss.
  destruct (GoogleFinance.finance_attempt _ _ _ _) as [ r' | e ]; simpl.
  - now intros [= ->].
  - destruct (isinstance_TimeoutError e);
      destruct (GoogleFinance.format_error _ _ _ _); simpl;
      try discriminate; now intros [= ->].
Qed.

(** In the Finance adapter a payload stays in its mode: after a request
    has stored its response, a request for the same search in another
    output mode is not answered from that entry; unless the cache holds a
    fresh entry of its own mode, it is sent upstream. *)
Lemma finance_payload_stays_in_its_mode validate self now stamp upstream args args' r :
  GoogleFinance.cache_lookup self now (GoogleFinance.finance_cache_key self args) = None ->
  outcome (GoogleFinance.google_finance_search validate self now stamp upstream args)
  = Return r ->
  finance_same_search args args' ->
  selected_mode (GoogleFinance.raw_json args) (GoogleFinance.readable_json args)
  <> selected_mode (GoogleFinance.raw_json args') (GoogleFinance.readable_json args') ->
  forall (later stamp' : Z) (upstream' : request -> http_outcome),
    GoogleFinance.cache_lookup self later (GoogleFinance.finance_cache_key self args')
    = None ->
    sent (GoogleFinance.google_finance_search validate
            {| GoogleFinance.api_key := GoogleFinance.api_key self;
               GoogleFinance.cache :=
                 cache_after (GoogleFinance.google_finance_search validate self now
                                stamp upstream args) |}
            later stamp' upstream' args')
    = [Request GoogleFinance.base_url (GoogleFinance.finance_params self args')].
Proof.
  intros Hmiss Hout Hsame Hmode later stamp' upstream' Hmiss'.
  rewrite (finance_miss_stores validate self now stamp upstream args r Hmiss Hout).
  simpl cache_after.
  pose proof (proj1 cache_key_separates_modes self args args' Hsame Hmode) as Hkeys.
  unfold GoogleFinance.google_finance_search.
  change (GoogleFinance.finance_cache_key
            {| GoogleFinance.api_key := GoogleFinance.api_key self;
               GoogleFinance.cache := _ |} args')
    with (GoogleFinance.finance_cache_key self args').
  change (GoogleFinance.finance_params
            {| GoogleFinance.api_key := GoogleFinance.api_key self;
               GoogleFinance.cache := _ |} args')
    with (GoogleFinance.finance_params self args').
  assert (Hlookup : GoogleFinance.cache_lookup
                      {| GoogleFinance.api_key := GoogleFinance.api_key self;
                         GoogleFinance.cache :=
                           GoogleFinance.store (GoogleFinance.cache self)
                             (GoogleFinance.finance_cache_key self args) r stamp |}
                      later (GoogleFinance.finance_cache_key self args') = None).
  { unfold GoogleFinance.cache_lookup in Hmiss' |- *. simpl GoogleFinance.cache.
    unfold GoogleFinance.store. rewrite lookup_insert_ne by exact Hkeys. exact Hmiss'. }
  rewrite Hlookup.
  destruct (GoogleFinance.finance_attempt _ _ _ _) as [ r' | e ]; [ reflexivity | ].
  destruct (isinstance_TimeoutError e);
    destruct (GoogleFinance.format_error _ _ _ _); reflexivity.
Qed.

(** C4. In the Scholar adapter the stored payload of one mode is returned
    for a request in another mode. Let a clean-mode request miss the
    cache and be answered, and let a raw-mode request have the same
    query parameters. The two requests have the same cache key, since
    the key is the serialized parameters without any mode tag. Made on
    its own, the raw-mode request is sent upstream and returns the body
    as SerpAPI sent it; made after the clean-mode request, it returns the
    pruned payload that request stored, and nothing is sent upstream. *)
Theorem scholar_raw_request_gets_pruned_payload
  (Model : Type) (validate : list (string * json) -> py_result Model)
  (render : Model -> py_result string)
  (self : GoogleScholar.SerpApiGoogleScholarServer)
  (upstream : request -> http_outcome) (args args' : GoogleScholar.GoogleScholarArgs)
  (r : json) :
  GoogleScholar.cache self !! GoogleScholar.scholar_cache_key self args = None ->
  selected_mode (GoogleScholar.raw_json args) (GoogleScholar.readable_json args)
  = CleanMode ->
  selected_mode (GoogleScholar.raw_json args') (GoogleScholar.readable_json args')
  = RawMode ->
  outcome (GoogleScholar.google_scholar_search Model validate render self upstream args)
  = Return r ->
  GoogleScholar.scholar_params self args' = GoogleScholar.scholar_params self args ->
  let first :=
    GoogleScholar.google_scholar_search Model validate render self upstream args in
  GoogleScholar.scholar_cache_key self args' = GoogleScholar.scholar_cache_key self args
  /\ (exists error_text body,
        upstream (Request GoogleScholar.base_url (GoogleScholar.scholar_params self args))
        = Responded 200 error_text body
        /\ r = GoogleScholar.clean_json_dict body
        /\ GoogleScholar.google_scholar_search Model validate render self upstream args'
           = Run (Return body)
               (GoogleScholar.store (GoogleScholar.cache self)
                  (GoogleScholar.scholar_cache_key self args') body)
               [Request GoogleScholar.base_url
                  (GoogleScholar.scholar_params self args')])
  /\ forall upstream' : request -> http_outcome,
       GoogleScholar.google_scholar_search Model validate render
         {| GoogleScholar.api_key := GoogleScholar.api_key self;
            GoogleScholar.cache := cache_after first |}
         upstream' args'
       = Run (Return r) (cache_after first) [].
Proof.
  intros Hmiss Hclean Hraw Hout Hsame first.
  assert (Hkey : GoogleScholar.scholar_cache_key self args'
                 = GoogleScholar.scholar_cache_key self args)
    by (unfold GoogleScholar.scholar_cache_key; now rewrite Hsame).
  assert (Hrawflag : truthy_bool (GoogleScholar.raw_json args') = true).
  { unfold selected_mode in Hraw.
    destruct (truthy_bool (GoogleScholar.raw_json args')); [ reflexivity | ].
    destruct (truthy_bool (GoogleScholar.readable_json args')); discriminate Hraw. }
  assert (Hfirst :
    exists error_text body,
      upstream (Request GoogleScholar.base_url (GoogleScholar.scholar_params self args))
      = Responded 200 error_text body
      /\ py_contains "error" body = Return false
      /\ r = GoogleScholar.clean_json_dict body
      /\ first = Run (Return r)
                   (GoogleScholar.store (GoogleScholar.cache self)
                      (GoogleScholar.scholar_cache_key self args) r)
                   [Request GoogleScholar.base_url
                      (GoogleScholar.scholar_params self args)]).
  { subst first. revert Hout. unfold GoogleScholar.google_scholar_search.
    rewrite Hmiss. unfold GoogleScholar.scholar_attempt.
    destruct (upstream _) as [ status error_text body | e ]; [ | discriminate ].
    destruct (Z.eqb_spec status 200) as [ -> | ]; simpl; [ | discriminate ].
    destruct (py_contains "error" body) as [ [ | ] | e ] eqn:Herr; simpl;
      try discriminate.
    { destruct (py_getitem body "error"); discriminate. }
    by_mode (GoogleScholar.raw_json args) (GoogleScholar.readable_json args) Hclean.
    simpl. intros [= <-]. exists error_text, body. repeat split. exact Herr. }
  destruct Hfirst as (error_text & body & Hup & Herr & Hr & Hfirst).
  split; [ exact Hkey | split ].
  - exists error_text, body. split; [ exact Hup | split; [ exact Hr | ] ].
    unfold GoogleScholar.google_scholar_search. rewrite Hkey, Hmiss, Hsame, Hup.
    unfold GoogleScholar.scholar_attempt. simpl. rewrite Herr. simpl.
    now rewrite Hrawflag.
  - intros upstream'. rewrite Hfirst. simpl cache_after.
    unfold GoogleScholar.google_scholar_search.
    change (GoogleScholar.scholar_cache_key
              {| GoogleScholar.api_key := GoogleScholar.api_key self;
                 GoogleScholar.cache := _ |} args')
      with (GoogleScholar.scholar_cache_key self args').
    rewrite Hkey. simpl GoogleScholar.cache. unfold GoogleScholar.store.
    rewrite lookup_insert_eq. simpl. unfold GoogleScholar.from_cache.
    now rewrite Hrawflag.
Qed.

(** C4, witness: a page without results is pruned to the empty map; the
    raw-mode request gets the page on its own, and the empty map after a
    clean-mode request. *)
Lemma scholar_raw_request_witness :
  GoogleScholar.google_scholar_search _ GoogleScholar.reference_validate
    GoogleScholar.reference_heading (scholar_server "k")
    (always (Responded 200 EmptyString sparse_page)) (papers_search true false)
  = Run (Return sparse_page)
      (GoogleScholar.store ∅
         (GoogleScholar.scholar_cache_key (scholar_server "k") (papers_search true false))
         sparse_page)
      [Request GoogleScholar.base_url
         (GoogleScholar.scholar_params (scholar_server "k") (papers_search true false))]
  /\ GoogleScholar.google_scholar_search _ GoogleScholar.reference_validate
       GoogleScholar.reference_heading
       {| GoogleScholar.api_key := "k";
          GoogleScholar.cache :=
            cache_after
              (GoogleScholar.google_scholar_search _ GoogleScholar.reference_validate
                 GoogleScholar.reference_heading (scholar_server "k")
                 (always (Responded 200 EmptyString sparse_page))
                 (papers_search false false)) |}
       (always (Responded 200 EmptyString sparse_page)) (papers_search true false)
     = Run (Return (JObject []))
         (cache_after
            (GoogleScholar.google_scholar_search _ GoogleScholar.reference_validate
               GoogleScholar.reference_heading (scholar_server "k")
               (always (Responded 200 EmptyString sparse_page))
               (papers_search false false)))
         [].
Proof.
  pose proof (scholar_raw_request_gets_pruned_payload _ GoogleScholar.reference_validate
                GoogleScholar.reference_heading (scholar_server "k")
                (always (Responded 200 EmptyString sparse_page))
                (papers_search false false) (papers_search true false) (JObject [])
                (lookup_empty _) eq_refl eq_refl eq_refl eq_refl)
    as (_ & (error_text & body & Hup & _ & Hmiss) & Hhit).
  injection Hup as _ <-.
  exact (conj Hmiss (Hhit (always (Responded 200 EmptyString sparse_page)))).
Defined.

(** ** Cache keys and the API key (claim C5) *)

(** C5, counterexample. The Google Search key is the serialization of all
    upstream parameters, [api_key] included: two servers that differ only
    in their API key build different keys for the same request. The
    Scholar key is built the same way. *)
Lemma search_cache_key_contains_api_key :
  GoogleSearch.search_cache_key (search_server "key-one") (coffee_search false false)
  = json_dumps true
      (JObject [("api_key", JString "key-one"); ("engine", JString "google");
                ("num", JInt 10); ("q", JString "coffee")]) +:+ "_clean"
  /\ GoogleSearch.search_cache_key (search_server "key-two") (coffee_search false false)
     = json_dumps true
         (JObject [("api_key", JString "key-two"); ("engine", JString "google");
                   ("num", JInt 10); ("q", JString "coffee")]) +:+ "_clean"
  /\ String.eqb
       (GoogleSearch.search_cache_key (search_server "key-one") (coffee_search false false))
       (GoogleSearch.search_cache_key (search_server "key-two") (coffee_search false false))
     = false
  /\ String.eqb
       (GoogleScholar.scholar_cache_key (scholar_server "key-one")
          (papers_search false false))
       (GoogleScholar.scholar_cache_key (scholar_server "key-two")
          (papers_search false false))
     = false.
Proof. repeat split; reflexivity. Qed.

(** C5, amended. In the Finance and Maps adapters the cache key is built
    from the request's set parameters and the selected output mode only:
    servers that differ only in their API key build the same key for the
    same request. (The Google Search and Scholar keys serialize the
    upstream parameters, which hold the API key.) *)
Theorem named_part_cache_keys_exclude_api_key :
  (forall (k1 k2 : string) c (args : GoogleFinance.GoogleFinanceSearchArgs),
      GoogleFinance.finance_cache_key
        {| GoogleFinance.api_key := k1; GoogleFinance.cache := c |} args
      = GoogleFinance.finance_cache_key
          {| GoogleFinance.api_key := k2; GoogleFinance.cache := c |} args)
  /\ (forall (k1 k2 : string) c (args : GoogleMaps.GoogleMapsSearchArgs),
        GoogleMaps.maps_cache_key
          {| GoogleMaps.api_key := k1; GoogleMaps.cache := c |} args
        = GoogleMaps.maps_cache_key
            {| GoogleMaps.api_key := k2; GoogleMaps.cache := c |} args)
  /\ (forall (k1 k2 : string) c now stamp upstream validate
             (args : GoogleFinance.GoogleFinanceSearchArgs) key,
        cache_after
          (GoogleFinance.google_finance_search validate
             {| GoogleFinance.api_key := k1; GoogleFinance.cache := c |}
             now stamp upstream args) !! key
        <> c !! key ->
        key = GoogleFinance.finance_cache_key
                {| GoogleFinance.api_key := k2; GoogleFinance.cache := c |} args).
Proof.
  split; [ reflexivity | split; [ reflexivity | ] ].
  intros k1 k2 c now stamp upstream validate args key Hchanged.
  destruct (String.eq_dec key
              (GoogleFinance.finance_cache_key
                 {| GoogleFinance.api_key := k2; GoogleFinance.cache := c |} args))
    as [ Heq | Hne ]; [ exact Heq | ].
  exfalso. apply Hchanged. unfold GoogleFinance.google_finance_search.
  destruct (GoogleFinance.cache_lookup _ _ _); [ reflexivity | ].
  destruct (GoogleFinance.finance_attempt _ _ _ _) as [ r | e ]; simpl.
  - unfold GoogleFinance.store. rewrite lookup_insert_ne; [ reflexivity | ].
    intros Heq. apply Hne. now rewrite <- Heq.
  - destruct (isinstance_TimeoutError e);
      destruct (GoogleFinance.format_error _ _ _ _); simpl; try reflexivity;
      unfold GoogleFinance.store; (rewrite lookup_insert_ne; [ reflexivity | ]);
      intros Heq; apply Hne; now rewrite <- Heq.
Qed.

(** C5, witness: the entry a Finance search writes is the one under the
    key that holds no API key. *)
Lemma finance_cache_key_witness :
  GoogleFinance.finance_cache_key
    {| GoogleFinance.api_key := "key-one"; GoogleFinance.cache := ∅ |}
    (aapl_quote false false)
  = GoogleFinance.finance_cache_key
      {| GoogleFinance.api_key := "key-two"; GoogleFinance.cache := ∅ |}
      (aapl_quote false false)
  /\ "q=AAPL&format=clean_json"
     = GoogleFinance.finance_cache_key
         {| GoogleFinance.api_key := "key-two"; GoogleFinance.cache := ∅ |}
         (aapl_quote false false).
Proof.
  split.
  - apply (proj1 named_part_cache_keys_exclude_api_key).
  - apply (proj2 (proj2 named_part_cache_keys_exclude_api_key) "key-one" "key-two" ∅
             0 1 (always (Responded 200 EmptyString (JObject [("markets", JNull)])))
             GoogleFinance.reference_validate (aapl_quote false false)).
    discriminate.
Defined.

(** ** Readable rendering of an error (claim C6) *)

(** C6, counterexample. Google Search renders the search information
    before the Error section; and an error that is the empty string is
    not rendered at all (the Finance document is then empty). *)
Lemma search_error_follows_search_information :
  GoogleSearch.format_search_results
    (search_response (Some [("total_results", JInt 5)]) (Some "X"))
  = Return (py_join LF ["# Search Information"; "Total Results: 5"; EmptyString;
                        "# Error"; "X"; EmptyString])
  /\ py_join LF ["# Search Information"; "Total Results: 5"; EmptyString;
                 "# Error"; "X"; EmptyString]
     <> error_document "X"
  /\ GoogleFinance.format_google_finance_results
       (finance_response None (Some EmptyString))
     = Return EmptyString
  /\ EmptyString <> error_document EmptyString.
Proof. repeat split; try reflexivity; discriminate. Qed.

(** C6, amended. For every response whose error is a non-empty string,
    the Finance renderer produces the Error section alone, with exactly
    that message; the Google Search renderer produces the Search
    Information section, when the response carries search information,
    followed by the Error section and nothing after it, so the Error
    section alone when there is no search information. *)
Theorem error_rendering_short_circuits (message : string) :
  message <> EmptyString ->
  (forall response,
      GoogleFinance.error response = Some message ->
      GoogleFinance.format_google_finance_results response
      = Return (error_document message))
  /\ (forall response,
        GoogleSearch.error response = Some message ->
        GoogleSearch.format_search_results response
        = Return (py_join LF (GoogleSearch.search_information_lines response
                              ++ ["# Error"; message; EmptyString]))
        /\ (truthy_list (GoogleSearch.search_information response) = false ->
            GoogleSearch.format_search_results response
            = Return (error_document message))).
Proof.
  intros Hne. destruct message as [ | c rest ]; [ now elim Hne | ].
  split.
  - intros response Herr. unfold GoogleFinance.format_google_finance_results.
    now rewrite Herr.
  - intros response Herr. unfold GoogleSearch.format_search_results.
    rewrite Herr. split; [ reflexivity | ].
    intros Hinfo. unfold GoogleSearch.search_information_lines.
    destruct (GoogleSearch.search_information response) as [ [ | kv info ] | ];
      [ reflexivity | discriminate Hinfo | reflexivity ].
Qed.

(** C6, witness: the error [X], without and with search information. *)
Lemma error_rendering_witness :
  GoogleFinance.format_google_finance_results
    (finance_response (Some [("price", JFloat "150.0")]) (Some "X"))
  = Return (error_document "X")
  /\ GoogleSearch.format_search_results (search_response None (Some "X"))
     = Return (error_document "X").
Proof.
  split.
  - apply (proj1 (error_rendering_short_circuits "X" ltac:(discriminate))).
    reflexivity.
  - apply (proj2 (error_rendering_short_circuits "X" ltac:(discriminate))
             (search_response None (Some "X")) eq_refl).
    reflexivity.
Defined.

(** ** Bodies that fail readable-mode coercion (claim C7) *)

(** Google Search falls back to the raw payload, which it stores and
    returns. *)
Lemma search_coercion_failure_falls_back
  validate self stamp upstream args error_text body e :
  GoogleSearch.cache self !! GoogleSearch.search_cache_key self args = None ->
  upstream (Request GoogleSearch.base_url (GoogleSearch.search_params self args))
  = Responded 200 error_text body ->
  py_contains "error" body = Return false ->
  selected_mode (GoogleSearch.raw_json args) (GoogleSearch.readable_json args)
  = ReadableMode ->
  (kw ← kwargs "SearchResponseData" body;
   response_data ← validate kw;
   GoogleSearch.format_search_results response_data) = Raise e ->
  GoogleSearch.search validate self stamp upstream args
  = Run (Return body)
      (GoogleSearch.store (GoogleSearch.cache self)
         (GoogleSearch.search_cache_key self args) body stamp)
      [Request GoogleSearch.base_url (GoogleSearch.search_params self args)].
Proof.
  intros Hmiss Hreply Hnoerr Hmode Hfail.
  unfold GoogleSearch.search. rewrite Hmiss, Hreply. simpl. rewrite Hnoerr. simpl.
  unfold GoogleSearch.search_respond.
  by_mode (GoogleSearch.raw_json args) (GoogleSearch.readable_json args) Hmode.
  now rewrite Hfail.
Qed.

(** The Finance adapter reports the failure as an error response, which
    it stores and returns. *)
Lemma finance_coercion_failure_is_reported
  validate self now stamp upstream args error_text body e :
  accepts_error_responses validate ->
  GoogleFinance.cache_lookup self now (GoogleFinance.finance_cache_key self args) = None ->
  upstream (Request GoogleFinance.base_url (GoogleFinance.finance_params self args))
  = Responded 200 error_text body ->
  selected_mode (GoogleFinance.raw_json args) (GoogleFinance.readable_json args)
  = ReadableMode ->
  GoogleFinance.readable validate body = Raise e ->
  outcome (GoogleFinance.google_finance_search validate self now stamp upstream args)
  = Return (JString (error_document (finance_error_message (Failed e)))).
Proof.
  intros Hok Hmiss Hreply Hmode Hfail.
  unfold GoogleFinance.google_finance_search. rewrite Hmiss, Hreply. simpl.
  destruct (finance_error_message_nonempty (Failed e)) as (c & rest & Hmsg).
  simpl in Hmsg. unfold selected_mode in Hmode.
  assert (Hpayload : forall m, finance_error_payload args
                                 (GoogleFinance.finance_params self args) m
                               = JString (error_document m)).
  { intros m. unfold finance_error_payload, selected_mode.
    destruct (truthy_bool (GoogleFinance.raw_json args)); [ discriminate Hmode | ].
    destruct (truthy_bool (GoogleFinance.readable_json args)); [ | discriminate Hmode ].
    reflexivity. }
  destruct (truthy_bool (GoogleFinance.raw_json args)); [ discriminate Hmode | ].
  destruct (truthy_bool (GoogleFinance.readable_json args)); [ | discriminate Hmode ].
  rewrite Hfail.
  destruct (isinstance_TimeoutError e); rewrite Hmsg;
    rewrite (finance_format_error validate args _ c rest Hok), Hpayload; reflexivity.
Qed.

(** C7, the failing input in general. In the Scholar adapter a body that
    answers a readable-mode request with status 200 and fails the
    coercion makes [google_scholar_search] raise an [McpError] with code
    [INTERNAL_ERROR]; nothing is returned and nothing is stored. *)
Theorem scholar_coercion_failure_raises
  (Model : Type) (validate : list (string * json) -> py_result Model)
  (render : Model -> py_result string)
  (self : GoogleScholar.SerpApiGoogleScholarServer)
  (upstream : request -> http_outcome) (args : GoogleScholar.GoogleScholarArgs)
  (error_text : string) (body : json) (e : exc) :
  GoogleScholar.cache self !! GoogleScholar.scholar_cache_key self args = None ->
  upstream (Request GoogleScholar.base_url (GoogleScholar.scholar_params self args))
  = Responded 200 error_text body ->
  py_contains "error" body = Return false ->
  selected_mode (GoogleScholar.raw_json args) (GoogleScholar.readable_json args)
  = ReadableMode ->
  (kw ← kwargs "GoogleScholarResponseData" body; validate kw) = Raise e ->
  GoogleScholar.google_scholar_search Model validate render self upstream args
  = Run (Raise (GoogleScholar.scholar_handler e)) (GoogleScholar.cache self)
      [Request GoogleScholar.base_url (GoogleScholar.scholar_params self args)]
  /\ exc_type (GoogleScholar.scholar_handler e) = McpError INTERNAL_ERROR.
Proof.
  intros Hmiss Hreply Hnoerr Hmode Hfail. split.
  - unfold GoogleScholar.google_scholar_search. rewrite Hmiss, Hreply. simpl.
    rewrite Hnoerr. simpl.
    by_mode (GoogleScholar.raw_json args) (GoogleScholar.readable_json args) Hmode.
    unfold GoogleScholar.readable.
    destruct (kwargs "GoogleScholarResponseData" body) as [ kw | e' ]; simpl in Hfail |- *.
    + now rewrite Hfail.
    + now injection Hfail as ->.
  - unfold GoogleScholar.scholar_handler.
    destruct (isinstance_ClientError e), (isinstance_JSONDecodeError e); reflexivity.
Qed.

(** C7, witness: the body [{}], which lacks the required fields of the
    model. *)
Lemma scholar_empty_body_witness :
  GoogleScholar.google_scholar_search _ GoogleScholar.reference_validate
    GoogleScholar.reference_heading (scholar_server "k")
    (always (Responded 200 EmptyString (JObject []))) (papers_search false true)
  = Run (Raise (GoogleScholar.scholar_handler
                  (Exc ValidationError "validation error for GoogleScholarResponseData")))
      ∅
      [Request GoogleScholar.base_url
         (GoogleScholar.scholar_params (scholar_server "k") (papers_search false true))]
  /\ exc_type (GoogleScholar.scholar_handler
                 (Exc ValidationError "validation error for GoogleScholarResponseData"))
     = McpError INTERNAL_ERROR.
Proof.
  apply (scholar_coercion_failure_raises _ GoogleScholar.reference_validate
           GoogleScholar.reference_heading (scholar_server "k")
           (always (Responded 200 EmptyString (JObject []))) (papers_search false true)
           EmptyString (JObject [])
           (Exc ValidationError "validation error for GoogleScholarResponseData"));
    reflexivity.
Defined.

(** ** Tool dispatch of the Google Search server (claims C8, C10) *)

(** C8. When the arguments validate and the upstream call succeeds, the
    [google_locations] and the [google_account] branch of [call_tool]
    raise an [AttributeError] on reading [args.readable_json], a field
    neither arguments class declares; [call_tool] has no handler, so the
    call returns no payload. *)
Theorem locations_and_account_raise_attribute_error
  (validate : list (string * json) -> py_result GoogleSearch.SearchResponseData)
  (parse_search : list (string * json) -> py_result GoogleSearch.GoogleSearchArgs)
  (parse_locations : list (string * json) -> py_result GoogleSearch.GoogleLocationsArgs)
  (parse_account : list (string * json) -> py_result GoogleSearch.GoogleAccountArgs)
  (json_loads : string -> py_result json)
  (self : GoogleSearch.SerpApiServer) (stamp : Z) (upstream : request -> http_outcome)
  (arguments : list (string * json)) :
  (forall args data,
      parse_locations arguments = Return args ->
      outcome (GoogleSearch.locations json_loads self upstream args) = Return data ->
      outcome (GoogleSearch.call_tool validate parse_search parse_locations
                 parse_account json_loads self stamp upstream
                 "google_locations" arguments)
      = Raise (Exc AttributeError
                 "'GoogleLocationsArgs' object has no attribute 'readable_json'"))
  /\ (forall args data,
        parse_account arguments = Return args ->
        outcome (GoogleSearch.account json_loads self upstream args) = Return data ->
        outcome (GoogleSearch.call_tool validate parse_search parse_locations
                   parse_account json_loads self stamp upstream
                   "google_account" arguments)
        = Raise (Exc AttributeError
                   "'GoogleAccountArgs' object has no attribute 'readable_json'")).
Proof.
  split; intros args data Hargs Hdata; unfold GoogleSearch.call_tool; simpl;
    rewrite Hargs; simpl; rewrite Hdata; reflexivity.
Qed.

(** C8, witness: one location and one account document, each returned
    with status 200. *)
Lemma locations_and_account_witness :
  outcome (GoogleSearch.call_tool GoogleSearch.reference_validate
             GoogleSearch.reference_parse_search_args
             GoogleSearch.reference_parse_locations_args
             GoogleSearch.reference_parse_account_args
             (fun _ => raise JSONDecodeError "Expecting value")
             (search_server "k") 0
             (always (Responded 200 EmptyString
                        (JArray [JObject [("name", JString "Austin")]])))
             "google_locations" [("q", JString "Austin")])
  = Raise (Exc AttributeError
             "'GoogleLocationsArgs' object has no attribute 'readable_json'")
  /\ outcome (GoogleSearch.call_tool GoogleSearch.reference_validate
                GoogleSearch.reference_parse_search_args
                GoogleSearch.reference_parse_locations_args
                GoogleSearch.reference_parse_account_args
                (fun _ => raise JSONDecodeError "Expecting value")
                (search_server "k") 0
                (always (Responded 200 EmptyString
                           (JObject [("plan_name", JString "Free")])))
                "google_account" [])
     = Raise (Exc AttributeError
                "'GoogleAccountArgs' object has no attribute 'readable_json'").
Proof.
  split.
  - eapply (proj1 (locations_and_account_raise_attribute_error _ _ _ _ _ _ _ _ _));
      reflexivity.
  - eapply (proj2 (locations_and_account_raise_attribute_error _ _ _ _ _ _ _ _ _));
      reflexivity.
Defined.

(** C10. The account tool is advertised as [serpapi_account], a name
    [call_tool] does not dispatch ([google_account] is the one it knows,
    and is not advertised): a call under the advertised name raises an
    [McpError] with code [METHOD_NOT_FOUND], sends nothing upstream and
    leaves the cache as it was. *)
Theorem serpapi_account_is_not_dispatched
  (validate : list (string * json) -> py_result GoogleSearch.SearchResponseData)
  (parse_search : list (string * json) -> py_result GoogleSearch.GoogleSearchArgs)
  (parse_locations : list (string * json) -> py_result GoogleSearch.GoogleLocationsArgs)
  (parse_account : list (string * json) -> py_result GoogleSearch.GoogleAccountArgs)
  (json_loads : string -> py_result json)
  (self : GoogleSearch.SerpApiServer) (stamp : Z) (upstream : request -> http_outcome)
  (arguments : list (string * json)) :
  In "serpapi_account" GoogleSearch.list_tools
  /\ ~ In "google_account" GoogleSearch.list_tools
  /\ GoogleSearch.call_tool validate parse_search parse_locations parse_account
       json_loads self stamp upstream "serpapi_account" arguments
     = Run (Raise (Exc (McpError METHOD_NOT_FOUND) "Unknown tool: serpapi_account"))
         (GoogleSearch.cache self) [].
Proof.
  split; [ | split ].
  - simpl. auto.
  - simpl. intros [ H | [ H | [ H | [] ] ] ]; discriminate H.
  - reflexivity.
Qed.

(** ** The answers of the transcript tool *)

(** The text of every [except] clause starts with [Error: ]. *)
Lemma handler_text_is_an_error args e :
  startswith "Error: " (YouTubeTranscript.transcript_handler args e) = true.
Proof.
  unfold YouTubeTranscript.transcript_handler, startswith.
  destruct (isinstance_ValueError e); [ | destruct (exc_type e) ];
    cbv beta iota delta [String.append]; simpl; try reflexivity;
    match goal with |- String.prefix EmptyString ?s = true => now destruct s end.
Qed.

(** [get_transcript] returns on every input, and what it returns for an
    exception is a text that starts with [Error: ]. An exception raised
    while the video identifier is extracted, or after the cache lookup
    failed (by the transcript library, by the choice or the fetching of
    a transcript, or while the response is formatted), is answered with
    the text of its [except] clause: [Error: ] and the exception's
    message for a [ValueError] and for any exception without a clause of
    its own, a [KeyError] for one; a fixed text for
    [TranscriptsDisabled]; and a text that names the requested URL for
    [VideoUnavailable] and [NoTranscriptFound]. *)
Lemma get_transcript_never_raises chk nfkc unq fmt self library args :
  (exists payload,
     fst (fst (YouTubeTranscript.get_transcript chk nfkc unq fmt self library args))
     = Return payload)
  /\ (forall e,
        YouTubeTranscript.extract_video_id chk nfkc unq
          (YouTubeTranscript.video_url args) = Raise e ->
        fst (fst (YouTubeTranscript.get_transcript chk nfkc unq fmt self library args))
        = Return (JString (YouTubeTranscript.transcript_handler args e)))
  /\ (forall video_id e,
        YouTubeTranscript.extract_video_id chk nfkc unq
          (YouTubeTranscript.video_url args) = Return video_id ->
        YouTubeTranscript.cache self
          !! YouTubeTranscript.transcript_cache_key video_id args = None ->
        YouTubeTranscript.transcript_attempt fmt self args video_id
          (YouTubeTranscript.transcript_cache_key video_id args)
          (library (transcript_call video_id args)) = Raise e ->
        fst (fst (YouTubeTranscript.get_transcript chk nfkc unq fmt self library args))
        = Return (JString (YouTubeTranscript.transcript_handler args e)))
  /\ (forall e,
        startswith "Error: " (YouTubeTranscript.transcript_handler args e) = true)
  /\ (forall e,
        isinstance_ValueError e = true ->
        YouTubeTranscript.transcript_handler args e = "Error: " +:+ exc_str e)
  /\ (forall message,
        YouTubeTranscript.transcript_handler args (Exc TranscriptsDisabled message)
        = "Error: Transcripts are disabled for this video"
        /\ YouTubeTranscript.transcript_handler args (Exc VideoUnavailable message)
           = "Error: Video " +:+ YouTubeTranscript.video_url args +:+ " is unavailable"
        /\ YouTubeTranscript.transcript_handler args (Exc NoTranscriptFound message)
           = "Error: No transcript found for video "
             +:+ YouTubeTranscript.video_url args
        /\ YouTubeTranscript.transcript_handler args (Exc KeyError message)
           = "Error: " +:+ message).
Proof.
  split; [ | split; [ | split; [ | split; [ | split ] ] ] ].
  - unfold YouTubeTranscript.get_transcript.
    destruct (YouTubeTranscript.extract_video_id chk nfkc unq _) as [ video_id | e ];
      [ | eexists; reflexivity ].
    destruct (YouTubeTranscript.cache self !! _) as [ cached | ];
      [ eexists; reflexivity | ].
    destruct (YouTubeTranscript.transcript_attempt fmt self args video_id _ _)
      as [ [resp c] | e ]; eexists; reflexivity.
  - intros e He. unfold YouTubeTranscript.get_transcript. now rewrite He.
  - intros video_id e Hid Hmiss He. unfold YouTubeTranscript.get_transcript.
    rewrite Hid, Hmiss. fold (transcript_call video_id args). now rewrite He.
  - intros e. apply handler_text_is_an_error.
  - intros e He. unfold YouTubeTranscript.transcript_handler. now rewrite He.
  - intros message. split; [ | split; [ | split ] ]; reflexivity.
Qed.

(** ** The cache lifetime in the Finance adapter *)

(** In the Finance adapter a stored entry is returned, without any
    upstream call, exactly while it is younger than 3600 seconds; from
    that age on the request is sent upstream. *)
Theorem finance_entry_is_served_only_while_fresh
  (validate : list (string * json) -> py_result GoogleFinance.GoogleFinanceResponseData)
  (self : GoogleFinance.SerpApiGoogleFinanceServer) (now stamp : Z)
  (upstream : request -> http_outcome) (args : GoogleFinance.GoogleFinanceSearchArgs)
  (cached : GoogleFinance.CachedSearch) :
  GoogleFinance.cache self !! GoogleFinance.finance_cache_key self args = Some cached ->
  (now - GoogleFinance.timestamp cached < 3600 ->
   GoogleFinance.google_finance_search validate self now stamp upstream args
   = Run (Return (GoogleFinance.response cached)) (GoogleFinance.cache self) [])
  /\ (3600 <= now - GoogleFinance.timestamp cached ->
      sent (GoogleFinance.google_finance_search validate self now stamp upstream args)
      = [Request GoogleFinance.base_url (GoogleFinance.finance_params self args)]).
Proof.
  intros Hentry. split; intros Hage.
  - now apply finance_fresh_entry_is_served.
  - now apply (finance_stale_entry_is_a_miss validate self now stamp upstream args cached).
Qed.

(** An entry stored at clock reading 0 is served at reading 3599 and
    bypassed at reading 3600. *)
Lemma finance_entry_lifetime_witness :
  let entry := {| GoogleFinance.query := "q=AAPL&format=clean_json";
                  GoogleFinance.response := JObject [("price", JFloat "150.0")];
                  GoogleFinance.timestamp := 0 |} in
  let self := {| GoogleFinance.api_key := "k";
                 GoogleFinance.cache := {[ "q=AAPL&format=clean_json" := entry ]} |} in
  let upstream := always (Responded 200 EmptyString (JObject [("price", JFloat "151.0")])) in
  GoogleFinance.google_finance_search GoogleFinance.reference_validate self 3599 3599
    upstream (aapl_quote false false)
  = Run (Return (JObject [("price", JFloat "150.0")])) (GoogleFinance.cache self) []
  /\ sent (GoogleFinance.google_finance_search GoogleFinance.reference_validate self
             3600 3600 upstream (aapl_quote false false))
     = [Request GoogleFinance.base_url
          [("engine", JString "google_finance"); ("api_key", JString "k");
           ("q", JString "AAPL")]].
Proof.
  intros entry self upstream. split.
  - apply (proj1 (finance_entry_is_served_only_while_fresh
                    GoogleFinance.reference_validate self 3599 3599 upstream
                    (aapl_quote false false) entry eq_refl)).
    reflexivity.
  - apply (proj2 (finance_entry_is_served_only_while_fresh
                    GoogleFinance.reference_validate self 3600 3600 upstream
                    (aapl_quote false false) entry eq_refl)).
    discriminate.
Defined.

(** * Further properties of the adapters *)

(** ** Pruning: what a lookup finds, and documents with nothing to prune *)

Ltac distinct_keys :=
  simpl;
  repeat (apply NoDup_cons_2;
          [ rewrite ?not_elem_of_cons; repeat split;
            try discriminate; apply not_elem_of_nil | ]);
  apply NoDup_nil_2.

Lemma dict_get_clean (clean : json -> json) k fields :
  NoDup (map fst fields) ->
  dict_get k (map (fun kv => (fst kv, clean (snd kv)))
                (List.filter (fun kv => negb (is_empty_value (snd kv))) fields))
  = match dict_get k fields with
    | Some v => if is_empty_value v then None else Some (clean v)
    | None => None
    end.
Proof.
  induction fields as [ | [k' v] rest IH ]; intros Hdup; [ reflexivity | ].
  apply NoDup_cons in Hdup as [Hfresh Hdup]. simpl in *.
  destruct (String.eqb_spec k k') as [ -> | Hne ].
  - destruct (is_empty_value v); simpl; [ | now rewrite String.eqb_refl ].
    rewrite (IH Hdup).
    destruct (dict_get k' rest) as [ w | ] eqn:Hw; [ | reflexivity ].
    exfalso. apply Hfresh. clear - Hw.
    induction rest as [ | [k'' x] rest IH ]; simpl in *; [ discriminate | ].
    destruct (String.eqb_spec k' k'') as [ -> | _ ]; [ now left | right; auto ].
  - destruct (is_empty_value v); simpl; [ exact (IH Hdup) | ].
    destruct (String.eqb_spec k k'); [ contradiction | exact (IH Hdup) ].
Qed.

(** Looking a key up in a cleaned dictionary: the cleaned value of the
    key when its value was none of [null], [""], [[]] and [{}], and a
    [KeyError] otherwise, as for a key the dictionary never had. *)
Theorem clean_json_dict_lookup (fields : list (string * json)) (k : string) :
  NoDup (map fst fields) ->
  py_getitem (GoogleMapsClean.clean_json_dict (JObject fields)) k
  = match dict_get k fields with
    | Some v =>
        if is_empty_value v then raise KeyError (repr_str k)
        else Return (GoogleMapsClean.clean_json_dict v)
    | None => raise KeyError (repr_str k)
    end
  /\ py_getitem (GoogleSearchClean.clean_json_dict (JObject fields)) k
     = match dict_get k fields with
       | Some v =>
           if is_empty_value v then raise KeyError (repr_str k)
           else Return (GoogleSearchClean.clean_json_dict v)
       | None => raise KeyError (repr_str k)
       end.
Proof.
  intros Hdup. rewrite maps_clean_object, search_clean_object. unfold py_getitem.
  rewrite !dict_get_clean by exact Hdup.
  destruct (dict_get k fields) as [ v | ]; [ | easy ].
  destruct (is_empty_value v); easy.
Qed.

Lemma clean_json_dict_lookup_witness :
  py_getitem
    (GoogleMapsClean.clean_json_dict
       (JObject [("price", JInt 0); ("exchange", JString EmptyString)])) "price"
  = Return (JInt 0)
  /\ py_getitem
       (GoogleMapsClean.clean_json_dict
          (JObject [("price", JInt 0); ("exchange", JString EmptyString)])) "exchange"
     = raise KeyError "'exchange'".
Proof.
  split.
  - apply (proj1 (clean_json_dict_lookup
                    [("price", JInt 0); ("exchange", JString EmptyString)] "price"
                    ltac:(distinct_keys))).
  - apply (proj1 (clean_json_dict_lookup
                    [("price", JInt 0); ("exchange", JString EmptyString)] "exchange"
                    ltac:(distinct_keys))).
Defined.

Lemma scholar_kept_nonempty v :
  is_empty_value v = false -> GoogleScholar.kept v = true.
Proof.
  destruct v as [ | | | | [ | ] | [ | ] | [ | ] ]; intros H;
    try discriminate H; reflexivity.
Qed.

Lemma transcript_kept_spec v : YouTubeTranscript.kept v = negb (is_empty_value v).
Proof. destruct v as [ | | | | [ | ] | [ | ] | [ | ] ]; reflexivity. Qed.

Lemma nothing_to_prune_maps j :
  nothing_to_prune j = true -> GoogleMapsClean.clean_json_dict j = j.
Proof.
  induction j as [ | | | | | elems IH | fields IH ] using json_ind; try reflexivity.
  - simpl. intros Hs. f_equal.
    induction IH as [ | x xs Hx _ IHxs ]; simpl in *; [ reflexivity | ].
    apply andb_prop in Hs as [Hs Hxs]. apply andb_prop in Hs as [Hne Hsx].
    apply negb_true_iff in Hne.
    assert (Hn : is_None x = false) by (clear - Hne; destruct x; try reflexivity; discriminate Hne).
    now rewrite Hn, (Hx Hsx), (IHxs Hxs).
  - simpl. intros Hs. f_equal.
    induction IH as [ | [k v] xs Hv _ IHxs ]; simpl in *; [ reflexivity | ].
    apply andb_prop in Hs as [Hs Hxs]. apply andb_prop in Hs as [Hne Hsv].
    now rewrite maps_kept_spec, Hne, (Hv Hsv), (IHxs Hxs).
Qed.

Lemma nothing_to_prune_scholar j :
  nothing_to_prune j = true -> GoogleScholar.clean_json_dict j = j.
Proof.
  induction j as [ | | | | | elems IH | fields IH ] using json_ind; try reflexivity.
  - simpl. intros Hs. f_equal.
    induction IH as [ | x xs Hx _ IHxs ]; simpl in *; [ reflexivity | ].
    apply andb_prop in Hs as [Hs Hxs]. apply andb_prop in Hs as [Hne Hsx].
    apply negb_true_iff in Hne.
    now rewrite (scholar_kept_nonempty x Hne), (Hx Hsx), (IHxs Hxs).
  - simpl. intros Hs. f_equal.
    induction IH as [ | [k v] xs Hv _ IHxs ]; simpl in *; [ reflexivity | ].
    apply andb_prop in Hs as [Hs Hxs]. apply andb_prop in Hs as [Hne Hsv].
    apply negb_true_iff in Hne.
    now rewrite (scholar_kept_nonempty v Hne), (Hv Hsv), (IHxs Hxs).
Qed.

Lemma nothing_to_prune_transcript j :
  nothing_to_prune j = true -> YouTubeTranscript.clean_json_dict j = j.
Proof.
  induction j as [ | | | | | elems IH | fields IH ] using json_ind; try reflexivity.
  - simpl. intros Hs. f_equal.
    induction IH as [ | x xs Hx _ IHxs ]; simpl in *; [ reflexivity | ].
    apply andb_prop in Hs as [Hs Hxs]. apply andb_prop in Hs as [Hne Hsx].
    now rewrite transcript_kept_spec, Hne, (Hx Hsx), (IHxs Hxs).
  - simpl. intros Hs. f_equal.
    induction IH as [ | [k v] xs Hv _ IHxs ]; simpl in *; [ reflexivity | ].
    apply andb_prop in Hs as [Hs Hxs]. apply andb_prop in Hs as [Hne Hsv].
    now rewrite transcript_kept_spec, Hne, (Hv Hsv), (IHxs Hxs).
Qed.

Lemma nothing_to_prune_search j :
  nothing_to_prune j = true -> eq_empty_list j = false ->
  GoogleSearchClean.clean_json_dict j = j.
Proof.
  induction j as [ | | | | | elems IH | fields IH ] using json_ind; try reflexivity.
  - simpl. intros Hs Hne.
    match goal with
    | |- match ?a with [] => _ | _ :: _ => _ end = _ =>
        assert (Heq : a = elems); [ | rewrite Heq ]
    end.
    + clear Hne. induction IH as [ | x xs Hx _ IHxs ]; simpl in *; [ reflexivity | ].
      apply andb_prop in Hs as [Hs Hxs]. apply andb_prop in Hs as [Hnx Hsx].
      rewrite search_kept_spec, Hnx, (IHxs Hxs). f_equal. apply (Hx Hsx).
      apply negb_true_iff in Hnx. destruct x as [ | | | | | [ | ] | ]; easy.
    + destruct elems; [ discriminate Hne | reflexivity ].
  - simpl. intros Hs _. f_equal.
    induction IH as [ | [k v] xs Hv _ IHxs ]; simpl in *; [ reflexivity | ].
    apply andb_prop in Hs as [Hs Hxs]. apply andb_prop in Hs as [Hne Hsv].
    rewrite search_kept_spec, Hne, (IHxs Hxs). do 2 f_equal. apply (Hv Hsv).
    apply negb_true_iff in Hne. destruct v as [ | | | | | [ | ] | ]; easy.
Qed.

(** A document with nothing to prune is returned unchanged by each of the
    four copies of [clean_json_dict]; the Google Search copy, which turns
    an empty list into [None], does so unless the document is itself the
    empty list. *)
Theorem clean_json_dict_keeps_documents_with_nothing_to_prune (j : json) :
  nothing_to_prune j = true ->
  GoogleMapsClean.clean_json_dict j = j
  /\ GoogleScholar.clean_json_dict j = j
  /\ YouTubeTranscript.clean_json_dict j = j
  /\ (eq_empty_list j = false -> GoogleSearchClean.clean_json_dict j = j)
  /\ (eq_empty_list j = true -> GoogleSearchClean.clean_json_dict j = JNull).
Proof.
  intros Hs. repeat split.
  - now apply nothing_to_prune_maps.
  - now apply nothing_to_prune_scholar.
  - now apply nothing_to_prune_transcript.
  - now apply nothing_to_prune_search.
  - destruct j as [ | | | | | [ | ] | ]; try discriminate. reflexivity.
Qed.

Lemma clean_json_dict_nothing_to_prune_witness :
  let doc := JObject [("results", JArray [JObject [("rating", JInt 0);
                                                    ("open", JBool false)]])] in
  GoogleMapsClean.clean_json_dict doc = doc
  /\ GoogleScholar.clean_json_dict doc = doc
  /\ YouTubeTranscript.clean_json_dict doc = doc
  /\ GoogleSearchClean.clean_json_dict doc = doc.
Proof.
  intros doc.
  pose proof (clean_json_dict_keeps_documents_with_nothing_to_prune doc eq_refl)
    as (Hm & Hs & Ht & Hg & _).
  exact (conj Hm (conj Hs (conj Ht (Hg eq_refl)))).
Defined.


(** ** The cache of the Google Search adapter *)

Lemma search_respond_stores validate self stamp args key body :
  snd (GoogleSearch.search_respond validate self stamp args key body)
  = GoogleSearch.store (GoogleSearch.cache self) key
      (fst (GoogleSearch.search_respond validate self stamp args key body)) stamp.
Proof.
  unfold GoogleSearch.search_respond.
  destruct (truthy_bool (GoogleSearch.raw_json args)); [ reflexivity | ].
  destruct (truthy_bool (GoogleSearch.readable_json args)); [ | reflexivity ].
  destruct (_ ← kwargs _ _; _); reflexivity.
Qed.

Lemma search_attempt_stores validate self stamp args key reply r c :
  GoogleSearch.search_attempt validate self stamp args key reply = Return (r, c) ->
  c = GoogleSearch.store (GoogleSearch.cache self) key r stamp.
Proof.
  unfold GoogleSearch.search_attempt.
  destruct reply as [ status error_text body | e ]; [ | discriminate ].
  destruct (negb (status =? 200)); [ discriminate | ].
  destruct (py_contains "error" body) as [ [ | ] | e ]; simpl; try discriminate.
  - destruct (py_getitem body "error"); discriminate.
  - intros H. injection H as H.
    pose proof (search_respond_stores validate self stamp args key body) as Hs.
    rewrite H in Hs. exact Hs.
Qed.

(** On a miss, what [search] returns is stored under the request's key,
    and the same request gets it again at any later time, whatever the
    upstream would answer then, without any upstream call. *)
Theorem search_result_is_replayed
  (validate : list (string * json) -> py_result GoogleSearch.SearchResponseData)
  (self : GoogleSearch.SerpApiServer) (stamp : Z)
  (upstream : request -> http_outcome) (args : GoogleSearch.GoogleSearchArgs)
  (r : json) :
  GoogleSearch.cache self !! GoogleSearch.search_cache_key self args = None ->
  outcome (GoogleSearch.search validate self stamp upstream args) = Return r ->
  let first := GoogleSearch.search validate self stamp upstream args in
  cache_after first
  = GoogleSearch.store (GoogleSearch.cache self)
      (GoogleSearch.search_cache_key self args) r stamp
  /\ sent first = [Request GoogleSearch.base_url (GoogleSearch.search_params self args)]
  /\ forall (stamp' : Z) (upstream' : request -> http_outcome),
       GoogleSearch.search validate
         {| GoogleSearch.api_key := GoogleSearch.api_key self;
            GoogleSearch.cache := cache_after first |}
         stamp' upstream' args
       = Run (Return r) (cache_after first) [].
Proof.
  intros Hmiss Hout first.
  assert (Hfirst : first
                   = Run (Return r)
                       (GoogleSearch.store (GoogleSearch.cache self)
                          (GoogleSearch.search_cache_key self args) r stamp)
                       [Request GoogleSearch.base_url
                          (GoogleSearch.search_params self args)]).
  { subst first. revert Hout. unfold GoogleSearch.search. rewrite Hmiss.
    destruct (GoogleSearch.search_attempt _ _ _ _ _ _) as [ [r' c] | e ] eqn:Ha;
      simpl; [ | discriminate ].
    intros H. injection H as ->.
    now rewrite (search_attempt_stores _ _ _ _ _ _ _ _ Ha). }
  rewrite Hfirst. simpl. repeat split.
  intros stamp' upstream'.
  apply (google_search_hit_ignores_age validate
           {| GoogleSearch.api_key := GoogleSearch.api_key self;
              GoogleSearch.cache :=
                GoogleSearch.store (GoogleSearch.cache self)
                  (GoogleSearch.search_cache_key self args) r stamp |}
           stamp' upstream' args
           {| GoogleSearch.query := GoogleSearch.search_cache_key self args;
              GoogleSearch.response := r; GoogleSearch.timestamp := stamp |}).
  apply lookup_insert_eq.
Qed.

Lemma search_result_is_replayed_witness :
  let body := JObject [("organic_results", JArray [JInt 1]); ("pagination", JNull)] in
  let first := GoogleSearch.search GoogleSearch.reference_validate (search_server "k") 5
                 (always (Responded 200 EmptyString body)) (coffee_search false false) in
  cache_after first
  = GoogleSearch.store ∅
      (GoogleSearch.search_cache_key (search_server "k") (coffee_search false false))
      (JObject [("organic_results", JArray [JInt 1])]) 5
  /\ sent first
     = [Request GoogleSearch.base_url
          (GoogleSearch.search_params (search_server "k") (coffee_search false false))]
  /\ forall (stamp' : Z) (upstream' : request -> http_outcome),
       GoogleSearch.search GoogleSearch.reference_validate
         {| GoogleSearch.api_key := "k"; GoogleSearch.cache := cache_after first |}
         stamp' upstream' (coffee_search false false)
       = Run (Return (JObject [("organic_results", JArray [JInt 1])])) (cache_after first) [].
Proof.
  apply (search_result_is_replayed GoogleSearch.reference_validate (search_server "k") 5
           (always (Responded 200 EmptyString
                      (JObject [("organic_results", JArray [JInt 1]); ("pagination", JNull)])))
           (coffee_search false false) (JObject [("organic_results", JArray [JInt 1])]));
    reflexivity.
Defined.

Lemma search_handler_code e :
  exc_type (GoogleSearch.search_handler e) = McpError INTERNAL_ERROR.
Proof.
  unfold GoogleSearch.search_handler.
  destruct (isinstance_ClientError e), (isinstance_JSONDecodeError e); reflexivity.
Qed.

(** Whatever makes [search] fail, the exception that leaves it is an
    [McpError] with code [INTERNAL_ERROR], the cache is left as it was,
    and exactly one request was sent. *)
Theorem search_failure_is_an_internal_error
  (validate : list (string * json) -> py_result GoogleSearch.SearchResponseData)
  (self : GoogleSearch.SerpApiServer) (stamp : Z)
  (upstream : request -> http_outcome) (args : GoogleSearch.GoogleSearchArgs)
  (e : exc) :
  outcome (GoogleSearch.search validate self stamp upstream args) = Raise e ->
  exc_type e = McpError INTERNAL_ERROR
  /\ cache_after (GoogleSearch.search validate self stamp upstream args)
     = GoogleSearch.cache self
  /\ sent (GoogleSearch.search validate self stamp upstream args)
     = [Request GoogleSearch.base_url (GoogleSearch.search_params self args)].
Proof.
  unfold GoogleSearch.search.
  destruct (GoogleSearch.cache self !! _); [ discriminate | ].
  destruct (GoogleSearch.search_attempt _ _ _ _ _ _) as [ [r c] | e' ]; simpl;
    [ discriminate | ].
  intros H. injection H as <-. split; [ apply search_handler_code | easy ].
Qed.

Lemma search_failure_witness :
  exc_type (Exc (McpError INTERNAL_ERROR)
              "HTTP error during SerpAPI request: connection reset")
  = McpError INTERNAL_ERROR
  /\ cache_after
       (GoogleSearch.search GoogleSearch.reference_validate (search_server "k") 0
          (always (Failed (Exc ClientError "connection reset")))
          (coffee_search false false))
     = ∅
  /\ sent
       (GoogleSearch.search GoogleSearch.reference_validate (search_server "k") 0
          (always (Failed (Exc ClientError "connection reset")))
          (coffee_search false false))
     = [Request GoogleSearch.base_url
          (GoogleSearch.search_params (search_server "k") (coffee_search false false))].
Proof.
  apply (search_failure_is_an_internal_error GoogleSearch.reference_validate
           (search_server "k") 0 (always (Failed (Exc ClientError "connection reset")))
           (coffee_search false false)).
  reflexivity.
Defined.

(** The messages of the failures [search] detects itself. Each
    [McpError] it raises inside its [try] is caught by its own
    [except Exception] clause and wrapped once more: a status other than
    200, and an [error] member in the body, are reported with both
    prefixes; a body that is [null] fails the membership test. *)
Theorem search_error_messages
  (validate : list (string * json) -> py_result GoogleSearch.SearchResponseData)
  (self : GoogleSearch.SerpApiServer) (stamp : Z)
  (upstream : request -> http_outcome) (args : GoogleSearch.GoogleSearchArgs) :
  GoogleSearch.cache self !! GoogleSearch.search_cache_key self args = None ->
  let reply := upstream (Request GoogleSearch.base_url
                           (GoogleSearch.search_params self args)) in
  let raised (message : string) :=
    outcome (GoogleSearch.search validate self stamp upstream args)
    = Raise (Exc (McpError INTERNAL_ERROR)
               ("Unexpected error during SerpAPI request: " +:+ message)) in
  (forall status error_text body,
     reply = Responded status error_text body -> status <> 200 ->
     raised ("SerpAPI returned an error: " +:+ pretty status +:+ " - " +:+ error_text))
  /\ (forall error_text fields err,
        reply = Responded 200 error_text (JObject fields) ->
        dict_get "error" fields = Some err ->
        raised ("SerpAPI returned an error: " +:+ py_str err))
  /\ (forall error_text,
        reply = Responded 200 error_text JNull ->
        raised "argument of type 'NoneType' is not iterable").
Proof.
  intros Hmiss reply raised. subst reply raised. unfold GoogleSearch.search.
  rewrite Hmiss. repeat split.
  - intros status error_text body -> Hstatus. simpl.
    destruct (Z.eqb_spec status 200); [ contradiction | reflexivity ].
  - intros error_text fields err -> Herr. simpl. unfold dict_has. now rewrite Herr.
  - intros error_text ->. reflexivity.
Qed.

Lemma search_error_messages_witness :
  outcome (GoogleSearch.search GoogleSearch.reference_validate (search_server "k") 0
             (always (Responded 429 "rate limited" JNull)) (coffee_search true false))
  = Raise (Exc (McpError INTERNAL_ERROR)
             ("Unexpected error during SerpAPI request: "
              +:+ ("SerpAPI returned an error: " +:+ pretty 429 +:+ " - "
                   +:+ "rate limited"))).
Proof.
  apply (proj1 (search_error_messages GoogleSearch.reference_validate (search_server "k")
                  0 (always (Responded 429 "rate limited" JNull))
                  (coffee_search true false) eq_refl)
           429 "rate limited" JNull eq_refl).
  discriminate.
Defined.


(** A reply with status 200 whose body is a JSON object without an
    [error] member is always answered: with the body itself in raw mode,
    with the cleaned body in clean mode, and in readable mode with the
    markdown text or, when the body cannot be validated or rendered,
    with the body itself. *)
Theorem search_answers_every_successful_reply
  (validate : list (string * json) -> py_result GoogleSearch.SearchResponseData)
  (self : GoogleSearch.SerpApiServer) (stamp : Z)
  (upstream : request -> http_outcome) (args : GoogleSearch.GoogleSearchArgs)
  (error_text : string) (fields : list (string * json)) :
  GoogleSearch.cache self !! GoogleSearch.search_cache_key self args = None ->
  upstream (Request GoogleSearch.base_url (GoogleSearch.search_params self args))
  = Responded 200 error_text (JObject fields) ->
  dict_get "error" fields = None ->
  let body := JObject fields in
  let answer := outcome (GoogleSearch.search validate self stamp upstream args) in
  match selected_mode (GoogleSearch.raw_json args) (GoogleSearch.readable_json args) with
  | RawMode => answer = Return body
  | CleanMode => answer = Return (GoogleSearch.clean_json_dict body)
  | ReadableMode =>
      match (response_data ← validate fields;
             GoogleSearch.format_search_results response_data) with
      | Return text => answer = Return (JString text)
      | Raise _ => answer = Return body
      end
  end.
Proof.
  intros Hmiss Hreply Herror body answer. subst body answer.
  unfold GoogleSearch.search. rewrite Hmiss, Hreply. simpl.
  unfold dict_has. rewrite Herror. simpl.
  unfold GoogleSearch.search_respond, selected_mode.
  destruct (truthy_bool (GoogleSearch.raw_json args)); [ reflexivity | ].
  destruct (truthy_bool (GoogleSearch.readable_json args)); [ | reflexivity ].
  simpl. destruct (validate fields) as [ response_data | e ]; simpl; [ | reflexivity ].
  destruct (GoogleSearch.format_search_results response_data); reflexivity.
Qed.

(** A body that fails validation, in readable mode. *)
Lemma search_answers_witness :
  outcome (GoogleSearch.search GoogleSearch.reference_validate (search_server "k") 0
             (always (Responded 200 EmptyString (JObject [("organic_results", JNull)])))
             (coffee_search false true))
  = Return (JObject [("organic_results", JNull)]).
Proof.
  apply (search_answers_every_successful_reply GoogleSearch.reference_validate
           (search_server "k") 0
           (always (Responded 200 EmptyString (JObject [("organic_results", JNull)])))
           (coffee_search false true) EmptyString [("organic_results", JNull)]
           eq_refl eq_refl eq_refl).
Defined.

(** ** The locations and account endpoints *)

Lemma endpoint_handler_is_mcp what e :
  isinstance_McpError (GoogleSearch.endpoint_handler what e) = true.
Proof.
  unfold GoogleSearch.endpoint_handler.
  destruct (isinstance_TimeoutError e); [ reflexivity | ].
  destruct (isinstance_McpError e) eqn:He; [ exact He | reflexivity ].
Qed.

(** [locations] and [account] send one request, to their own endpoint
    with the API key, and never touch the search cache. Every exception
    that leaves them is an [McpError]; unlike [search], they raise the
    errors they detect themselves unchanged: a timeout is reported as
    [SerpAPI locations request timed out], a reply with another status
    than 200 with the [error] member of its body when the body is a JSON
    object that has one, and with the body's text when it is no JSON. *)
Theorem endpoint_calls_report_upstream_errors
  (json_loads : string -> py_result json)
  (self : GoogleSearch.SerpApiServer) (upstream : request -> http_outcome)
  (args : GoogleSearch.GoogleLocationsArgs) :
  let req := Request "https://serpapi.com/locations.json"
               (GoogleSearch.locations_params self args) in
  let called := GoogleSearch.locations json_loads self upstream args in
  let account_called :=
    GoogleSearch.account json_loads self upstream GoogleSearch.MkGoogleAccountArgs in
  let raised (message : string) :=
    outcome called = Raise (Exc (McpError INTERNAL_ERROR) message) in
  (sent called = [req] /\ cache_after called = GoogleSearch.cache self)
  /\ (sent account_called
      = [Request "https://serpapi.com/account.json"
           [("api_key", JString (GoogleSearch.api_key self))]]
      /\ cache_after account_called = GoogleSearch.cache self)
  /\ (forall e, outcome called = Raise e -> isinstance_McpError e = true)
  /\ (forall e, outcome account_called = Raise e -> isinstance_McpError e = true)
  /\ (forall e, upstream req = Failed e -> isinstance_TimeoutError e = true ->
                raised "SerpAPI locations request timed out")
  /\ (forall status error_text body fields message,
        upstream req = Responded status error_text body -> status <> 200 ->
        json_loads error_text = Return (JObject fields) ->
        dict_get "error" fields = Some message ->
        raised ("SerpAPI locations error: " +:+ py_str message))
  /\ (forall status error_text body e,
        upstream req = Responded status error_text body -> status <> 200 ->
        json_loads error_text = Raise e ->
        raised ("SerpAPI locations error: " +:+ error_text)).
Proof.
  intros req called account_called raised.
  subst req called account_called raised.
  unfold GoogleSearch.locations, GoogleSearch.account.
  change (GoogleSearch.base_url +:+ GoogleSearch.LOCATIONS)
    with "https://serpapi.com/locations.json".
  change (GoogleSearch.base_url +:+ GoogleSearch.ACCOUNT)
    with "https://serpapi.com/account.json".
  repeat split.
  - destruct (GoogleSearch.locations_attempt _ _); reflexivity.
  - destruct (GoogleSearch.locations_attempt _ _); reflexivity.
  - destruct (GoogleSearch.account_attempt _ _); reflexivity.
  - destruct (GoogleSearch.account_attempt _ _); reflexivity.
  - intros e. destruct (GoogleSearch.locations_attempt _ _); simpl; [ discriminate | ].
    intros [= <-]. apply endpoint_handler_is_mcp.
  - intros e. destruct (GoogleSearch.account_attempt _ _); simpl; [ discriminate | ].
    intros [= <-]. apply endpoint_handler_is_mcp.
  - intros e -> Htimeout. simpl. unfold GoogleSearch.endpoint_handler.
    now rewrite Htimeout.
  - intros status error_text body fields message -> Hstatus Hloads Herror. simpl.
    destruct (Z.eqb_spec status 200); [ contradiction | ]. simpl.
    unfold GoogleSearch.endpoint_error_message. rewrite Hloads. simpl.
    now rewrite Herror.
  - intros status error_text body e -> Hstatus Hloads. simpl.
    destruct (Z.eqb_spec status 200); [ contradiction | ]. simpl.
    unfold GoogleSearch.endpoint_error_message. now rewrite Hloads.
Qed.

(** ** The query parameters of [search] *)

Lemma dict_get_set_same k v d : dict_get k (dict_set k v d) = Some v.
Proof.
  induction d as [ | [k' v'] rest IH ]; simpl; [ now rewrite String.eqb_refl | ].
  destruct (String.eqb_spec k k') as [ <- | Hne ]; simpl.
  - now rewrite String.eqb_refl.
  - destruct (String.eqb_spec k k'); [ contradiction | exact IH ].
Qed.

Lemma dict_get_set_other k k' v d :
  k <> k' -> dict_get k (dict_set k' v d) = dict_get k d.
Proof.
  intros Hne. induction d as [ | [k'' v''] rest IH ]; simpl.
  - destruct (String.eqb_spec k k'); [ contradiction | reflexivity ].
  - destruct (String.eqb_spec k' k'') as [ <- | Hne' ]; simpl.
    + destruct (String.eqb_spec k k'); [ contradiction | reflexivity ].
    + destruct (String.eqb_spec k k''); [ reflexivity | exact IH ].
Qed.

Lemma dict_get_opt_set {A : Type} (o : option A) (f : A -> json) k k' d :
  k <> k' ->
  dict_get k (match o with Some x => dict_set k' (f x) d | None => d end)
  = dict_get k d.
Proof. intros Hne. destruct o; [ now apply dict_get_set_other | reflexivity ]. Qed.

(** The parameters before the domains are handled. *)
Lemma search_params_lookup self args :
  exists before : list (string * json),
    (dict_get "q" before = Some (JString (GoogleSearch.q args))
     /\ dict_get "engine" before = Some (JString "google")
     /\ dict_get "api_key" before = Some (JString (GoogleSearch.api_key self))
     /\ dict_get "num" before = Some (opt_int (GoogleSearch.num args))
     /\ dict_get "include_domains" before = None
     /\ dict_get "exclude_domains" before = None)
    /\ GoogleSearch.search_params self args
       = let included :=
           match GoogleSearch.include_domains args with
           | [] => before
           | domains =>
               dict_set "q"
                 (JString ("(" +:+ py_str (dict_item "q" before) +:+ ") "
                           +:+ py_join " OR "
                                 (map (fun domain => "site:" +:+ domain) domains)))
                 before
           end in
         match GoogleSearch.exclude_domains args with
         | [] => included
         | domains =>
             dict_set "q"
               (JString (py_str (dict_item "q" included) +:+ " "
                         +:+ py_join " "
                               (map (fun domain => "-site:" +:+ domain) domains)))
               included
         end.
Proof.
  eexists. split; [ | unfold GoogleSearch.search_params; reflexivity ].
  repeat split; rewrite !dict_get_opt_set by discriminate; reflexivity.
Qed.

(** Whatever optional parameters a request sets, [search] sends the
    engine [google], the API key, [num], and as [q] the query text with
    the domain operators; the two domain lists are never sent as
    parameters of their own. *)
Theorem search_sends_domains_in_the_query
  (self : GoogleSearch.SerpApiServer) (args : GoogleSearch.GoogleSearchArgs) :
  let params := GoogleSearch.search_params self args in
  dict_get "q" params = Some (JString (query_sent args))
  /\ dict_get "engine" params = Some (JString "google")
  /\ dict_get "api_key" params = Some (JString (GoogleSearch.api_key self))
  /\ dict_get "num" params = Some (opt_int (GoogleSearch.num args))
  /\ dict_get "include_domains" params = None
  /\ dict_get "exclude_domains" params = None.
Proof.
  intros params. subst params.
  destruct (search_params_lookup self args)
    as (before & (Hq & Hengine & Hkey & Hnum & Hinc & Hexc) & ->).
  unfold query_sent. cbv zeta.
  assert (Hitem : dict_item "q" before = JString (GoogleSearch.q args))
    by (unfold dict_item; now rewrite Hq).
  destruct (GoogleSearch.include_domains args) as [ | d ds ];
    destruct (GoogleSearch.exclude_domains args) as [ | x xs ];
    rewrite ?dict_get_set_same, ?dict_get_set_other by discriminate;
    unfold dict_item; rewrite ?dict_get_set_same, ?Hq; simpl py_str;
    repeat split; assumption || reflexivity.
Qed.


(** ** The Finance adapter: what a miss stores, and what never leaves *)

(** What a miss of [google_finance_search] does, in terms of the
    formatted response it obtains. *)
(** On a miss, whatever [google_finance_search] returns, a result or an
    error response, is stored under the request's key with the clock's
    reading, and the same request gets it again, without any upstream
    call, as long as less than 3600 seconds have passed since. *)
Theorem finance_result_is_replayed_within_ttl
  (validate : list (string * json) -> py_result GoogleFinance.GoogleFinanceResponseData)
  (self : GoogleFinance.SerpApiGoogleFinanceServer) (now stamp : Z)
  (upstream : request -> http_outcome) (args : GoogleFinance.GoogleFinanceSearchArgs)
  (r : json) :
  GoogleFinance.cache_lookup self now (GoogleFinance.finance_cache_key self args) = None ->
  outcome (GoogleFinance.google_finance_search validate self now stamp upstream args)
  = Return r ->
  let first := GoogleFinance.google_finance_search validate self now stamp upstream args in
  cache_after first
  = GoogleFinance.store (GoogleFinance.cache self)
      (GoogleFinance.finance_cache_key self args) r stamp
  /\ sent first = [Request GoogleFinance.base_url (GoogleFinance.finance_params self args)]
  /\ forall (now' stamp' : Z) (upstream' : request -> http_outcome),
       now' - stamp < 3600 ->
       GoogleFinance.google_finance_search validate
         {| GoogleFinance.api_key := GoogleFinance.api_key self;
            GoogleFinance.cache := cache_after first |}
         now' stamp' upstream' args
       = Run (Return r) (cache_after first) [].
Proof.
  intros Hmiss Hout first. subst first.
  rewrite (finance_miss_stores validate self now stamp upstream args r Hmiss Hout).
  simpl. repeat split. intros now' stamp' upstream' Hage.
  exact (finance_fresh_entry_is_served validate
           {| GoogleFinance.api_key := GoogleFinance.api_key self;
              GoogleFinance.cache :=
                GoogleFinance.store (GoogleFinance.cache self)
                  (GoogleFinance.finance_cache_key self args) r stamp |}
           now' stamp' upstream' args
           {| GoogleFinance.query := GoogleFinance.finance_cache_key self args;
              GoogleFinance.response := r;
              GoogleFinance.timestamp := stamp |}
           (lookup_insert_eq _ _ _) Hage).
Qed.

Lemma finance_result_is_replayed_witness :
  let body := JObject [("summary", JObject [("price", JFloat "150.0");
                                            ("exchange", JString EmptyString)])] in
  let kept := JObject [("summary", JObject [("price", JFloat "150.0")])] in
  let first := GoogleFinance.google_finance_search GoogleFinance.reference_validate
                 (finance_server "k") 100 101
                 (always (Responded 200 EmptyString body)) (aapl_quote false false) in
  cache_after first = GoogleFinance.store ∅ "q=AAPL&format=clean_json" kept 101
  /\ sent first
     = [Request GoogleFinance.base_url
          [("engine", JString "google_finance"); ("api_key", JString "k");
           ("q", JString "AAPL")]]
  /\ forall (now' stamp' : Z) (upstream' : request -> http_outcome),
       now' - 101 < 3600 ->
       GoogleFinance.google_finance_search GoogleFinance.reference_validate
         {| GoogleFinance.api_key := "k"; GoogleFinance.cache := cache_after first |}
         now' stamp' upstream' (aapl_quote false false)
       = Run (Return kept) (cache_after first) [].
Proof.
  apply (finance_result_is_replayed_within_ttl GoogleFinance.reference_validate
           (finance_server "k") 100 101
           (always (Responded 200 EmptyString
                      (JObject [("summary", JObject [("price", JFloat "150.0");
                                                     ("exchange", JString EmptyString)])])))
           (aapl_quote false false)
           (JObject [("summary", JObject [("price", JFloat "150.0")])]));
    reflexivity.
Defined.

(** [google_finance_search] never raises, provided pydantic accepts the
    adapter's own error responses: every failure, of the upstream call
    or of the coercion of its body, comes back as a payload. *)
Theorem finance_search_never_raises
  (validate : list (string * json) -> py_result GoogleFinance.GoogleFinanceResponseData)
  (self : GoogleFinance.SerpApiGoogleFinanceServer) (now stamp : Z)
  (upstream : request -> http_outcome) (args : GoogleFinance.GoogleFinanceSearchArgs) :
  accepts_error_responses validate ->
  exists payload,
    outcome (GoogleFinance.google_finance_search validate self now stamp upstream args)
    = Return payload.
Proof.
  intros Hok. unfold GoogleFinance.google_finance_search.
  destruct (GoogleFinance.cache_lookup _ _ _); [ eexists; reflexivity | ].
  assert (Herr : forall c rest,
             exists payload,
               GoogleFinance.format_error validate args
                 (GoogleFinance.finance_params self args) (String c rest)
               = Return payload).
  { intros c rest. rewrite (finance_format_error validate args _ c rest Hok). eauto. }
  destruct (upstream _) as [ status error_text body | e ]; simpl.
  - destruct (negb (status =? 200)).
    + destruct (Herr "S"%char ("erpAPI returned status code " +:+ pretty status
                               +:+ ": " +:+ error_text)) as [p Hp].
      change (String "S" ("erpAPI returned status code " +:+ pretty status
                           +:+ ": " +:+ error_text))
        with ("SerpAPI returned status code " +:+ pretty status +:+ ": " +:+ error_text)
        in Hp.
      rewrite Hp. eexists; reflexivity.
    + destruct (truthy_bool (GoogleFinance.raw_json args)); [ eexists; reflexivity | ].
      destruct (truthy_bool (GoogleFinance.readable_json args));
        [ | eexists; reflexivity ].
      destruct (GoogleFinance.readable validate body) as [ r | e ];
        [ eexists; reflexivity | ].
      destruct (isinstance_TimeoutError e).
      * destruct (Herr "S"%char "erpAPI request timed out") as [p Hp].
        change (String "S" "erpAPI request timed out") with "SerpAPI request timed out"
          in Hp.
        rewrite Hp. eexists; reflexivity.
      * destruct (Herr "A"%char ("n error occurred: " +:+ exc_str e)) as [p Hp].
        change (String "A" ("n error occurred: " +:+ exc_str e))
          with ("An error occurred: " +:+ exc_str e) in Hp.
        rewrite Hp. eexists; reflexivity.
  - destruct (isinstance_TimeoutError e).
    + destruct (Herr "S"%char "erpAPI request timed out") as [p Hp].
      change (String "S" "erpAPI request timed out") with "SerpAPI request timed out"
        in Hp.
      rewrite Hp. eexists; reflexivity.
    + destruct (Herr "A"%char ("n error occurred: " +:+ exc_str e)) as [p Hp].
      change (String "A" ("n error occurred: " +:+ exc_str e))
        with ("An error occurred: " +:+ exc_str e) in Hp.
      rewrite Hp. eexists; reflexivity.
Qed.

Lemma finance_search_never_raises_witness :
  exists payload,
    outcome (GoogleFinance.google_finance_search GoogleFinance.reference_validate
               (finance_server "k") 0 0
               (always (Responded 200 EmptyString (JArray []))) (aapl_quote false true))
    = Return payload.
Proof.
  apply (finance_search_never_raises GoogleFinance.reference_validate
           (finance_server "k") 0 0
           (always (Responded 200 EmptyString (JArray []))) (aapl_quote false true)).
  exact reference_validate_accepts_error_responses.
Defined.
(** [call_tool] of the Finance server has no handler of its own. When
    the arguments fail validation, pydantic's exception leaves as it is,
    before anything is sent upstream; another tool name raises an
    [McpError] with code [METHOD_NOT_FOUND]; what the search raises
    leaves as it is. A payload is returned as one text: a dictionary
    serialized with an indentation of two, a text as it is. *)
Theorem finance_call_tool_outcomes
  (validate : list (string * json) -> py_result GoogleFinance.GoogleFinanceResponseData)
  (parse : list (string * json) -> py_result GoogleFinance.GoogleFinanceSearchArgs)
  (self : GoogleFinance.SerpApiGoogleFinanceServer) (now stamp : Z)
  (upstream : request -> http_outcome) (name : string)
  (arguments : list (string * json)) :
  let called :=
    GoogleFinance.call_tool validate parse self now stamp upstream
      "google_finance_search" arguments in
  (forall e, parse arguments = Raise e ->
             called = Run (Raise e) (GoogleFinance.cache self) [])
  /\ (name <> "google_finance_search" ->
      GoogleFinance.call_tool validate parse self now stamp upstream name arguments
      = Run (Raise (Exc (McpError METHOD_NOT_FOUND) ("Unknown tool: " +:+ name)))
          (GoogleFinance.cache self) [])
  /\ (forall args,
        parse arguments = Return args ->
        let searched :=
          GoogleFinance.google_finance_search validate self now stamp upstream args in
        cache_after called = cache_after searched
        /\ sent called = sent searched
        /\ (forall e, outcome searched = Raise e -> outcome called = Raise e)
        /\ (forall fields,
              outcome searched = Return (JObject fields) ->
              outcome called
              = Return [{| type_ := "text";
                           text := json_dumps_indent 0 (JObject fields) |}])
        /\ (forall formatted,
              outcome searched = Return (JString formatted) ->
              outcome called = Return [{| type_ := "text"; text := formatted |}])).
Proof.
  intros called. subst called. unfold GoogleFinance.call_tool. simpl.
  split; [ | split ].
  - intros e ->. reflexivity.
  - intros Hname.
    destruct (String.eqb_spec name "google_finance_search"); [ contradiction | ].
    reflexivity.
  - intros args ->. simpl.
    split; [ reflexivity | split; [ reflexivity | split; [ | split ] ] ].
    + intros e ->. reflexivity.
    + intros fields ->. reflexivity.
    + intros formatted ->. reflexivity.
Qed.

(** ** The Finance adapter: the error response and the cache key *)

Lemma finance_params_head self args :
  exists rest,
    GoogleFinance.finance_params self args
    = ("engine", JString "google_finance")
      :: ("api_key", JString (GoogleFinance.api_key self)) :: rest.
Proof.
  unfold GoogleFinance.finance_params.
  destruct (truthy_str (GoogleFinance.hl args)), (truthy_str (GoogleFinance.window args));
    simpl; eauto.
Qed.

(** When the upstream call fails, the error response that a raw-mode or
    a clean-mode request gets back carries the query parameters of the
    failed call, and with them the server's API key. *)
Theorem finance_error_payload_discloses_api_key
  (validate : list (string * json) -> py_result GoogleFinance.GoogleFinanceResponseData)
  (self : GoogleFinance.SerpApiGoogleFinanceServer) (now stamp : Z)
  (upstream : request -> http_outcome) (args : GoogleFinance.GoogleFinanceSearchArgs) :
  GoogleFinance.cache_lookup self now (GoogleFinance.finance_cache_key self args) = None ->
  upstream_failed
    (upstream (Request GoogleFinance.base_url (GoogleFinance.finance_params self args))) ->
  selected_mode (GoogleFinance.raw_json args) (GoogleFinance.readable_json args)
  <> ReadableMode ->
  GoogleFinance.api_key self <> EmptyString ->
  exists payload,
    outcome (GoogleFinance.google_finance_search validate self now stamp upstream args)
    = Return payload
    /\ disclosed_api_key payload = Return (JString (GoogleFinance.api_key self)).
Proof.
  intros Hmiss Hfail Hmode Hkey.
  destruct (finance_params_head self args) as [rest Hparams].
  assert (Hform : forall c msg,
             exists payload,
               GoogleFinance.format_error validate args
                 (GoogleFinance.finance_params self args) (String c msg)
               = Return payload
               /\ disclosed_api_key payload
                  = Return (JString (GoogleFinance.api_key self))).
  { intros c msg. unfold GoogleFinance.format_error. rewrite Hparams.
    unfold selected_mode in Hmode.
    destruct (truthy_bool (GoogleFinance.raw_json args)).
    - eexists. split; [ reflexivity | ]. reflexivity.
    - destruct (truthy_bool (GoogleFinance.readable_json args)); [ now elim Hmode | ].
      eexists. split; [ reflexivity | ].
      destruct (GoogleFinance.api_key self) as [ | a key ]; [ now elim Hkey | ].
      reflexivity. }
  unfold GoogleFinance.google_finance_search. rewrite Hmiss.
  destruct (upstream _) as [ status error_text body | e ]; simpl in Hfail |- *.
  - destruct (Z.eqb_spec status 200) as [ -> | _ ]; [ now elim Hfail | ]. simpl.
    destruct (Hform "S"%char ("erpAPI returned status code " +:+ pretty status
                               +:+ ": " +:+ error_text)) as (p & Hp & Hk).
    change (String "S" ("erpAPI returned status code " +:+ pretty status
                         +:+ ": " +:+ error_text))
      with ("SerpAPI returned status code " +:+ pretty status +:+ ": " +:+ error_text)
      in Hp.
    rewrite Hp. eauto.
  - destruct (isinstance_TimeoutError e).
    + destruct (Hform "S"%char "erpAPI request timed out") as (p & Hp & Hk).
      change (String "S" "erpAPI request timed out") with "SerpAPI request timed out"
        in Hp.
      rewrite Hp. eauto.
    + destruct (Hform "A"%char ("n error occurred: " +:+ exc_str e)) as (p & Hp & Hk).
      change (String "A" ("n error occurred: " +:+ exc_str e))
        with ("An error occurred: " +:+ exc_str e) in Hp.
      rewrite Hp. eauto.
Qed.

Lemma finance_error_payload_witness :
  exists payload,
    outcome (GoogleFinance.google_finance_search GoogleFinance.reference_validate
               (finance_server "secret") 0 0
               (always (Responded 503 "unavailable" JNull)) (aapl_quote false false))
    = Return payload
    /\ disclosed_api_key payload = Return (JString "secret").
Proof.
  apply (finance_error_payload_discloses_api_key GoogleFinance.reference_validate
           (finance_server "secret") 0 0
           (always (Responded 503 "unavailable" JNull)) (aapl_quote false false)).
  - reflexivity.
  - simpl. discriminate.
  - discriminate.
  - discriminate.
Defined.

(** The cache key does not tell a parameter from a query text that spells
    it: a request whose query ends with [&window=w] and a request for the
    query before it in the time window [w] send different parameters
    upstream and share one cache key, in every output mode. *)
Theorem finance_cache_key_collision
  (self : GoogleFinance.SerpApiGoogleFinanceServer) (q w : string)
  (raw readable : option bool) :
  w <> EmptyString ->
  let spelled := {| GoogleFinance.q := q +:+ "&window=" +:+ w;
                    GoogleFinance.hl := None; GoogleFinance.window := None;
                    GoogleFinance.raw_json := raw;
                    GoogleFinance.readable_json := readable |} in
  let windowed := {| GoogleFinance.q := q;
                     GoogleFinance.hl := None; GoogleFinance.window := Some w;
                     GoogleFinance.raw_json := raw;
                     GoogleFinance.readable_json := readable |} in
  GoogleFinance.finance_cache_key self spelled
  = GoogleFinance.finance_cache_key self windowed
  /\ GoogleFinance.finance_params self spelled
     = [("engine", JString "google_finance");
        ("api_key", JString (GoogleFinance.api_key self));
        ("q", JString (q +:+ "&window=" +:+ w))]
  /\ GoogleFinance.finance_params self windowed
     = [("engine", JString "google_finance");
        ("api_key", JString (GoogleFinance.api_key self));
        ("q", JString q); ("window", JString w)].
Proof.
  intros Hw spelled windowed.
  destruct w as [ | c w ]; [ now elim Hw | ].
  split; [ | split; reflexivity ].
  unfold GoogleFinance.finance_cache_key, GoogleFinance.cache_key_parts. simpl.
  destruct (truthy_bool raw); [ | destruct (truthy_bool readable) ];
    unfold py_join; simpl;
    rewrite !append_assoc; reflexivity.
Qed.

Lemma finance_cache_key_collision_witness :
  GoogleFinance.finance_cache_key (finance_server "k")
    {| GoogleFinance.q := "AAPL" +:+ "&window=" +:+ "1Y";
       GoogleFinance.hl := None; GoogleFinance.window := None;
       GoogleFinance.raw_json := None; GoogleFinance.readable_json := None |}
  = GoogleFinance.finance_cache_key (finance_server "k")
      {| GoogleFinance.q := "AAPL";
         GoogleFinance.hl := None; GoogleFinance.window := Some "1Y";
         GoogleFinance.raw_json := None; GoogleFinance.readable_json := None |}.
Proof.
  apply (proj1 (finance_cache_key_collision (finance_server "k") "AAPL" "1Y" None None
                  ltac:(discriminate))).
Defined.


(** ** The Scholar adapter: one cache entry for every output mode *)

Lemma scholar_readable_is_text
  (Model : Type) (validate : list (string * json) -> py_result Model)
  (render : Model -> py_result string) doc r :
  GoogleScholar.readable Model validate render doc = Return r ->
  exists text, r = JString text.
Proof.
  unfold GoogleScholar.readable.
  destruct (kwargs _ doc) as [ kw | ]; simpl; [ | discriminate ].
  destruct (validate kw) as [ m | ]; simpl; [ | discriminate ].
  destruct (render m) as [ s | ]; simpl; [ | discriminate ].
  intros [= <-]. eauto.
Qed.

Lemma scholar_readable_miss
  (Model : Type) (validate : list (string * json) -> py_result Model)
  (render : Model -> py_result string) self upstream args r :
  GoogleScholar.cache self !! GoogleScholar.scholar_cache_key self args = None ->
  selected_mode (GoogleScholar.raw_json args) (GoogleScholar.readable_json args)
  = ReadableMode ->
  outcome (GoogleScholar.google_scholar_search Model validate render self upstream args)
  = Return r ->
  (exists text, r = JString text)
  /\ GoogleScholar.google_scholar_search Model validate render self upstream args
     = Run (Return r)
         (GoogleScholar.store (GoogleScholar.cache self)
            (GoogleScholar.scholar_cache_key self args) r)
         [Request GoogleScholar.base_url (GoogleScholar.scholar_params self args)].
Proof.
  intros Hmiss Hmode. unfold GoogleScholar.google_scholar_search. rewrite Hmiss.
  unfold GoogleScholar.scholar_attempt.
  destruct (upstream _) as [ status error_text body | e ]; [ | discriminate ].
  destruct (negb (status =? 200)); [ discriminate | ].
  destruct (py_contains "error" body) as [ [ | ] | e ]; simpl; try discriminate.
  { destruct (py_getitem body "error"); discriminate. }
  by_mode (GoogleScholar.raw_json args) (GoogleScholar.readable_json args) Hmode.
  destruct (GoogleScholar.readable Model validate render body) as [ f | e ] eqn:Hf;
    simpl; [ | discriminate ].
  intros [= <-]. split; [ exact (scholar_readable_is_text Model validate render body f Hf) | reflexivity ].
Qed.

(** Once a readable-mode request has been answered, every later request
    with the same query parameters gets that markdown text, whatever
    output mode it asks for and whenever it is made: a raw-mode or a
    clean-mode request is answered with text, and nothing is sent
    upstream. *)
Theorem scholar_markdown_is_served_to_every_mode
  (Model : Type) (validate : list (string * json) -> py_result Model)
  (render : Model -> py_result string)
  (self : GoogleScholar.SerpApiGoogleScholarServer)
  (upstream : request -> http_outcome) (args args' : GoogleScholar.GoogleScholarArgs)
  (r : json) :
  GoogleScholar.cache self !! GoogleScholar.scholar_cache_key self args = None ->
  selected_mode (GoogleScholar.raw_json args) (GoogleScholar.readable_json args)
  = ReadableMode ->
  outcome (GoogleScholar.google_scholar_search Model validate render self upstream args)
  = Return r ->
  GoogleScholar.scholar_params self args' = GoogleScholar.scholar_params self args ->
  let first :=
    GoogleScholar.google_scholar_search Model validate render self upstream args in
  (exists text, r = JString text)
  /\ forall upstream' : request -> http_outcome,
       GoogleScholar.google_scholar_search Model validate render
         {| GoogleScholar.api_key := GoogleScholar.api_key self;
            GoogleScholar.cache := cache_after first |}
         upstream' args'
       = Run (Return r) (cache_after first) [].
Proof.
  intros Hmiss Hmode Hout Hsame first.
  destruct (scholar_readable_miss Model validate render self upstream args r
              Hmiss Hmode Hout)
    as [[text ->] Hfirst].
  split; [ eauto | ]. intros upstream'. subst first. rewrite Hfirst. simpl.
  unfold GoogleScholar.google_scholar_search, GoogleScholar.scholar_cache_key.
  change (GoogleScholar.scholar_params
            {| GoogleScholar.api_key := GoogleScholar.api_key self;
               GoogleScholar.cache := _ |} args')
    with (GoogleScholar.scholar_params self args').
  rewrite Hsame. simpl GoogleScholar.cache. unfold GoogleScholar.store.
  rewrite lookup_insert_eq. simpl. unfold GoogleScholar.from_cache.
  destruct (truthy_bool (GoogleScholar.raw_json args')); [ reflexivity | ].
  destruct (truthy_bool (GoogleScholar.readable_json args')); reflexivity.
Qed.

Lemma call_tool_handler_is_mcp e :
  isinstance_McpError (GoogleScholar.call_tool_handler e) = true.
Proof.
  unfold GoogleScholar.call_tool_handler.
  destruct (isinstance_McpError e) eqn:He; [ exact He | reflexivity ].
Qed.

(** Every exception that leaves the Scholar server's [call_tool] is an
    [McpError]: arguments that fail validation are reported with code
    [INVALID_PARAMS] before anything is sent upstream, another tool name
    with code [METHOD_NOT_FOUND]. *)
Theorem scholar_call_tool_raises_only_mcp_errors
  (Model : Type) (validate : list (string * json) -> py_result Model)
  (render : Model -> py_result string)
  (parse : list (string * json) -> py_result GoogleScholar.GoogleScholarArgs)
  (self : GoogleScholar.SerpApiGoogleScholarServer)
  (upstream : request -> http_outcome) (name : string)
  (arguments : list (string * json)) :
  (forall e,
     outcome (GoogleScholar.call_tool Model validate render parse self upstream
                name arguments) = Raise e ->
     isinstance_McpError e = true)
  /\ (forall e,
        parse arguments = Raise e ->
        GoogleScholar.call_tool Model validate render parse self upstream
          "google_scholar_search" arguments
        = Run (Raise (Exc (McpError INVALID_PARAMS)
                        ("Invalid arguments: " +:+ exc_str e)))
            (GoogleScholar.cache self) [])
  /\ (name <> "google_scholar_search" ->
      GoogleScholar.call_tool Model validate render parse self upstream name arguments
      = Run (Raise (Exc (McpError METHOD_NOT_FOUND) ("Unknown tool: " +:+ name)))
          (GoogleScholar.cache self) []).
Proof.
  split; [ | split ].
  - intros e. unfold GoogleScholar.call_tool.
    destruct (String.eqb name "google_scholar_search").
    + destruct (parse arguments) as [ args | e' ]; simpl.
      * destruct (_ ← outcome _; _) as [ content | e' ]; [ discriminate | ].
        intros [= <-]. apply call_tool_handler_is_mcp.
      * intros [= <-]. reflexivity.
    + simpl. intros [= <-]. reflexivity.
  - intros e He. unfold GoogleScholar.call_tool. simpl. now rewrite He.
  - intros Hname. unfold GoogleScholar.call_tool.
    destruct (String.eqb_spec name "google_scholar_search"); [ contradiction | ].
    reflexivity.
Qed.

Lemma scholar_markdown_witness :
  let self := scholar_server "k" in
  let body := JObject [("search_metadata", JObject []);
                       ("search_parameters", JObject [])] in
  let first :=
    GoogleScholar.google_scholar_search _ GoogleScholar.reference_validate
      GoogleScholar.reference_heading self
      (always (Responded 200 EmptyString body)) (papers_search false true) in
  (exists text, JString ("# Google Scholar Search Results" +:+ LF) = JString text)
  /\ forall upstream' : request -> http_outcome,
       GoogleScholar.google_scholar_search _ GoogleScholar.reference_validate
         GoogleScholar.reference_heading
         {| GoogleScholar.api_key := "k"; GoogleScholar.cache := cache_after first |}
         upstream' (papers_search true false)
       = Run (Return (JString ("# Google Scholar Search Results" +:+ LF)))
           (cache_after first) [].
Proof.
  apply (scholar_markdown_is_served_to_every_mode _ GoogleScholar.reference_validate
           GoogleScholar.reference_heading (scholar_server "k")
           (always (Responded 200 EmptyString
                      (JObject [("search_metadata", JObject []);
                                ("search_parameters", JObject [])])))
           (papers_search false true) (papers_search true false)
           (JString ("# Google Scholar Search Results" +:+ LF)));
    reflexivity.
Defined.


(** ** The transcript server: its cache and its tool *)

Lemma get_transcript_miss chk nfkc unq fmt self library args video_id :
  YouTubeTranscript.extract_video_id chk nfkc unq (YouTubeTranscript.video_url args)
  = Return video_id ->
  YouTubeTranscript.cache self !! YouTubeTranscript.transcript_cache_key video_id args
  = None ->
  YouTubeTranscript.get_transcript chk nfkc unq fmt self library args
  = match YouTubeTranscript.transcript_attempt fmt self args video_id
            (YouTubeTranscript.transcript_cache_key video_id args)
            (library (transcript_call video_id args)) with
    | Return (resp, c) => (Return resp, c, [transcript_call video_id args])
    | Raise e =>
        (Return (JString (YouTubeTranscript.transcript_handler args e)),
         YouTubeTranscript.cache self, [transcript_call video_id args])
    end.
Proof.
  intros Hid Hmiss. unfold YouTubeTranscript.get_transcript. now rewrite Hid, Hmiss.
Qed.

(** A transcript that was fetched and stored is served again to the same
    request, without any call to the transcript library, whatever the
    library would answer then; the entry has no lifetime. *)
Theorem transcript_is_replayed
  (chk nfkc : string -> option string) (unq : string -> string)
  (fmt : json -> py_result string)
  (self : YouTubeTranscript.YouTubeTranscriptServer)
  (library : YouTubeTranscript.fetch_call -> py_result YouTubeTranscript.TranscriptList)
  (args : YouTubeTranscript.YouTubeTranscriptArgs) (video_id : string)
  (entry : YouTubeTranscript.CachedTranscript) :
  let key := YouTubeTranscript.transcript_cache_key video_id args in
  let first := YouTubeTranscript.get_transcript chk nfkc unq fmt self library args in
  YouTubeTranscript.extract_video_id chk nfkc unq (YouTubeTranscript.video_url args)
  = Return video_id ->
  YouTubeTranscript.cache self !! key = None ->
  snd (fst first) !! key = Some entry ->
  fst (fst first) = Return (YouTubeTranscript.response entry)
  /\ forall library',
       YouTubeTranscript.get_transcript chk nfkc unq fmt
         {| YouTubeTranscript.cache := snd (fst first) |} library' args
       = (Return (YouTubeTranscript.response entry), snd (fst first), []).
Proof.
  intros key first Hid Hmiss Hentry. split.
  - subst first. revert Hentry.
    rewrite (get_transcript_miss chk nfkc unq fmt self library args video_id Hid Hmiss).
    fold key.
    destruct (YouTubeTranscript.transcript_attempt _ _ _ _ _ _) as [ [resp c] | e ] eqn:Ha;
      simpl; [ | intros H; rewrite Hmiss in H; discriminate H ].
    revert Ha. unfold YouTubeTranscript.transcript_attempt.
    destruct (library _) as [ available | ]; simpl; [ | discriminate ].
    destruct (YouTubeTranscript.choose_transcript args available) as [ [ t | ] | ];
      simpl; try discriminate.
    + destruct (YouTubeTranscript.fetch t) as [ data | ]; simpl; [ | discriminate ].
      destruct (YouTubeTranscript.transcript_response fmt args data) as [ r | ];
        simpl; [ | discriminate ].
      intros [= <- <-]. unfold YouTubeTranscript.store. rewrite lookup_insert_eq.
      now intros [= <-].
    + intros [= <- <-] H. rewrite Hmiss in H. discriminate H.
  - intros library'. unfold YouTubeTranscript.get_transcript. rewrite Hid. simpl.
    fold key. now rewrite Hentry.
Qed.

(** The answers that report a failure are not stored, so the same request
    made again calls the transcript library again: so it is when the
    library raises, when the video has no transcript at all, and when
    fetching the chosen transcript raises. *)
Theorem transcript_failures_are_not_cached
  (chk nfkc : string -> option string) (unq : string -> string)
  (fmt : json -> py_result string)
  (self : YouTubeTranscript.YouTubeTranscriptServer)
  (library : YouTubeTranscript.fetch_call -> py_result YouTubeTranscript.TranscriptList)
  (args : YouTubeTranscript.YouTubeTranscriptArgs) (video_id : string) :
  let call := transcript_call video_id args in
  let answered (text : string) :=
    YouTubeTranscript.get_transcript chk nfkc unq fmt self library args
    = (Return (JString text), YouTubeTranscript.cache self, [call]) in
  YouTubeTranscript.extract_video_id chk nfkc unq (YouTubeTranscript.video_url args)
  = Return video_id ->
  YouTubeTranscript.cache self !! YouTubeTranscript.transcript_cache_key video_id args
  = None ->
  (forall e, library call = Raise e ->
             answered (YouTubeTranscript.transcript_handler args e))
  /\ (forall available message,
        library call = Return available ->
        YouTubeTranscript.find_transcript available [YouTubeTranscript.language args]
        = Raise (Exc NoTranscriptFound message) ->
        YouTubeTranscript.transcripts available = [] ->
        answered ("No transcript found for video " +:+ video_id))
  /\ (forall available transcript e,
        library call = Return available ->
        YouTubeTranscript.find_transcript available [YouTubeTranscript.language args]
        = Return transcript ->
        YouTubeTranscript.fetch transcript = Raise e ->
        answered (YouTubeTranscript.transcript_handler args e)).
Proof.
  intros call answered Hid Hmiss. subst answered call.
  rewrite (get_transcript_miss chk nfkc unq fmt self library args video_id Hid Hmiss).
  unfold YouTubeTranscript.transcript_attempt, YouTubeTranscript.choose_transcript.
  repeat split.
  - intros e ->. reflexivity.
  - intros available message -> Hfind Hnone. simpl. now rewrite Hfind, Hnone.
  - intros available transcript e -> Hfind Hfetch. simpl. rewrite Hfind. simpl.
    now rewrite Hfetch.
Qed.

(** [call_tool] of the transcript server never raises: arguments that
    fail validation and a tool name other than [youtube_transcript] are
    answered with a text that starts with [Error: ], and the transcript
    library is not called. *)
Theorem transcript_call_tool_never_raises
  (chk nfkc : string -> option string) (unq : string -> string)
  (fmt : json -> py_result string)
  (parse : list (string * json) -> py_result YouTubeTranscript.YouTubeTranscriptArgs)
  (self : YouTubeTranscript.YouTubeTranscriptServer)
  (library : YouTubeTranscript.fetch_call -> py_result YouTubeTranscript.TranscriptList)
  (name : string) (arguments : list (string * json)) :
  (exists content,
     fst (fst (YouTubeTranscript.call_tool chk nfkc unq fmt parse self library
                 name arguments)) = Return content)
  /\ (forall e,
        parse arguments = Raise e ->
        YouTubeTranscript.call_tool chk nfkc unq fmt parse self library
          "youtube_transcript" arguments
        = (Return (YouTubeTranscript.text_content ("Error: " +:+ exc_str e)),
           YouTubeTranscript.cache self, []))
  /\ (name <> "youtube_transcript" ->
      YouTubeTranscript.call_tool chk nfkc unq fmt parse self library name arguments
      = (Return (YouTubeTranscript.text_content
                   ("Error: Tool '" +:+ name +:+ "' not found")),
         YouTubeTranscript.cache self, [])).
Proof.
  split; [ | split ].
  - unfold YouTubeTranscript.call_tool.
    destruct (String.eqb name "youtube_transcript"); [ | eexists; reflexivity ].
    destruct (parse arguments) as [ args | e ]; [ | eexists; reflexivity ].
    destruct (YouTubeTranscript.get_transcript _ _ _ _ _ _ _) as [ [ [ r | e ] c ] calls ];
      eexists; reflexivity.
  - intros e He. unfold YouTubeTranscript.call_tool. simpl. now rewrite He.
  - intros Hname. unfold YouTubeTranscript.call_tool.
    destruct (String.eqb_spec name "youtube_transcript"); [ contradiction | ].
    reflexivity.
Qed.

Lemma transcript_is_replayed_witness :
  let first :=
    YouTubeTranscript.get_transcript (fun _ => None) (fun _ => None) (fun s => s)
      (fun _ => raise TypeError EmptyString)
      {| YouTubeTranscript.cache := ∅ |} hello_library hello_request in
  fst (fst first) = Return (JString "hello world")
  /\ forall library',
       YouTubeTranscript.get_transcript (fun _ => None) (fun _ => None) (fun s => s)
         (fun _ => raise TypeError EmptyString)
         {| YouTubeTranscript.cache := snd (fst first) |} library' hello_request
       = (Return (JString "hello world"), snd (fst first), []).
Proof.
  apply (transcript_is_replayed (fun _ => None) (fun _ => None) (fun s => s)
           (fun _ => raise TypeError EmptyString)
           {| YouTubeTranscript.cache := ∅ |} hello_library hello_request
           "dQw4w9WgXcQ"
           {| YouTubeTranscript.video_id := "dQw4w9WgXcQ";
              YouTubeTranscript.cached_language := Some "en";
              YouTubeTranscript.response := JString "hello world" |});
    reflexivity.
Defined.

Lemma transcript_failures_witness :
  YouTubeTranscript.get_transcript (fun _ => None) (fun _ => None) (fun s => s)
    (fun _ => raise TypeError EmptyString)
    {| YouTubeTranscript.cache := ∅ |}
    (fun _ => raise TranscriptsDisabled EmptyString) hello_request
  = (Return (JString "Error: Transcripts are disabled for this video"), ∅,
     [transcript_call "dQw4w9WgXcQ" hello_request]).
Proof.
  apply (proj1 (transcript_failures_are_not_cached (fun _ => None) (fun _ => None)
                  (fun s => s) (fun _ => raise TypeError EmptyString)
                  {| YouTubeTranscript.cache := ∅ |}
                  (fun _ => raise TranscriptsDisabled EmptyString) hello_request
                  "dQw4w9WgXcQ" eq_refl (lookup_empty _))
           (Exc TranscriptsDisabled EmptyString)).
  reflexivity.
Defined.


(** ** Video identifiers in URLs *)

Lemma none_of_char_in specials s c :
  none_of specials s = true -> char_in c specials = true -> char_in c s = false.
Proof.
  intros Hs Hc. induction s as [ | d rest IH ]; [ reflexivity | ].
  simpl in Hs |- *. apply andb_prop in Hs as [Hd Hrest].
  rewrite (IH Hrest), orb_false_r.
  destruct (Ascii.eqb_spec c d) as [ <- | ]; [ | reflexivity ].
  now rewrite Hc in Hd.
Qed.

Lemma partition_char_absent c s :
  char_in c s = false -> partition_char c s = (s, false, EmptyString).
Proof.
  induction s as [ | d rest IH ]; [ reflexivity | ]. simpl.
  destruct (Ascii.eqb c d); [ discriminate | ]. simpl. intros H. now rewrite (IH H).
Qed.

Lemma remove_unsafe_plain s :
  none_of url_delimiters s = true -> UrlParse.remove_unsafe s = s.
Proof.
  induction s as [ | c rest IH ]; [ reflexivity | ].
  intros Hs. simpl in Hs. apply andb_prop in Hs as [Hc Hrest].
  simpl. rewrite (IH Hrest).
  revert Hc. clear.
  destruct c as [[] [] [] [] [] [] [] []]; vm_compute; intros H;
    try discriminate H; reflexivity.
Qed.

Lemma split_char_absent c s : char_in c s = false -> split_char c s = [s].
Proof.
  induction s as [ | d rest IH ]; [ reflexivity | ]. simpl.
  destruct (Ascii.eqb c d); [ discriminate | ]. simpl. intros H. now rewrite (IH H).
Qed.

Lemma plus_to_space_absent s :
  char_in "+" s = false -> UrlParse.plus_to_space s = s.
Proof.
  induction s as [ | d rest IH ]; [ reflexivity | ]. intros H.
  change (char_in "+" (String d rest)) with (Ascii.eqb "+" d || char_in "+" rest) in H.
  apply orb_false_elim in H as [Hd H].
  change (UrlParse.plus_to_space (String d rest))
    with (String (if Ascii.eqb d "+" then chr 32 else d) (UrlParse.plus_to_space rest)).
  now rewrite (IH H), Ascii.eqb_sym, Hd.
Qed.

Lemma startswith_empty s : startswith EmptyString s = true.
Proof. now destruct s. Qed.

(** The query string that consists of one parameter, named [v] or [t]. *)
Lemma parse_qsl_single unq value :
  value <> EmptyString ->
  none_of "&+%" value = true ->
  UrlParse.parse_qsl unq (String "v" (String "=" value)) = [("v", value)]
  /\ UrlParse.parse_qsl unq (String "t" (String "=" value)) = [("t", value)].
Proof.
  intros Hne Hv.
  pose proof (none_of_char_in _ _ "&" Hv eq_refl) as Hamp.
  pose proof (none_of_char_in _ _ "+" Hv eq_refl) as Hplus.
  pose proof (none_of_char_in _ _ "%" Hv eq_refl) as Hpercent.
  unfold UrlParse.parse_qsl. simpl. rewrite (split_char_absent _ _ Hamp). simpl.
  destruct value as [ | c rest ]; [ contradiction | ].
  rewrite (plus_to_space_absent _ Hplus). unfold UrlParse.unquote.
  rewrite Hpercent. split; reflexivity.
Qed.

(** Parsing a URL that is a literal text followed by [id]: the literal is
    parsed by evaluation, up to the first function that looks at [id]. *)
Ltac parse_url Hid :=
  cbv beta iota delta [String.append];
  unfold YouTubeTranscript.extract_video_id, YouTubeTranscript.urlparse,
    UrlParse.urlparse, UrlParse.urlsplit;
  simpl; rewrite (remove_unsafe_plain _ Hid).

Ltac parse_path Hid Hfrag Hquery Hparams :=
  parse_url Hid; rewrite (partition_char_absent _ _ Hfrag); simpl;
  rewrite (partition_char_absent _ _ Hquery); simpl; rewrite Hparams; simpl;
  rewrite ?startswith_empty; reflexivity.

Ltac parse_watch unq Hid Hfrag :=
  cbv beta iota delta [String.append];
  unfold YouTubeTranscript.extract_video_id, YouTubeTranscript.urlparse,
    UrlParse.urlparse, UrlParse.urlsplit;
  let qsl := fresh "qsl" in
  remember (UrlParse.parse_qsl unq) as qsl;
  simpl; rewrite (remove_unsafe_plain _ Hid);
  rewrite (partition_char_absent _ _ Hfrag); simpl; subst qsl.

(** Every identifier is extracted from each URL shape the server knows.
    For an identifier that holds none of tab, line feed, carriage return,
    [#], [?] and [;], the short link, the Shorts link, the embed link
    and the [/v/] link yield the identifier, the empty one included; the
    watch link yields it when it is moreover not empty and holds none of
    [&], [+] and [%]. A watch link whose query holds no [v] parameter, or
    an empty one, makes [extract_video_id] raise the [KeyError] of the
    lookup, whose text is ['v'], not its own [ValueError]. *)
Theorem video_id_of_each_url_shape
  (chk nfkc : string -> option string) (unq : string -> string) (id : string) :
  none_of url_delimiters id = true ->
  YouTubeTranscript.extract_video_id chk nfkc unq ("https://youtu.be/" +:+ id)
  = Return id
  /\ YouTubeTranscript.extract_video_id chk nfkc unq
       ("https://www.youtube.com/shorts/" +:+ id)
     = Return id
  /\ YouTubeTranscript.extract_video_id chk nfkc unq
       ("https://www.youtube.com/embed/" +:+ id)
     = Return id
  /\ YouTubeTranscript.extract_video_id chk nfkc unq
       ("https://www.youtube.com/v/" +:+ id)
     = Return id
  /\ (id <> EmptyString -> none_of "&+%" id = true ->
      YouTubeTranscript.extract_video_id chk nfkc unq
        ("https://www.youtube.com/watch?v=" +:+ id)
      = Return id
      /\ YouTubeTranscript.extract_video_id chk nfkc unq
           ("https://www.youtube.com/watch?t=" +:+ id)
         = raise KeyError "'v'")
  /\ YouTubeTranscript.extract_video_id chk nfkc unq "https://www.youtube.com/watch?v="
     = raise KeyError "'v'".
Proof.
  intros Hid.
  pose proof (none_of_char_in _ _ "#" Hid eq_refl) as Hfrag.
  pose proof (none_of_char_in _ _ "?" Hid eq_refl) as Hquery.
  pose proof (none_of_char_in _ _ ";" Hid eq_refl) as Hparams.
  split; [ | split; [ | split; [ | split; [ | split ] ] ] ].
  - parse_path Hid Hfrag Hquery Hparams.
  - parse_path Hid Hfrag Hquery Hparams.
  - parse_path Hid Hfrag Hquery Hparams.
  - parse_path Hid Hfrag Hquery Hparams.
  - intros Hne Hquoted. split.
    + parse_watch unq Hid Hfrag.
      now rewrite (proj1 (parse_qsl_single unq id Hne Hquoted)).
    + parse_watch unq Hid Hfrag.
      now rewrite (proj2 (parse_qsl_single unq id Hne Hquoted)).
  - reflexivity.
Qed.

(** An identifier with a colon and a slash, in an embed link. *)
Lemma video_id_of_each_url_shape_witness :
  YouTubeTranscript.extract_video_id (fun _ => None) (fun _ => None) (fun s => s)
    ("https://www.youtube.com/embed/" +:+ "a-b_c:d/e")
  = Return "a-b_c:d/e".
Proof.
  apply (proj1 (proj2 (proj2 (video_id_of_each_url_shape
                                (fun _ => None) (fun _ => None) (fun s => s)
                                "a-b_c:d/e" eq_refl)))).
Defined.

(** ** Video identifiers (claim C9) *)

(** *** Texts in which no video is recognised *)

Lemma char_in_lstrip_c0 c s :
  char_in c s = false -> char_in c (UrlParse.lstrip_c0 s) = false.
Proof.
  induction s as [ | d rest IH ]; [ reflexivity | ]. intros H.
  change (char_in c (String d rest)) with (Ascii.eqb c d || char_in c rest) in H.
  apply orb_false_elim in H as [Hd H]. simpl.
  destruct (Nat.leb (ord d) 32); [ now apply IH | ].
  change (char_in c (String d rest)) with (Ascii.eqb c d || char_in c rest).
  now rewrite Hd, H.
Qed.

Lemma char_in_remove_unsafe c s :
  char_in c s = false -> char_in c (UrlParse.remove_unsafe s) = false.
Proof.
  induction s as [ | d rest IH ]; [ reflexivity | ]. intros H.
  change (char_in c (String d rest)) with (Ascii.eqb c d || char_in c rest) in H.
  apply orb_false_elim in H as [Hd H]. simpl.
  destruct (Nat.eqb (ord d) 9 || Nat.eqb (ord d) 13 || Nat.eqb (ord d) 10);
    [ now apply IH | ].
  change (char_in c (String d (UrlParse.remove_unsafe rest)))
    with (Ascii.eqb c d || char_in c (UrlParse.remove_unsafe rest)).
  now rewrite Hd, (IH H).
Qed.

Lemma startswith_slashes s : char_in "/" s = false -> startswith "//" s = false.
Proof.
  destruct s as [ | d rest ]; [ reflexivity | ]. intros H.
  change (char_in "/" (String d rest)) with (Ascii.eqb "/" d || char_in "/" rest) in H.
  apply orb_false_elim in H as [Hd _]. unfold startswith.
  change (String.prefix "//" (String d rest))
    with (if Ascii.ascii_dec "/" d then String.prefix "/" rest else false).
  destruct (Ascii.ascii_dec "/" d) as [ <- | ]; [ discriminate Hd | reflexivity ].
Qed.

(** A text without a colon and without a slash has no host. *)
Lemma hostless_text_is_refused chk nfkc unq text :
  char_in "/" text = false -> char_in ":" text = false ->
  (11 < String.length text)%nat \/ char_in "." text = true ->
  YouTubeTranscript.extract_video_id chk nfkc unq text
  = raise ValueError "Could not extract video ID from URL".
Proof.
  intros Hslash Hcolon Hshape. unfold YouTubeTranscript.extract_video_id.
  assert (Hbare : (Nat.leb (String.length text) 11 && negb (char_in "/" text)
                   && negb (char_in "." text)) = false).
  { destruct Hshape as [ Hlen | Hdot ].
    - apply Nat.leb_gt in Hlen. now rewrite Hlen.
    - rewrite Hdot. apply andb_false_r. }
  rewrite Hbare. clear Hbare Hshape.
  unfold YouTubeTranscript.urlparse, UrlParse.urlparse, UrlParse.urlsplit.
  pose proof (char_in_remove_unsafe _ _ (char_in_lstrip_c0 _ _ Hslash)) as Hslash'.
  pose proof (char_in_remove_unsafe _ _ (char_in_lstrip_c0 _ _ Hcolon)) as Hcolon'.
  generalize dependent (UrlParse.remove_unsafe (UrlParse.lstrip_c0 text)).
  intros url Hslash' Hcolon'. clear text Hslash Hcolon.
  unfold UrlParse.split_scheme. rewrite (partition_char_absent _ _ Hcolon').
  assert (Hscheme : match url with
                    | String c _ =>
                        if false && UrlParse.is_ascii_char c && UrlParse.is_ascii_alpha c
                           && UrlParse.all_chars
                                (fun d => char_in d UrlParse.scheme_chars) url
                        then (lower url, EmptyString) else (EmptyString, url)
                    | EmptyString => (EmptyString, url)
                    end = (EmptyString, url)) by now destruct url.
  rewrite Hscheme. clear Hscheme. rewrite (startswith_slashes _ Hslash'). simpl.
  destruct (partition_char "#" url) as [[u found] fragment].
  destruct (partition_char "?" u) as [[path found'] query]. simpl.
  destruct (char_in ";" path); [ destruct (UrlParse.splitparams path) | ]; reflexivity.
Qed.

(** A URL of another site, whatever follows the host. *)
Lemma other_site_is_refused chk nfkc unq rest :
  YouTubeTranscript.extract_video_id chk nfkc unq ("https://example.com/" +:+ rest)
  = raise ValueError "Could not extract video ID from URL".
Proof.
  cbv beta iota delta [String.append].
  unfold YouTubeTranscript.extract_video_id, YouTubeTranscript.urlparse,
    UrlParse.urlparse, UrlParse.urlsplit.
  simpl. generalize (UrlParse.remove_unsafe rest). intros r.
  destruct (partition_char "#" r) as [[u found] fragment]. simpl.
  destruct (partition_char "?" u) as [[path found'] query]. simpl.
  destruct (char_in ";" path);
    [ destruct (UrlParse.splitparams (String "/" path)) | ]; reflexivity.
Qed.

(** A YouTube URL whose path is none of the known ones. *)
Lemma playlist_is_refused chk nfkc unq rest :
  YouTubeTranscript.extract_video_id chk nfkc unq
    ("https://www.youtube.com/playlist?list=" +:+ rest)
  = raise ValueError "Could not extract video ID from URL".
Proof.
  cbv beta iota delta [String.append].
  unfold YouTubeTranscript.extract_video_id, YouTubeTranscript.urlparse,
    UrlParse.urlparse, UrlParse.urlsplit.
  simpl. generalize (UrlParse.remove_unsafe rest). intros r.
  destruct (partition_char "#" r) as [[u found] fragment]. simpl. reflexivity.
Qed.

Lemma none_of_app specials s t :
  none_of specials s = true -> none_of specials t = true ->
  none_of specials (s +:+ t) = true.
Proof.
  intros Hs Ht. induction s as [ | d rest IH ]; [ exact Ht | ].
  change (String d rest +:+ t) with (String d (rest +:+ t)).
  unfold none_of in *. simpl in Hs |- *. apply andb_prop in Hs as [Hd Hrest].
  apply andb_true_intro. split; [ exact Hd | exact (IH Hrest) ].
Qed.

Lemma split_char_app c s t :
  char_in c s = false -> split_char c (s +:+ String c t) = s :: split_char c t.
Proof.
  induction s as [ | d rest IH ]; intros H.
  - change (EmptyString +:+ String c t) with (String c t). simpl.
    now rewrite Ascii.eqb_refl.
  - change (String d rest +:+ String c t) with (String d (rest +:+ String c t)).
    change (char_in c (String d rest)) with (Ascii.eqb c d || char_in c rest) in H.
    apply orb_false_elim in H as [Hd H]. simpl. now rewrite Hd, (IH H).
Qed.

(** The query string of a watch link with a time offset. *)
Lemma parse_qsl_with_time unq id :
  id <> EmptyString -> none_of "&+%" id = true ->
  UrlParse.parse_qsl unq (String "v" (String "=" (id +:+ "&t=5")))
  = [("v", id); ("t", "5")].
Proof.
  intros Hne Hv.
  pose proof (none_of_char_in _ _ "&" Hv eq_refl) as Hamp.
  pose proof (none_of_char_in _ _ "+" Hv eq_refl) as Hplus.
  pose proof (none_of_char_in _ _ "%" Hv eq_refl) as Hpercent.
  unfold UrlParse.parse_qsl. simpl. rewrite (split_char_app _ _ _ Hamp). simpl.
  destruct id as [ | c rest ]; [ contradiction | ].
  rewrite (plus_to_space_absent _ Hplus). unfold UrlParse.unquote.
  rewrite Hpercent. reflexivity.
Qed.

Lemma watch_link_with_time chk nfkc unq id :
  none_of url_delimiters id = true ->
  id <> EmptyString -> none_of "&+%" id = true ->
  YouTubeTranscript.extract_video_id chk nfkc unq
    ("https://www.youtube.com/watch?v=" +:+ id +:+ "&t=5")
  = Return id.
Proof.
  intros Hid Hne Hquoted.
  pose proof (parse_qsl_with_time unq id Hne Hquoted) as Hqsl.
  assert (Htail : none_of url_delimiters (id +:+ "&t=5") = true)
    by (apply none_of_app; [ exact Hid | reflexivity ]).
  revert Hqsl Htail. generalize (id +:+ "&t=5"). intros tail Hqsl Htail.
  pose proof (none_of_char_in _ _ "#" Htail eq_refl) as Hfrag.
  parse_watch unq Htail Hfrag. now rewrite Hqsl.
Qed.

(** C9. The three URLs of the specification yield the identifier
    [abc123XYZ9], and so does each of the three shapes for every
    identifier: the short link and the Shorts link for an identifier
    without tab, line feed, carriage return, [#], [?] and [;], the watch
    link followed by a time offset for one that is moreover not empty
    and holds none of [&], [+] and [%]. A string of eleven characters
    with no slash and no dot is its own identifier. No video is
    recognised, and [extract_video_id] raises its [ValueError], in a
    text without slash and colon that is longer than eleven characters
    or holds a dot, in a URL of the site [example.com] and in a playlist
    URL of YouTube, whatever follows. When the identifier cannot be
    extracted, and so for each of these texts, [get_transcript] returns
    the text of the error, [Error: Could not extract video ID from URL],
    without raising, without looking at the cache and without calling
    the transcript library. *)
Theorem video_id_extraction
  (chk nfkc : string -> option string) (unq : string -> string)
  (fmt : json -> py_result string) :
  YouTubeTranscript.extract_video_id chk nfkc unq "https://youtu.be/abc123XYZ9"
  = Return "abc123XYZ9"
  /\ YouTubeTranscript.extract_video_id chk nfkc unq
       "https://www.youtube.com/watch?v=abc123XYZ9&t=5"
     = Return "abc123XYZ9"
  /\ YouTubeTranscript.extract_video_id chk nfkc unq
       "https://www.youtube.com/shorts/abc123XYZ9"
     = Return "abc123XYZ9"
  /\ (forall url,
        String.length url = 11%nat ->
        char_in "/" url = false ->
        char_in "." url = false ->
        YouTubeTranscript.extract_video_id chk nfkc unq url = Return url)
  /\ (forall self library args e,
        YouTubeTranscript.extract_video_id chk nfkc unq
          (YouTubeTranscript.video_url args) = Raise e ->
        YouTubeTranscript.get_transcript chk nfkc unq fmt self library args
        = (Return (JString (YouTubeTranscript.transcript_handler args e)),
           YouTubeTranscript.cache self, []))
  /\ (forall self library args,
        YouTubeTranscript.extract_video_id chk nfkc unq
          (YouTubeTranscript.video_url args)
        = Raise (Exc ValueError "Could not extract video ID from URL") ->
        YouTubeTranscript.get_transcript chk nfkc unq fmt self library args
        = (Return (JString "Error: Could not extract video ID from URL"),
           YouTubeTranscript.cache self, []))
  /\ (forall id,
        none_of url_delimiters id = true ->
        YouTubeTranscript.extract_video_id chk nfkc unq ("https://youtu.be/" +:+ id)
        = Return id
        /\ YouTubeTranscript.extract_video_id chk nfkc unq
             ("https://www.youtube.com/shorts/" +:+ id)
           = Return id
        /\ (id <> EmptyString -> none_of "&+%" id = true ->
            YouTubeTranscript.extract_video_id chk nfkc unq
              ("https://www.youtube.com/watch?v=" +:+ id +:+ "&t=5")
            = Return id))
  /\ (forall text,
        char_in "/" text = false -> char_in ":" text = false ->
        (11 < String.length text)%nat \/ char_in "." text = true ->
        YouTubeTranscript.extract_video_id chk nfkc unq text
        = raise ValueError "Could not extract video ID from URL")
  /\ (forall rest,
        YouTubeTranscript.extract_video_id chk nfkc unq
          ("https://example.com/" +:+ rest)
        = raise ValueError "Could not extract video ID from URL"
        /\ YouTubeTranscript.extract_video_id chk nfkc unq
             ("https://www.youtube.com/playlist?list=" +:+ rest)
           = raise ValueError "Could not extract video ID from URL")
  /\ (forall self library args,
        (char_in "/" (YouTubeTranscript.video_url args) = false
         /\ char_in ":" (YouTubeTranscript.video_url args) = false
         /\ ((11 < String.length (YouTubeTranscript.video_url args))%nat
             \/ char_in "." (YouTubeTranscript.video_url args) = true))
        \/ (exists rest,
              YouTubeTranscript.video_url args = "https://example.com/" +:+ rest)
        \/ (exists rest,
              YouTubeTranscript.video_url args
              = "https://www.youtube.com/playlist?list=" +:+ rest) ->
        YouTubeTranscript.get_transcript chk nfkc unq fmt self library args
        = (Return (JString "Error: Could not extract video ID from URL"),
           YouTubeTranscript.cache self, [])).
Proof.
  split; [ reflexivity | ]. split; [ reflexivity | ]. split; [ reflexivity | ].
  split; [ | split; [ | split; [ | split; [ | split; [ | split ] ] ] ] ].
  - intros url Hlen Hslash Hdot. unfold YouTubeTranscript.extract_video_id.
    now rewrite Hlen, Hslash, Hdot.
  - intros self library args e He. unfold YouTubeTranscript.get_transcript.
    now rewrite He.
  - intros self library args He. unfold YouTubeTranscript.get_transcript.
    now rewrite He.
  - intros id Hid.
    pose proof (none_of_char_in _ _ "#" Hid eq_refl) as Hfrag.
    pose proof (none_of_char_in _ _ "?" Hid eq_refl) as Hquery.
    pose proof (none_of_char_in _ _ ";" Hid eq_refl) as Hparams.
    split; [ | split ].
    + parse_path Hid Hfrag Hquery Hparams.
    + parse_path Hid Hfrag Hquery Hparams.
    + intros Hne Hquoted. now apply watch_link_with_time.
  - intros text Hslash Hcolon Hshape. now apply hostless_text_is_refused.
  - intros rest. split; [ apply other_site_is_refused | apply playlist_is_refused ].
  - intros self library args Hshape.
    assert (He : YouTubeTranscript.extract_video_id chk nfkc unq
                   (YouTubeTranscript.video_url args)
                 = raise ValueError "Could not extract video ID from URL").
    { destruct Hshape as [ (Hslash & Hcolon & Hshape) | [ [rest ->] | [rest ->] ] ].
      - now apply hostless_text_is_refused.
      - apply other_site_is_refused.
      - apply playlist_is_refused. }
    unfold YouTubeTranscript.get_transcript. now rewrite He.
Qed.

(** C9, witness: an identifier of eleven characters, alone and in a watch
    link, a host name alone, and a URL of another site. *)
Lemma video_id_extraction_witness :
  YouTubeTranscript.extract_video_id (fun _ => None) (fun _ => None) (fun s => s)
    "dQw4w9WgXcQ"
  = Return "dQw4w9WgXcQ"
  /\ YouTubeTranscript.extract_video_id (fun _ => None) (fun _ => None) (fun s => s)
       ("https://www.youtube.com/watch?v=" +:+ "dQw4w9WgXcQ" +:+ "&t=5")
     = Return "dQw4w9WgXcQ"
  /\ YouTubeTranscript.extract_video_id (fun _ => None) (fun _ => None) (fun s => s)
       "youtube.com"
     = raise ValueError "Could not extract video ID from URL"
  /\ YouTubeTranscript.get_transcript (fun _ => None) (fun _ => None) (fun s => s)
       (fun _ => raise TypeError "unsupported operand")
       {| YouTubeTranscript.cache := ∅ |}
       (fun _ => raise VideoUnavailable EmptyString)
       {| YouTubeTranscript.video_url := "https://example.com/watch?v=abc123XYZ9";
          YouTubeTranscript.with_timestamps := Some false;
          YouTubeTranscript.language := Some "en";
          YouTubeTranscript.preserve_formatting := Some false;
          YouTubeTranscript.cookies_path := None;
          YouTubeTranscript.proxy := None;
          YouTubeTranscript.raw_json := Some false;
          YouTubeTranscript.readable_json := Some false;
          YouTubeTranscript.text_transcript := Some false |}
     = (Return (JString "Error: Could not extract video ID from URL"), ∅, []).
Proof.
  pose proof (video_id_extraction (fun _ => None) (fun _ => None) (fun s => s)
                (fun _ => raise TypeError "unsupported operand"))
    as (_ & _ & _ & Hbare & _ & _ & Hshapes & Hhostless & _ & Hanswer).
  refine (conj (Hbare "dQw4w9WgXcQ" eq_refl eq_refl eq_refl) (conj _ (conj _ _))).
  - apply (proj2 (proj2 (Hshapes "dQw4w9WgXcQ" eq_refl))); [ discriminate | reflexivity ].
  - apply Hhostless; [ reflexivity | reflexivity | right; reflexivity ].
  - apply Hanswer. right. left. exists "watch?v=abc123XYZ9". reflexivity.
Defined.

(** ** Field validators of the argument models *)

(** The validator of [start] accepts a start index exactly when its sum
    with [num] is at most 100, the sum 100 included; [num] counts as 10
    when the validated data holds none. An absent [start] is accepted
    whatever [num] is, and a [start] beside a [num] that is [None] makes
    the addition raise a [TypeError] instead of the [ValueError]. *)
Theorem start_and_num_are_bounded_by_100 (start num : Z) :
  (GoogleSearch.validate_start_and_num (Some start) (Some (Some num))
   = Return (Some start) <-> start + num <= 100)
  /\ (GoogleSearch.validate_start_and_num (Some start) None
      = Return (Some start) <-> start <= 90)
  /\ (100 < start + num ->
      exists message,
        GoogleSearch.validate_start_and_num (Some start) (Some (Some num))
        = raise ValueError message)
  /\ GoogleSearch.validate_start_and_num None (Some (Some num)) = Return None
  /\ GoogleSearch.validate_start_and_num (Some start) (Some None)
     = raise TypeError "unsupported operand type(s) for +: 'int' and 'NoneType'".
Proof.
  unfold GoogleSearch.validate_start_and_num. simpl. repeat split.
  - destruct (Z.ltb_spec 100 (start + num)); [ discriminate | lia ].
  - intros H. destruct (Z.ltb_spec 100 (start + num)); [ lia | reflexivity ].
  - destruct (Z.ltb_spec 100 (start + 10)); [ discriminate | lia ].
  - intros H. destruct (Z.ltb_spec 100 (start + 10)); [ lia | reflexivity ].
  - intros H. destruct (Z.ltb_spec 100 (start + num)); [ eauto | lia ].
Qed.

(** The validator of [q] in the Maps arguments rejects nothing as long
    as the validated data holds no [type]; such is the data of the
    model's first field, which [q] is. The validator of [data] rejects a
    [data] that is [None] for the type [place] as long as the validated
    data holds no [place_id]; [place_id] is declared after [data], so a
    [place_id] that comes with the request is not in that data. A
    [data] that is given is always accepted. *)
Theorem maps_validators_see_earlier_fields_only
  (v : option string) (model_data : list (string * json)) :
  (dict_get "type" model_data = None ->
   GoogleMaps.validate_search_parameters v model_data = Return v)
  /\ (dict_get "place_id" model_data = None ->
      dict_get "type" model_data = Some (JString "place") ->
      GoogleMaps.validate_place_parameters None model_data
      = raise ValueError
          "Parameter 'data' is required when type is 'place' and place_id is not provided")
  /\ (v <> None ->
      GoogleMaps.validate_place_parameters v model_data = Return v).
Proof.
  repeat split.
  - intros Htype. unfold GoogleMaps.validate_search_parameters. now rewrite Htype.
  - intros Hplace Htype. unfold GoogleMaps.validate_place_parameters.
    now rewrite Htype, Hplace.
  - intros Hv. unfold GoogleMaps.validate_place_parameters.
    destruct v; [ | contradiction ]. now rewrite !andb_false_r.
Qed.

Lemma maps_validators_witness :
  GoogleMaps.validate_search_parameters None [] = Return None
  /\ GoogleMaps.validate_place_parameters None
       [("q", JNull); ("type", JString "place")]
     = raise ValueError
         "Parameter 'data' is required when type is 'place' and place_id is not provided".
Proof.
  split.
  - apply (proj1 (maps_validators_see_earlier_fields_only None [])). reflexivity.
  - apply (proj1 (proj2 (maps_validators_see_earlier_fields_only None
                           [("q", JNull); ("type", JString "place")])));
      reflexivity.
Defined.

(** The validator of the Scholar arguments, field by field. On [q] it
    rejects [None] as long as the validated data holds neither [cites]
    nor [cluster], both of which are declared after [q]; a [q] that is
    given is accepted. On [cluster] it rejects a value exactly when the
    data holds a [q] or a [cites] that is not empty. On [cites] it
    rejects nothing. *)
Theorem scholar_validator_by_field
  (v : option string) (values : list (string * json)) :
  (dict_get "cites" values = None -> dict_get "cluster" values = None ->
   GoogleScholar.validate_search_parameters "q" None values
   = raise ValueError
       "At least one of 'q', 'cites', or 'cluster' parameters must be provided.")
  /\ (v <> None -> GoogleScholar.validate_search_parameters "q" v values = Return v)
  /\ (GoogleScholar.validate_search_parameters "cluster" v values = Return v
      <-> v = None
          \/ (py_truthy (default JNull (dict_get "q" values)) = false
              /\ py_truthy (default JNull (dict_get "cites" values)) = false))
  /\ GoogleScholar.validate_search_parameters "cites" v values = Return v.
Proof.
  repeat split.
  - intros Hcites Hcluster. unfold GoogleScholar.validate_search_parameters.
    now rewrite Hcites, Hcluster.
  - intros Hv. unfold GoogleScholar.validate_search_parameters.
    destruct v; [ reflexivity | contradiction ].
  - unfold GoogleScholar.validate_search_parameters. simpl.
    destruct v as [ s | ]; [ | now left ].
    destruct (py_truthy (default JNull (dict_get "q" values)));
      [ discriminate | ].
    destruct (py_truthy (default JNull (dict_get "cites" values)));
      [ discriminate | ].
    now right.
  - unfold GoogleScholar.validate_search_parameters. simpl.
    intros [ -> | [-> ->] ]; [ reflexivity | ]. now destruct v.
Qed.

Lemma scholar_validator_witness :
  GoogleScholar.validate_search_parameters "q" None []
  = raise ValueError
      "At least one of 'q', 'cites', or 'cluster' parameters must be provided."
  /\ GoogleScholar.validate_search_parameters "q" (Some "coq") [] = Return (Some "coq").
Proof.
  split.
  - apply (proj1 (scholar_validator_by_field None [])); reflexivity.
  - apply (proj1 (proj2 (scholar_validator_by_field (Some "coq") []))). discriminate.
Defined.
